(** * MCP server: JSON-RPC dispatch, the Express transport and the stdio transport

    A shallow embedding of the two servers of the repository:
    - the Express server: [utils/jsonrpc.ts], [handlers/mcpHandler.ts]
      (class [McpServer]) and [server.ts] (class [ExpressMcpServer]);
    - the stdio server: [server/MCPServer.ts] (class [MCPServer]) and
      [index.ts] (class [StdioTransport]).

    Promises are modelled by their settled outcome: an [async] function
    becomes a function returning either the thrown value or the result,
    together with the new state of the object it mutates.  Of a call of
    the logger the model keeps whether it returns or throws; what it
    writes to the console is modelled for the class [Logger] itself. *)

From Stdlib Require Import String Ascii List ZArith Bool PrimFloat Lia.
Import ListNotations.
Open Scope string_scope.

(** ** JavaScript values *)

Module Js.

(** Values that [JSON.parse] produces, and [undefined].  Strings are
    sequences of 8-bit code units; numbers are binary64 floats; an object
    is the list of its own properties, each key once. *)
#[warnings="-register-all"]
Inductive value : Type :=
| VUndefined
| VNull
| VBool (b : bool)
| VNum (x : float)
| VStr (s : string)
| VArr (items : list value)
| VObj (props : list (string * value)).

(** [v === undefined || v === null]: member access on such a value throws
    a TypeError. *)
Definition nullish (v : value) : bool :=
  match v with
  | VUndefined | VNull => true
  | _ => false
  end.

Fixpoint lookup (k : string) (props : list (string * value)) : option value :=
  match props with
  | [] => None
  | (k', v) :: rest => if k' =? k then Some v else lookup k rest
  end.

(** [o.k] for a value that is neither [null] nor [undefined]; none of the
    keys the servers read is a prototype property. *)
Definition get_prop (o : value) (k : string) : value :=
  match o with
  | VObj props => match lookup k props with Some v => v | None => VUndefined end
  | _ => VUndefined
  end.

(** ['k' in o] for an object. *)
Definition has_prop (o : value) (k : string) : bool :=
  match o with
  | VObj props => match lookup k props with Some _ => true | None => false end
  | _ => false
  end.

(** [o?.k] *)
Definition opt_prop (o : value) (k : string) : value :=
  if nullish o then VUndefined else get_prop o k.

(** ToBoolean *)
Definition truthy (v : value) : bool :=
  match v with
  | VUndefined | VNull => false
  | VBool b => b
  | VNum x => negb (PrimFloat.is_zero x || PrimFloat.is_nan x)
  | VStr s => negb (s =? "")
  | VArr _ | VObj _ => true
  end.

(** [a || b] *)
Definition or_else (a b : value) : value := if truthy a then a else b.

Definition is_string (v : value) : bool :=
  match v with VStr _ => true | _ => false end.

Definition is_number (v : value) : bool :=
  match v with VNum _ => true | _ => false end.

(** [typeof v === 'object'] *)
Definition typeof_object (v : value) : bool :=
  match v with VNull | VArr _ | VObj _ => true | _ => false end.

(** [v === s] for a string literal [s] *)
Definition is_str (v : value) (s : string) : bool :=
  match v with VStr s' => s' =? s | _ => false end.

Definition isArray (v : value) : bool :=
  match v with VArr _ => true | _ => false end.

Fixpoint join (sep : string) (l : list string) : string :=
  match l with
  | [] => ""
  | [s] => s
  | s :: rest => s ++ sep ++ join sep rest
  end.

(** *** Conversion to a primitive

    An object made by [JSON.parse] inherits [toString] and [valueOf] from
    [Object.prototype], and none of its own properties is callable.  Its
    conversion to a primitive therefore yields ["[object Object]"], unless
    an own property named [toString] hides the inherited method: then no
    method gives a primitive and the conversion throws a TypeError.  An
    array converts through [join], which converts every element that is
    neither [null] nor [undefined]. *)

(** The message of that TypeError. *)
Definition cannot_convert : string :=
  "Cannot convert object to primitive value".

(** The conversion of [v] to a string, a number or a property key
    returns. *)
Fixpoint convertible (v : value) : bool :=
  match v with
  | VArr items => forallb (fun i => nullish i || convertible i) items
  | VObj props =>
      match lookup "toString" props with Some _ => false | None => true end
  | _ => true
  end.

Section Conversions.
(** Number-to-string conversion of the runtime. *)
Variable NumberToString : float -> string.
(** String-to-number conversion of the runtime. *)
Variable StringToNumber : string -> float.

(** ToString, as template literals and property keys apply it; [None]
    when it throws the TypeError. *)
Fixpoint ToString (v : value) : option string :=
  match v with
  | VUndefined => Some "undefined"
  | VNull => Some "null"
  | VBool true => Some "true"
  | VBool false => Some "false"
  | VNum x => Some (NumberToString x)
  | VStr s => Some s
  | VArr items =>
      option_map (join ",")
        ((fix each (l : list value) : option (list string) :=
            match l with
            | [] => Some []
            | i :: rest =>
                match (if nullish i then Some "" else ToString i), each rest with
                | Some s, Some ss => Some (s :: ss)
                | _, _ => None
                end
            end) items)
  | VObj props =>
      match lookup "toString" props with
      | Some _ => None
      | None => Some "[object Object]"
      end
  end.

(** [Number(v)]; [None] when it throws the TypeError. *)
Definition Number (v : value) : option float :=
  match v with
  | VUndefined => Some PrimFloat.nan
  | VNull => Some 0%float
  | VBool true => Some 1%float
  | VBool false => Some 0%float
  | VNum x => Some x
  | VStr s => Some (StringToNumber s)
  | VArr _ | VObj _ => option_map StringToNumber (ToString v)
  end.
End Conversions.

(** *** [Map<string, V>]: keys in insertion order; [set] on a present key
    replaces the value in place. *)
Definition Map (V : Type) : Type := list (string * V).

Fixpoint map_get {V} (k : string) (m : Map V) : option V :=
  match m with
  | [] => None
  | (k', v) :: rest => if k' =? k then Some v else map_get k rest
  end.

Fixpoint map_set {V} (k : string) (v : V) (m : Map V) : Map V :=
  match m with
  | [] => [(k, v)]
  | (k', v') :: rest =>
      if k' =? k then (k, v) :: rest else (k', v') :: map_set k v rest
  end.

Definition map_values {V} (m : Map V) : list V := map snd m.
Definition map_keys {V} (m : Map V) : list string := map fst m.

(** *** Whitespace, as [\s] and [String.prototype.trim] see it (8-bit range) *)
Definition is_space (c : ascii) : bool :=
  let n := nat_of_ascii c in
  ((9 <=? n) && (n <=? 13) || (n =? 32) || (n =? 160))%nat.

Fixpoint string_filter (p : ascii -> bool) (s : string) : string :=
  match s with
  | EmptyString => EmptyString
  | String c rest =>
      if p c then String c (string_filter p rest) else string_filter p rest
  end.

Fixpoint trim_start (s : string) : string :=
  match s with
  | String c rest => if is_space c then trim_start rest else s
  | EmptyString => EmptyString
  end.

Fixpoint string_rev_onto (s acc : string) : string :=
  match s with
  | EmptyString => acc
  | String c rest => string_rev_onto rest (String c acc)
  end.

Definition string_rev (s : string) : string := string_rev_onto s "".

Definition trim (s : string) : string :=
  string_rev (trim_start (string_rev (trim_start s))).

End Js.

(** ** [types/mcp.ts] and [utils/jsonrpc.ts] *)

Module JsonRpc.
Import Js.

(** [enum McpErrorCode] *)
Module McpErrorCode.
Definition ParseError : float := (-32700)%float.
Definition InvalidRequest : float := (-32600)%float.
Definition MethodNotFound : float := (-32601)%float.
Definition InvalidParams : float := (-32602)%float.
Definition InternalError : float := (-32603)%float.
Definition ServerError : float := (-32000)%float.
Definition ApplicationError : float := (-32500)%float.
End McpErrorCode.

(** [interface JsonRpcRequest]: [id] is [VUndefined] when the member is
    absent; the literal ['2.0'] of [jsonrpc] is not stored. *)
Record JsonRpcRequest : Type := {
  req_id : value;
  req_method : string;
  req_params : value
}.

(** [interface JsonRpcResponse]: [result] and [error] are optional
    members; an error is the object [createJsonRpcError] builds. *)
Record JsonRpcResponse : Type := {
  res_id : value;
  res_result : option value;
  res_error : option value
}.

(** [response.error.code], [undefined] when there is no error. *)
Definition error_code (r : JsonRpcResponse) : value :=
  match res_error r with
  | Some e => get_prop e "code"
  | None => VUndefined
  end.

Definition createJsonRpcResponse (id result error : value) : JsonRpcResponse :=
  if truthy error
  then {| res_id := id; res_result := None; res_error := Some error |}
  else {| res_id := id; res_result := Some result; res_error := None |}.

Definition createJsonRpcError (code : float) (message : string) (data : value)
  : value :=
  VObj [("code", VNum code); ("message", VStr message); ("data", data)].

Definition createParseError (data : value) : value :=
  createJsonRpcError McpErrorCode.ParseError "Parse error" data.

Definition createInvalidRequestError (data : value) : value :=
  createJsonRpcError McpErrorCode.InvalidRequest "Invalid Request" data.

Definition createMethodNotFoundError (method : string) : value :=
  createJsonRpcError McpErrorCode.MethodNotFound "Method not found"
    (VObj [("method", VStr method)]).

Definition createInvalidParamsError (data : value) : value :=
  createJsonRpcError McpErrorCode.InvalidParams "Invalid params" data.

Definition createInternalError (data : value) : value :=
  createJsonRpcError McpErrorCode.InternalError "Internal error" data.

Definition isValidJsonRpcRequest (obj : value) : bool :=
  truthy obj
  && typeof_object obj
  && is_str (get_prop obj "jsonrpc") "2.0"
  && is_string (get_prop obj "method")
  && (match get_prop obj "id" with
      | VUndefined | VNull | VStr _ | VNum _ => true
      | _ => false
      end).

(** Returns the object itself when it is valid, an error object otherwise. *)
Definition validateJsonRpcRequest (obj : value) : value :=
  if negb (isValidJsonRpcRequest obj)
  then createInvalidRequestError (VStr "Invalid JSON-RPC 2.0 request format")
  else obj.

(** The typed view of a validated object. *)
Definition as_request (obj : value) : JsonRpcRequest :=
  {| req_id := get_prop obj "id";
     req_method := match get_prop obj "method" with VStr m => m | _ => "" end;
     req_params := get_prop obj "params" |}.

Definition isNotification (request : JsonRpcRequest) : bool :=
  match req_id request with VUndefined => true | _ => false end.

Definition formatErrorResponse (id error : value) : JsonRpcResponse :=
  createJsonRpcResponse id VUndefined error.

Definition formatSuccessResponse (id result : value) : JsonRpcResponse :=
  createJsonRpcResponse id result VUndefined.

End JsonRpc.

(** ** [handlers/mcpHandler.ts]: class [McpServer] *)

Module McpHandler.
Import Js JsonRpc.

(** What a handler may throw: an [Error] instance (with its message) or
    any other value. *)
Inductive thrown : Type :=
| ErrorInstance (message : string)
| ThrownValue (v : value).

(** [error instanceof Error ? error.message : fallback] *)
Definition message_or (fallback : string) (e : thrown) : string :=
  match e with
  | ErrorInstance m => m
  | ThrownValue _ => fallback
  end.

(** The fields of the server other than the handler table, and the level
    of the module-wide logger that [logging/setLevel] assigns. *)
Record McpData : Type := {
  capabilities : value;
  serverInfo : value;
  initialized : bool;
  logLevel : value
}.

Definition set_initialized (d : McpData) (b : bool) : McpData :=
  {| capabilities := capabilities d; serverInfo := serverInfo d;
     initialized := b; logLevel := logLevel d |}.

Definition set_logLevel (d : McpData) (l : value) : McpData :=
  {| capabilities := capabilities d; serverInfo := serverInfo d;
     initialized := initialized d; logLevel := l |}.

(** [type MethodHandler = (params?: any) => Promise<any>], bound to the
    server: the settled promise and the fields after the call. *)
Definition MethodHandler : Type :=
  McpData -> value -> (thrown + value) * McpData.

Record McpServer : Type := {
  methodHandlers : Map MethodHandler;
  data : McpData
}.

Definition with_data (srv : McpServer) (d : McpData) : McpServer :=
  {| methodHandlers := methodHandlers srv; data := d |}.

(** The TypeError of a conversion to a primitive. *)
Definition conversion_error : thrown := ErrorInstance cannot_convert.

(** A call of a method of the module's logger ([logger.debug],
    [logger.info], [logger.error]) returns.  Each method starts with
    [shouldLog], which reads [LOG_LEVELS[this.currentLevel]] and so
    converts the level to a property key; the call throws the TypeError
    of that conversion when the level does not convert, and writes or
    stays silent otherwise ([JSON.stringify] of the data does not throw). *)
Definition logs (d : McpData) : bool := convertible (logLevel d).

(** The table is updated first; [logger.debug] follows. *)
Definition registerMethod (method : string) (handler : MethodHandler)
  (srv : McpServer) : (thrown + unit) * McpServer :=
  let srv' := {| methodHandlers := map_set method handler (methodHandlers srv);
                 data := data srv |} in
  if logs (data srv) then (inr tt, srv') else (inl conversion_error, srv').

(** [handleRequest]: the settled promise ([null] is [None]) and the
    server afterwards.  The first [logger.debug] stands before the [try];
    inside the [try], the [logger.debug] of the success path throws into
    the [catch], whose [logger.error] then throws out of the function. *)
Definition handleRequest (srv : McpServer) (request : JsonRpcRequest)
  : (thrown + option JsonRpcResponse) * McpServer :=
  if negb (logs (data srv)) then (inl conversion_error, srv)
  else
    match map_get (req_method request) (methodHandlers srv) with
    | None =>
        let error := createMethodNotFoundError (req_method request) in
        if negb (isNotification request)
        then (inr (Some (createJsonRpcResponse (req_id request) VUndefined
                           error)), srv)
        else (inr None, srv)
    | Some handler =>
        match handler (data srv) (req_params request) with
        | (inr result, d) =>
            if negb (isNotification request)
            then
              let response :=
                createJsonRpcResponse (req_id request) result VUndefined in
              if logs d then (inr (Some response), with_data srv d)
              else (inl conversion_error, with_data srv d)
            else (inr None, with_data srv d)
        | (inl error, d) =>
            if negb (logs d) then (inl conversion_error, with_data srv d)
            else if negb (isNotification request)
            then
              let jsonRpcError :=
                createInternalError (VStr (message_or "Unknown error" error)) in
              (inr (Some (createJsonRpcResponse (req_id request) VUndefined
                            jsonRpcError)),
               with_data srv d)
            else (inr None, with_data srv d)
        end
    end.

Definition text_block (text : value) : value :=
  VObj [("type", VStr "text"); ("text", text)].

(** The double quote, as a one-character string. *)
Definition dquote : string := String (ascii_of_nat 34) EmptyString.

(** The TypeError of destructuring [undefined] or [null]. *)
Definition destructure_error (key param kind : string) : thrown :=
  ErrorInstance ("Cannot destructure property '" ++ key ++ "' of '" ++ param
                 ++ "' as it is " ++ kind ++ ".").

(** The TypeError of reading a member of [undefined] or [null]. *)
Definition read_error (key kind : string) : thrown :=
  ErrorInstance ("Cannot read properties of " ++ kind ++ " (reading '" ++ key
                 ++ "')").

Definition kind_of (v : value) : string :=
  match v with VNull => "null" | _ => "undefined" end.

(** [/[^0-9+\-*/().\s]/] does not match [c]. *)
Definition allowed_char (c : ascii) : bool :=
  let n := nat_of_ascii c in
  ((48 <=? n) && (n <=? 57))%nat
  || (n =? 43)%nat || (n =? 45)%nat || (n =? 42)%nat || (n =? 47)%nat
  || (n =? 40)%nat || (n =? 41)%nat || (n =? 46)%nat
  || is_space c.

Section Handlers.
Variable NumberToString : float -> string.
(** [JSON.stringify] *)
Variable JSON_stringify : value -> string.
(** [new Date().toISOString()] *)
Variable now : string.
(** [new Function(body)()]: the value returned, or the value thrown by
    the construction or by the call. *)
Variable run_Function : string -> thrown + value.

Definition str_of : value -> option string := ToString NumberToString.

(** [new Error(`<prefix>${v}`)], or the TypeError of the template
    literal, which is evaluated first. *)
Definition error_about (prefix : string) (v : value) : thrown :=
  match str_of v with
  | Some text => ErrorInstance (prefix ++ text)
  | None => conversion_error
  end.

Definition handleInitialize : MethodHandler := fun this params =>
  if negb (logs this) then (inl conversion_error, this) else
  (inr (VObj [("protocolVersion", VStr "2024-11-05");
              ("capabilities", capabilities this);
              ("serverInfo", serverInfo this)]),
   set_initialized this true).

Definition handleInitialized : MethodHandler := fun this _ =>
  if negb (logs this) then (inl conversion_error, this) else
  (inr VUndefined, this).

Definition handleListResources : MethodHandler := fun this params =>
  if negb (logs this) then (inl conversion_error, this) else
  (inr (VObj [("resources", VArr [
     VObj [("uri", VStr "file:///example.txt");
           ("name", VStr "Example Text File");
           ("description", VStr "An example text resource");
           ("mimeType", VStr "text/plain")];
     VObj [("uri", VStr "http://example.com/api/data");
           ("name", VStr "Example API Data");
           ("description", VStr "Example data from an API endpoint");
           ("mimeType", VStr "application/json")]])]),
   this).

Definition handleReadResource : MethodHandler := fun this params =>
  if negb (logs this) then (inl conversion_error, this) else
  if nullish params
  then (inl (destructure_error "uri" "params" (kind_of params)), this)
  else
    let uri := get_prop params "uri" in
    if is_str uri "file:///example.txt" then
      (inr (VObj [("contents", VArr [
         VObj [("uri", uri); ("mimeType", VStr "text/plain");
               ("text", VStr "This is example content from a text file.")]])]),
       this)
    else if is_str uri "http://example.com/api/data" then
      (inr (VObj [("contents", VArr [
         VObj [("uri", uri); ("mimeType", VStr "application/json");
               ("text", VStr (JSON_stringify
                  (VObj [("message", VStr "Example API data");
                         ("timestamp", VStr now)])))]])]),
       this)
    else
      (inl (error_about "Resource not found: " uri), this).

Definition handleListTools : MethodHandler := fun this params =>
  if negb (logs this) then (inl conversion_error, this) else
  (inr (VObj [("tools", VArr [
     VObj [("name", VStr "echo");
           ("description", VStr "Echo back the provided text");
           ("inputSchema", VObj [
              ("type", VStr "object");
              ("properties", VObj [("text", VObj [
                 ("type", VStr "string");
                 ("description", VStr "The text to echo back")])]);
              ("required", VArr [VStr "text"])])];
     VObj [("name", VStr "calculate");
           ("description", VStr "Perform basic arithmetic calculations");
           ("inputSchema", VObj [
              ("type", VStr "object");
              ("properties", VObj [("expression", VObj [
                 ("type", VStr "string");
                 ("description",
                  VStr ("Mathematical expression to evaluate (e.g., "
                        ++ dquote ++ "2 + 3 * 4" ++ dquote ++ ")"))])]);
              ("required", VArr [VStr "expression"])])]])]),
   this).

Definition evaluateExpression (expression : value) : thrown + float :=
  match expression with
  | VStr e =>
      let sanitized := string_filter allowed_char e in
      if (sanitized =? "") || negb (sanitized =? e)
      then inl (ErrorInstance "Invalid characters in expression")
      else
        match run_Function (dquote ++ "use strict" ++ dquote ++ "; return ("
                            ++ sanitized ++ ")") with
        | inr (VNum result) =>
            if negb (PrimFloat.is_finite result)
            then inl (ErrorInstance "Invalid mathematical expression")
            else inr result
        | inr _ => inl (ErrorInstance "Invalid mathematical expression")
        | inl _ => inl (ErrorInstance "Invalid mathematical expression")
        end
  | _ => inl (ErrorInstance "expression.replace is not a function")
  end.

Definition handleCallTool : MethodHandler := fun this params =>
  if negb (logs this) then (inl conversion_error, this) else
  if nullish params
  then (inl (destructure_error "name" "params" (kind_of params)), this)
  else
    let name := get_prop params "name" in
    let args := get_prop params "arguments" in
    if is_str name "echo" then
      (inr (VObj [("content", VArr [
         text_block (or_else (opt_prop args "text")
                             (VStr "No text provided"))])]),
       this)
    else if is_str name "calculate" then
      let expression := or_else (opt_prop args "expression") (VStr "") in
      match evaluateExpression expression with
      | inr result =>
          (inr (VObj [("content", VArr [
             text_block (VStr ("Result: " ++ NumberToString result))])]),
           this)
      | inl error =>
          (inr (VObj [("content", VArr [
             text_block (VStr ("Error: "
                               ++ message_or "Invalid expression" error))]);
                      ("isError", VBool true)]),
           this)
      end
    else
      (inl (error_about "Unknown tool: " name), this).

Definition handleListPrompts : MethodHandler := fun this params =>
  if negb (logs this) then (inl conversion_error, this) else
  (inr (VObj [("prompts", VArr [
     VObj [("name", VStr "summarize");
           ("description", VStr "Generate a summary of the provided text");
           ("arguments", VArr [
              VObj [("name", VStr "text");
                    ("description", VStr "The text to summarize");
                    ("required", VBool true)];
              VObj [("name", VStr "max_words");
                    ("description",
                     VStr "Maximum number of words in the summary");
                    ("required", VBool false)]])]])]),
   this).

Definition newline : string := String (ascii_of_nat 10) EmptyString.

Definition handleGetPrompt : MethodHandler := fun this params =>
  if negb (logs this) then (inl conversion_error, this) else
  if nullish params
  then (inl (destructure_error "name" "params" (kind_of params)), this)
  else
    let name := get_prop params "name" in
    let args := get_prop params "arguments" in
    if is_str name "summarize" then
      let text := or_else (opt_prop args "text") (VStr "") in
      let maxWords := or_else (opt_prop args "max_words") (VNum 100%float) in
      match str_of maxWords, str_of text with
      | Some words, Some body =>
          (inr (VObj [("description", VStr "Prompt for text summarization");
                      ("messages", VArr [
                         VObj [("role", VStr "user");
                               ("content", text_block (VStr (
                                  "Please summarize the following text in no more than "
                                  ++ words ++ " words:" ++ newline
                                  ++ newline ++ body)))]])]),
           this)
      | _, _ => (inl conversion_error, this)
      end
    else
      (inl (error_about "Unknown prompt: " name), this).

(** [setLogLevel] assigns the level before the template literal of the
    last line converts it. *)
Definition handleSetLevel : MethodHandler := fun this params =>
  if negb (logs this) then (inl conversion_error, this) else
  if nullish params
  then (inl (read_error "level" (kind_of params)), this)
  else
    let level := get_prop params "level" in
    let this' := set_logLevel this level in
    match str_of level with
    | None => (inl conversion_error, this')
    | Some _ =>
        if logs this' then (inr VUndefined, this')
        else (inl conversion_error, this')
    end.

(** The next statement of a constructor body, which an exception ends. *)
Definition and_then (first : (thrown + unit) * McpServer)
  (next : McpServer -> (thrown + unit) * McpServer)
  : (thrown + unit) * McpServer :=
  match first with
  | (inr _, srv) => next srv
  | (inl error, srv) => (inl error, srv)
  end.

(** [setupDefaultHandlers], in registration order. *)
Definition setupDefaultHandlers (srv : McpServer)
  : (thrown + unit) * McpServer :=
  and_then (and_then (and_then (and_then (and_then (and_then (and_then (and_then
    (registerMethod "initialize" handleInitialize srv)
    (registerMethod "initialized" handleInitialized))
    (registerMethod "resources/list" handleListResources))
    (registerMethod "resources/read" handleReadResource))
    (registerMethod "tools/list" handleListTools))
    (registerMethod "tools/call" handleCallTool))
    (registerMethod "prompts/list" handleListPrompts))
    (registerMethod "prompts/get" handleGetPrompt))
    (registerMethod "logging/setLevel" handleSetLevel).

(** [new McpServer()] in a process whose logger is at its initial level
    ['info'], where no registration throws. *)
Definition new_McpServer : McpServer :=
  snd (setupDefaultHandlers
    {| methodHandlers := [];
       data := {|
         capabilities := VObj [
           ("logging", VObj []);
           ("resources", VObj [("subscribe", VBool false);
                               ("listChanged", VBool false)]);
           ("tools", VObj [("listChanged", VBool false)]);
           ("prompts", VObj [("listChanged", VBool false)])];
         serverInfo := VObj [("name", VStr "mcp-server-express");
                             ("version", VStr "1.0.0")];
         initialized := false;
         logLevel := VStr "info" |} |}).

Definition getCapabilities (srv : McpServer) : value := capabilities (data srv).
Definition getServerInfo (srv : McpServer) : value := serverInfo (data srv).
Definition isInitialized (srv : McpServer) : bool := initialized (data srv).
End Handlers.

End McpHandler.

(** ** [server.ts]: class [ExpressMcpServer] *)

Module ExpressServer.
Import Js JsonRpc McpHandler.

(** What [res.json] or [res.send] was given. *)
Inductive ResponseBody : Type :=
| NoBody
| JsonResponse (r : JsonRpcResponse)
| JsonResponses (l : list JsonRpcResponse)
| JsonValue (v : value).

Record HttpResponse : Type := {
  status : nat;
  body : ResponseBody
}.

(** A request as it reaches the application: verb, path ([req.path], the
    URL without its query) and the text of a JSON payload when there is
    one. *)
Record HttpRequest : Type := {
  verb : string;
  path : string;
  payload : option string
}.

(** One turn of the loop of [handleMcpRequest].  The inner [catch]
    receives what [McpServer.handleRequest] throws
    ([validateJsonRpcRequest] does not throw).  [serverLogger] is the
    child named [express] of the module's logger: its level is the one
    the logger had when the child was made (the level of the environment
    or ['info'], a string), no later [setLogLevel] reaches it, and so
    its calls return. *)
Definition processRequest (acc : list JsonRpcResponse * McpServer)
  (requestData : value) : list JsonRpcResponse * McpServer :=
  let (responses, srv) := acc in
  let validationResult := validateJsonRpcRequest requestData in
  if has_prop validationResult "code"
  then ((responses ++ [formatErrorResponse
                         (or_else (opt_prop requestData "id") VNull)
                         validationResult])%list, srv)
  else
    match handleRequest srv (as_request validationResult) with
    | (inr (Some response), srv') => ((responses ++ [response])%list, srv')
    | (inr None, srv') => (responses, srv')
    | (inl error, srv') =>
        let errorResponse :=
          formatErrorResponse
            (or_else (opt_prop requestData "id") VNull)
            (createInvalidRequestError
               (VStr (message_or "Unknown error" error))) in
        ((responses ++ [errorResponse])%list, srv')
    end.

(** The entry the inner [catch] pushes for a member that is an object. *)
Definition rejected_entry (obj : value) (error : thrown) : JsonRpcResponse :=
  {| res_id := or_else (get_prop obj "id") VNull;
     res_result := None;
     res_error :=
       Some (createInvalidRequestError
               (VStr (message_or "Unknown error" error))) |}.

(** [handleMcpRequest] on the parsed body: what the loop throws is caught
    inside it, so the outer [catch] (status 400 with a ParseError
    envelope) is never entered. *)
Definition handleMcpRequest (srv : McpServer) (body : value)
  : HttpResponse * McpServer :=
  let isBatch := isArray body in
  let requests := match body with VArr l => l | _ => [body] end in
  let (responses, srv') := fold_left processRequest requests ([], srv) in
  if isBatch
  then ({| status := 200; body := JsonResponses responses |}, srv')
  else
    match responses with
    | first :: _ => ({| status := 200; body := JsonResponse first |}, srv')
    | [] => ({| status := 204; body := NoBody |}, srv')
    end.

(** A member of a batch that validates and carries an identifier. *)
Definition isRequestMember (obj : value) : bool :=
  isValidJsonRpcRequest obj && negb (isNotification (as_request obj)).

(** A member of a batch that validates and carries no identifier. *)
Definition isNotificationMember (obj : value) : bool :=
  isValidJsonRpcRequest obj && isNotification (as_request obj).

(** A member that validates and has no member named [code]. *)
Definition plain_member (obj : value) : Prop :=
  isValidJsonRpcRequest obj = true /\ has_prop obj "code" = false.

(** *** Route matching

    The router is made with its defaults: letter case is ignored and one
    trailing slash is allowed (['/mcp'] is the pattern [/^\/mcp\/?$/i]). *)
Definition lower (c : ascii) : ascii :=
  let n := nat_of_ascii c in
  if ((65 <=? n) && (n <=? 90))%nat then ascii_of_nat (n + 32) else c.

Fixpoint lowercase (s : string) : string :=
  match s with
  | EmptyString => EmptyString
  | String c rest => String (lower c) (lowercase rest)
  end.

(** [route] is a pattern in lower case other than ['/']. *)
Definition route_matches (route path : string) : bool :=
  (lowercase path =? route) || (lowercase path =? route ++ "/").

(** The pattern ['/']. *)
Definition root_matches (path : string) : bool := path =? "/".

Section App.
(** [new Date().toISOString()] *)
Variable now : string.
(** [process.env.NODE_ENV] *)
Variable NODE_ENV : value.
(** The body parser [express.json]: the parsed payload, or the message
    of the error it passes to [next]. *)
Variable express_json : string -> string + value.
(** [req.body] when the parser leaves the request alone. *)
Variable unparsed_body : value.

(** The middleware of [setupErrorHandling], which receives every error
    passed to [next]. *)
Definition errorHandler (message : string) : HttpResponse :=
  {| status := 500;
     body := JsonValue (VObj [
       ("error", VStr "Internal Server Error");
       ("message",
        VStr (if is_str NODE_ENV "development" then message
              else "An unexpected error occurred"))]) |}.

Definition health (srv : McpServer) : HttpResponse :=
  {| status := 200;
     body := JsonValue (VObj [
       ("status", VStr "healthy");
       ("timestamp", VStr now);
       ("server", getServerInfo srv);
       ("capabilities", getCapabilities srv);
       ("initialized", VBool (isInitialized srv))]) |}.

Definition root (srv : McpServer) : HttpResponse :=
  {| status := 200;
     body := JsonValue (VObj [
       ("name", VStr "MCP Server (ExpressJS)");
       ("description",
        VStr "Model Context Protocol server implementation using ExpressJS");
       ("version", VStr "1.0.0");
       ("endpoints", VObj [("health", VStr "/health");
                           ("mcp", VStr "/mcp (POST)")]);
       ("server", getServerInfo srv);
       ("capabilities", getCapabilities srv)]) |}.

Definition notFound (originalUrl : string) : HttpResponse :=
  {| status := 404;
     body := JsonValue (VObj [
       ("error", VStr "Not Found");
       ("message", VStr ("Endpoint " ++ originalUrl ++ " not found"));
       ("availableEndpoints",
        VArr [VStr "/"; VStr "/health"; VStr "/mcp"])]) |}.

(** The router's test of a verb against a route registered with
    [app.get]: such a route also serves HEAD. *)
Definition get_verb (v : string) : bool := (v =? "GET") || (v =? "HEAD").

(** The answer as it is sent: a HEAD request gets the status and the
    headers, not the body. *)
Definition sent (req : HttpRequest) (r : HttpResponse) : HttpResponse :=
  if verb req =? "HEAD" then {| status := status r; body := NoBody |} else r.

(** The application, in the order the constructor installs its layers:
    [setupMiddleware] (the CORS layer answers every OPTIONS request, the
    body parser runs next), [setupRoutes], [setupErrorHandling].  An
    error passed to [next] skips the routes and reaches the error
    middleware.  [originalUrl] is the path when the URL has no query. *)
Definition app (srv : McpServer) (req : HttpRequest)
  : HttpResponse * McpServer :=
  if verb req =? "OPTIONS" then ({| status := 204; body := NoBody |}, srv)
  else
    match match payload req with
          | Some text => express_json text
          | None => inr unparsed_body
          end with
    | inl message => (sent req (errorHandler message), srv)
    | inr parsed =>
        if get_verb (verb req) && route_matches "/health" (path req)
        then (sent req (health srv), srv)
        else if (verb req =? "POST") && route_matches "/mcp" (path req)
        then handleMcpRequest srv parsed
        else if get_verb (verb req) && root_matches (path req)
        then (sent req (root srv), srv)
        else (sent req (notFound (path req)), srv)
    end.
End App.

End ExpressServer.

(** ** [types/index.ts] of the stdio server *)

Module Resource.
Record t : Type := {
  uri : string;
  name : string;
  description : option string;
  mimeType : option string
}.
End Resource.

Module Tool.
(** [inputSchema] is kept as the JSON value it is. *)
Record t : Type := {
  name : string;
  description : option string;
  inputSchema : Js.value
}.
End Tool.

Module PromptArgument.
Record t : Type := {
  name : string;
  description : option string;
  required : option bool
}.
End PromptArgument.

Module Prompt.
Record t : Type := {
  name : string;
  description : option string;
  arguments : option (list PromptArgument.t)
}.
End Prompt.

(** ** [server/MCPServer.ts]: class [MCPServer] *)

Module MCPServer.
Import Js.

Inductive Content : Type :=
| TextContent (text : string)
| ImageContent (data mimeType : string).

Record ToolCallResult : Type := {
  content : list Content;
  isError : option bool
}.

(** The results [handleRequest] puts in a response, by method. *)
Inductive result : Type :=
| InitializeResult (protocolVersion : string) (capabilities serverInfo : value)
| NullResult
| ListPromptsResult (prompts : list Prompt.t)
| GetPromptResult (description : option string)
    (messages : list (string * Content))
| ListResourcesResult (resources : list Resource.t)
| ReadResourceResult (contents : list Content)
| ListToolsResult (tools : list Tool.t)
| CallToolResult (r : ToolCallResult).

(** [interface JSONRPCResponse]; an error is the object [createError]
    builds (or the caught object itself, when it is forwarded). *)
Record JSONRPCResponse : Type := {
  id : value;
  result_of : option result;
  error_of : option value
}.

Definition error_code (r : JSONRPCResponse) : value :=
  match error_of r with
  | Some e => get_prop e "code"
  | None => VUndefined
  end.

(** What the [try] block may throw: an [Error] instance (its message and
    its other own properties) or any other value; [createError] builds
    a plain object, which is such an other value. *)
Inductive thrown : Type :=
| ErrorInstance (message : string) (own : list (string * value))
| ThrownValue (v : value).

Definition instanceofError (e : thrown) : bool :=
  match e with ErrorInstance _ _ => true | ThrownValue _ => false end.

(** ['code' in error], for an [Error] instance. *)
Definition code_in (e : thrown) : bool :=
  match e with
  | ErrorInstance _ own => has_prop (VObj own) "code"
  | ThrownValue v => has_prop v "code"
  end.

(** The caught [Error] instance seen as an object. *)
Definition as_object (e : thrown) : value :=
  match e with
  | ErrorInstance message own => VObj (own ++ [("message", VStr message)])%list
  | ThrownValue v => v
  end.

Definition TypeError (message : string) : thrown := ErrorInstance message [].

Record state : Type := {
  initialized : bool;
  capabilities : value;
  serverInfo : value;
  resources : Map Resource.t;
  tools : Map Tool.t;
  prompts : Map Prompt.t;
  (** the events passed to [emit], latest first *)
  emitted : list string
}.

Definition set_initialized (s : state) (b : bool) : state :=
  {| initialized := b; capabilities := capabilities s;
     serverInfo := serverInfo s; resources := resources s; tools := tools s;
     prompts := prompts s; emitted := emitted s |}.

(** [new MCPServer()] *)
Definition new_MCPServer : state :=
  {| initialized := false;
     capabilities := VObj [
       ("prompts", VObj [("listChanged", VBool true)]);
       ("resources", VObj [("subscribe", VBool true);
                           ("listChanged", VBool true)]);
       ("tools", VObj [("listChanged", VBool true)]);
       ("logging", VObj [])];
     serverInfo := VObj [("name", VStr "mcp-server");
                         ("version", VStr "1.0.0")];
     resources := []; tools := []; prompts := []; emitted := [] |}.

Definition createError (code : float) (message : string) : value :=
  VObj [("code", VNum code); ("message", VStr message); ("data", VUndefined)].

Definition registerResource (resource : Resource.t) (s : state) : state :=
  {| initialized := initialized s; capabilities := capabilities s;
     serverInfo := serverInfo s;
     resources := map_set (Resource.uri resource) resource (resources s);
     tools := tools s; prompts := prompts s;
     emitted := "resources/list_changed" :: emitted s |}.

Definition registerTool (tool : Tool.t) (s : state) : state :=
  {| initialized := initialized s; capabilities := capabilities s;
     serverInfo := serverInfo s; resources := resources s;
     tools := map_set (Tool.name tool) tool (tools s);
     prompts := prompts s;
     emitted := "tools/list_changed" :: emitted s |}.

Definition registerPrompt (prompt : Prompt.t) (s : state) : state :=
  {| initialized := initialized s; capabilities := capabilities s;
     serverInfo := serverInfo s; resources := resources s; tools := tools s;
     prompts := map_set (Prompt.name prompt) prompt (prompts s);
     emitted := "prompts/list_changed" :: emitted s |}.

Definition isInitialized (s : state) : bool := initialized s.

(** [map.get(key)] for a key that may be any value: only a string is a key
    of the registries. *)
Definition get_by {V} (key : value) (m : Map V) : option V :=
  match key with
  | VStr k => map_get k m
  | _ => None
  end.

Definition kind_of (v : value) : string :=
  match v with VNull => "null" | _ => "undefined" end.

Definition read_error (key : string) (target : value) : thrown :=
  TypeError ("Cannot read properties of " ++ kind_of target ++ " (reading '"
             ++ key ++ "')").

Definition newline : string := String (ascii_of_nat 10) EmptyString.

Section Methods.
Variable NumberToString : float -> string.
Variable StringToNumber : string -> float.
(** [JSON.stringify] *)
Variable JSON_stringify : value -> string.
(** [new Date().toISOString()] *)
Variable now : string.

Definition str_of : value -> option string := ToString NumberToString.
Definition num_of : value -> option float :=
  Number NumberToString StringToNumber.

(** The TypeError of a conversion to a primitive. *)
Definition conversion_error : thrown := TypeError cannot_convert.

(** [this.createError(code, `<prefix>${v}`)], or the TypeError of the
    template literal, which is evaluated first. *)
Definition error_about (code : float) (prefix : string) (v : value) : thrown :=
  match str_of v with
  | Some text => ThrownValue (createError code (prefix ++ text))
  | None => conversion_error
  end.

Definition initialize (s : state) (params : value) : (thrown + result) * state :=
  if initialized s
  then (inl (ThrownValue (createError (-32600) "Already initialized")), s)
  else if nullish params
  then (inl (read_error "protocolVersion" params), s)
  else if negb (is_str (get_prop params "protocolVersion") "2024-11-05")
  then (inl (error_about (-32602) "Unsupported protocol version: "
               (get_prop params "protocolVersion")), s)
  else (inr (InitializeResult "2024-11-05" (capabilities s) (serverInfo s)),
        set_initialized s true).

Definition listPrompts (s : state) : result :=
  ListPromptsResult (map_values (prompts s)).

Definition getPrompt (s : state) (params : value) : thrown + result :=
  if nullish params then inl (read_error "name" params)
  else
    match get_by (get_prop params "name") (prompts s) with
    | None =>
        inl (error_about (-32602) "Prompt not found: " (get_prop params "name"))
    | Some prompt =>
        match str_of (get_prop params "name") with
        | None => inl conversion_error
        | Some name =>
            let content :=
              TextContent ("This is the " ++ name
                           ++ " prompt with arguments: "
                           ++ JSON_stringify
                                (or_else (get_prop params "arguments")
                                         (VObj [])))
            in
            inr (GetPromptResult (Prompt.description prompt)
                                 [("user", content)])
        end
    end.

Definition listResources (s : state) : result :=
  ListResourcesResult (map_values (resources s)).

Definition readResource (s : state) (params : value) : thrown + result :=
  if nullish params then inl (read_error "uri" params)
  else
    match get_by (get_prop params "uri") (resources s) with
    | None =>
        inl (error_about (-32602) "Resource not found: " (get_prop params "uri"))
    | Some resource =>
        let content :=
          TextContent ("Content of resource: " ++ Resource.name resource
                       ++ newline ++ "URI: " ++ Resource.uri resource
                       ++ newline ++ "Description: "
                       ++ match Resource.description resource with
                          | Some d => if d =? "" then "No description" else d
                          | None => "No description"
                          end)
        in
        inr (ReadResourceResult [content])
    end.

Definition listTools (s : state) : result :=
  ListToolsResult (map_values (tools s)).

(** The [switch] on [operation], once both operands are numbers. *)
Definition calculate (operation : value) (numA numB : float) : string :=
  if is_str operation "add" then
    NumberToString numA ++ " + " ++ NumberToString numB ++ " = "
    ++ NumberToString (numA + numB)%float
  else if is_str operation "subtract" then
    NumberToString numA ++ " - " ++ NumberToString numB ++ " = "
    ++ NumberToString (numA - numB)%float
  else if is_str operation "multiply" then
    NumberToString numA ++ " * " ++ NumberToString numB ++ " = "
    ++ NumberToString (numA * numB)%float
  else if is_str operation "divide" then
    if negb (numB =? 0)%float
    then NumberToString numA ++ " / " ++ NumberToString numB ++ " = "
         ++ NumberToString (numA / numB)%float
    else "Error: Division by zero"
  else "Error: Unknown operation".

(** [executeTool]: the text, or the TypeError of a conversion.  Both
    operands of [calculate] are converted before the [switch] on the
    operation. *)
Definition executeTool (toolName : string) (args : value) : thrown + string :=
  if toolName =? "echo" then
    match str_of (or_else (get_prop args "message")
                          (VStr "No message provided")) with
    | Some message => inr ("Echo: " ++ message)
    | None => inl conversion_error
    end
  else if toolName =? "calculate" then
    let operation := get_prop args "operation" in
    match num_of (get_prop args "a") with
    | None => inl conversion_error
    | Some numA =>
        match num_of (get_prop args "b") with
        | None => inl conversion_error
        | Some numB => inr (calculate operation numA numB)
        end
    end
  else if toolName =? "timestamp" then
    inr ("Current timestamp: " ++ now)
  else
    inr ("Tool " ++ toolName ++ " executed with arguments: "
         ++ JSON_stringify args).

Definition callTool (s : state) (params : value) : thrown + result :=
  if nullish params then inl (read_error "name" params)
  else
    match get_by (get_prop params "name") (tools s) with
    | None =>
        inl (error_about (-32602) "Tool not found: " (get_prop params "name"))
    | Some tool =>
        match get_prop params "name" with
        | VStr toolName =>
            match executeTool toolName
                    (or_else (get_prop params "arguments") (VObj [])) with
            | inr result =>
                inr (CallToolResult {| content := [TextContent result];
                                       isError := None |})
            | inl error => inl error
            end
        | other =>
            (* not reached: a key found in the registry is a string *)
            inl (error_about (-32602) "Tool not found: " other)
        end
    end.

(** The [switch] of [handleRequest], apart from the case that returns at
    once. *)
Definition dispatch (s : state) (method params : value)
  : (thrown + result) * state :=
  if is_str method "initialize" then initialize s params
  else if is_str method "prompts/list" then (inr (listPrompts s), s)
  else if is_str method "prompts/get" then (getPrompt s params, s)
  else if is_str method "resources/list" then (inr (listResources s), s)
  else if is_str method "resources/read" then (readResource s params, s)
  else if is_str method "tools/list" then (inr (listTools s), s)
  else if is_str method "tools/call" then (callTool s params, s)
  else (inl (error_about (-32601) "Method not found: " method), s).

(** The [case] labels of the [switch]. *)
Definition cases : list string :=
  ["initialize"; "notifications/initialized"; "prompts/list"; "prompts/get";
   "resources/list"; "resources/read"; "tools/list"; "tools/call"].

Definition has_case (method : value) : bool :=
  existsb (is_str method) cases.

(** The [error] member the [catch] block builds. *)
Definition caught (error : thrown) : value :=
  if instanceofError error && code_in error
  then as_object error
  else createError (-32603)
         (match error with
          | ErrorInstance message _ => message
          | ThrownValue _ => "Internal error"
          end).

(** [handleRequest] on whatever [JSON.parse] returned.  On [null] the
    read of [request.method] throws inside [try] and the read of
    [request.id] throws again inside [catch]: the promise is rejected. *)
Definition handleRequest (s : state) (request : value)
  : (thrown + JSONRPCResponse) * state :=
  if nullish request then (inl (read_error "id" request), s)
  else if is_str (get_prop request "method") "notifications/initialized"
  then (inr {| id := get_prop request "id"; result_of := Some NullResult;
               error_of := None |}, s)
  else
    match dispatch s (get_prop request "method") (get_prop request "params")
    with
    | (inr result, s') =>
        (inr {| id := get_prop request "id"; result_of := Some result;
                error_of := None |}, s')
    | (inl error, s') =>
        (inr {| id := get_prop request "id"; result_of := None;
                error_of := Some (caught error) |}, s')
    end.
End Methods.

End MCPServer.

(** ** [index.ts]: class [StdioTransport] *)

Module StdioTransport.
Import Js MCPServer.

Definition string_schema (description : string) : value :=
  VObj [("type", VStr "string"); ("description", VStr description)].

(** [setupServer]: the registrations, in order. *)
Definition setupServer (server : state) : state :=
  let server := registerResource
    {| Resource.uri := "file://example.txt";
       Resource.name := "Example Text File";
       Resource.description := Some "A sample text resource";
       Resource.mimeType := Some "text/plain" |} server in
  let server := registerResource
    {| Resource.uri := "config://server-info";
       Resource.name := "Server Information";
       Resource.description := Some "Information about this MCP server";
       Resource.mimeType := Some "application/json" |} server in
  let server := registerTool
    {| Tool.name := "echo";
       Tool.description := Some "Echo back the provided message";
       Tool.inputSchema := VObj [
         ("type", VStr "object");
         ("properties", VObj [
            ("message", string_schema "The message to echo back")]);
         ("required", VArr [VStr "message"])] |} server in
  let server := registerTool
    {| Tool.name := "calculate";
       Tool.description := Some "Perform basic mathematical operations";
       Tool.inputSchema := VObj [
         ("type", VStr "object");
         ("properties", VObj [
            ("operation", VObj [
               ("type", VStr "string");
               ("enum", VArr [VStr "add"; VStr "subtract"; VStr "multiply";
                              VStr "divide"]);
               ("description", VStr "The mathematical operation to perform")]);
            ("a", VObj [("type", VStr "number");
                        ("description", VStr "First operand")]);
            ("b", VObj [("type", VStr "number");
                        ("description", VStr "Second operand")])]);
         ("required", VArr [VStr "operation"; VStr "a"; VStr "b"])] |} server in
  let server := registerTool
    {| Tool.name := "timestamp";
       Tool.description := Some "Get the current timestamp";
       Tool.inputSchema := VObj [
         ("type", VStr "object");
         ("properties", VObj []);
         ("additionalProperties", VBool false)] |} server in
  let server := registerPrompt
    {| Prompt.name := "summarize";
       Prompt.description := Some "Generate a summary of the provided content";
       Prompt.arguments := Some [
         {| PromptArgument.name := "content";
            PromptArgument.description := Some "The content to summarize";
            PromptArgument.required := Some true |};
         {| PromptArgument.name := "length";
            PromptArgument.description :=
              Some "Desired summary length (short, medium, long)";
            PromptArgument.required := Some false |}] |} server in
  registerPrompt
    {| Prompt.name := "analyze";
       Prompt.description := Some "Perform analysis on the provided data";
       Prompt.arguments := Some [
         {| PromptArgument.name := "data";
            PromptArgument.description := Some "The data to analyze";
            PromptArgument.required := Some true |};
         {| PromptArgument.name := "type";
            PromptArgument.description := Some "Type of analysis to perform";
            PromptArgument.required := Some false |}] |} server.

(** [new StdioTransport()] *)
Definition new_StdioTransport : state := setupServer new_MCPServer.

(** The response the [catch] of the line listener writes. *)
Definition errorResponse (error : thrown) : JSONRPCResponse :=
  {| id := VNull;
     result_of := None;
     error_of := Some (VObj [
       ("code", VNum (-32700)%float);
       ("message", VStr "Parse error");
       ("data", VStr (match error with
                      | ErrorInstance message _ => message
                      | ThrownValue _ => "Unknown error"
                      end))]) |}.

Section Transport.
Variable NumberToString : float -> string.
Variable StringToNumber : string -> float.
Variable JSON_stringify : value -> string.
Variable now : string.
(** [JSON.parse]: the value, or the message of its SyntaxError. *)
Variable JSON_parse : string -> string + value.

(** The listener of ['line']: the responses written to standard output
    (one line each) and the server afterwards. *)
Definition on_line (server : state) (line : string)
  : list JSONRPCResponse * state :=
  let trimmed := trim line in
  if trimmed =? "" then ([], server)
  else
    match JSON_parse trimmed with
    | inl message => ([errorResponse (ErrorInstance message [])], server)
    | inr request =>
        match handleRequest NumberToString StringToNumber JSON_stringify now
                server request with
        | (inl error, server') => ([errorResponse error], server')
        | (inr response, server') =>
            match get_prop request "id" with
            | VUndefined => ([], server')
            | _ => ([response], server')
            end
        end
    end.
End Transport.

End StdioTransport.

(** ** Histories of the stdio server *)

Module History.
Import Js MCPServer.

(** A call on a server object from outside. *)
Inductive call : Type :=
| RegisterResource (resource : Resource.t)
| RegisterTool (tool : Tool.t)
| RegisterPrompt (prompt : Prompt.t)
| HandleRequest (request : value).

Section Run.
Variable NumberToString : float -> string.
Variable StringToNumber : string -> float.
Variable JSON_stringify : value -> string.
Variable now : string.

Definition step (s : state) (c : call) : state :=
  match c with
  | RegisterResource resource => registerResource resource s
  | RegisterTool tool => registerTool tool s
  | RegisterPrompt prompt => registerPrompt prompt s
  | HandleRequest request =>
      snd (handleRequest NumberToString StringToNumber JSON_stringify now
             s request)
  end.

(** The server after the calls, oldest first, starting from a new one. *)
Definition after (calls : list call) : state :=
  fold_left step calls new_MCPServer.
End Run.

(** Every entry of the registry sits under its tool's name, and no two
    entries share a key. *)
Definition registry_ok (m : Map Tool.t) : Prop :=
  NoDup (map_keys m)
  /\ Forall (fun entry => fst entry = Tool.name (snd entry)) m.

(** How many tools of the list carry the name. *)
Definition count_name (name : string) (l : list Tool.t) : nat :=
  length (filter (fun t => Tool.name t =? name) l).

End History.

(** ** A runtime to evaluate the servers on concrete inputs *)

Module Sample.
Import Js.

(** Stand-ins that print every number as [#] and read every string as [NaN]. *)
Definition NumberToString (x : float) : string := "#".
Definition StringToNumber (s : string) : float := PrimFloat.nan.
Definition JSON_stringify (v : value) : string := "{}".
Definition now : string := "2024-11-05T00:00:00.000Z".

(** A [Function] constructor that rejects every body. *)
Definition run_Function (body : string) : McpHandler.thrown + value :=
  inl (McpHandler.ErrorInstance "Unexpected token").

(** A parser that rejects every text. *)
Definition reject_all (text : string) : string + value :=
  inl "Unexpected end of JSON input".

(** A parser that reads every text as the given value. *)
Definition read_as (v : value) (text : string) : string + value := inr v.

Definition express : McpHandler.McpServer :=
  McpHandler.new_McpServer NumberToString JSON_stringify now run_Function.

(** [handleRequest] of the stdio server on this runtime. *)
Definition stdio (s : MCPServer.state) (request : value)
  : (MCPServer.thrown + MCPServer.JSONRPCResponse) * MCPServer.state :=
  MCPServer.handleRequest NumberToString StringToNumber JSON_stringify now
    s request.

(** Messages as [JSON.parse] returns them. *)
Definition request (id : value) (method : string) (params : value) : value :=
  VObj [("jsonrpc", VStr "2.0"); ("id", id); ("method", VStr method);
        ("params", params)].

Definition notification (method : string) : value :=
  VObj [("jsonrpc", VStr "2.0"); ("method", VStr method)].

Definition initialize_params (version : string) : value :=
  VObj [("protocolVersion", VStr version);
        ("capabilities", VObj []);
        ("clientInfo", VObj [("name", VStr "test-client");
                             ("version", VStr "1.0.0")])].

Definition initialize_request (id : float) : value :=
  request (VNum id) "initialize" (initialize_params "2024-11-05").

(** The stdio server after one successful [initialize]. *)
Definition stdio_initialized : MCPServer.state :=
  snd (stdio StdioTransport.new_StdioTransport (initialize_request 1)).

(** An object with an own property named [toString], as
    [JSON.parse('{"toString":1}')] returns it. *)
Definition unconvertible : value := VObj [("toString", VNum 1%float)].

(** [logging/setLevel] with that object as the level, as a notification. *)
Definition setLevel_notification : value :=
  VObj [("jsonrpc", VStr "2.0"); ("method", VStr "logging/setLevel");
        ("params", VObj [("level", unconvertible)])].

(** The Express dispatcher after that notification. *)
Definition express_spoiled : McpHandler.McpServer :=
  snd (McpHandler.handleRequest express
         (JsonRpc.as_request setLevel_notification)).

(** A call of [calculate] with an expression the evaluator rejects. *)
Definition calculate_request : value :=
  request (VNum 1%float) "tools/call"
    (VObj [("name", VStr "calculate");
           ("arguments", VObj [("expression", VStr "2 + x")])]).

End Sample.

(** ** [utils/logger.ts]: class [Logger] *)

Module Logger.
Import Js.

(** [type LogLevel] *)
Inductive LogLevel : Type :=
| Debug | Info | Notice | Warning | Error | Critical | Alert | Emergency.

(** The string of a level. *)
Definition level_name (level : LogLevel) : string :=
  match level with
  | Debug => "debug" | Info => "info" | Notice => "notice"
  | Warning => "warning" | Error => "error" | Critical => "critical"
  | Alert => "alert" | Emergency => "emergency"
  end.

(** [level.toUpperCase()] *)
Definition level_upper (level : LogLevel) : string :=
  match level with
  | Debug => "DEBUG" | Info => "INFO" | Notice => "NOTICE"
  | Warning => "WARNING" | Error => "ERROR" | Critical => "CRITICAL"
  | Alert => "ALERT" | Emergency => "EMERGENCY"
  end.

(** [const LOG_LEVELS] *)
Definition LOG_LEVELS (level : LogLevel) : nat :=
  match level with
  | Debug => 0 | Info => 1 | Notice => 2 | Warning => 3
  | Error => 4 | Critical => 5 | Alert => 6 | Emergency => 7
  end.

Definition all_levels : list LogLevel :=
  [Debug; Info; Notice; Warning; Error; Critical; Alert; Emergency].

(** The own property of [LOG_LEVELS] under a key. *)
Definition level_of_key (key : string) : option LogLevel :=
  find (fun level => level_name level =? key) all_levels.

(** A logger: its name, its level (whatever value [setLevel] was given)
    and the children it has created, by name. *)
#[warnings="-register-all"]
Inductive t : Type :=
| mk (name : string) (currentLevel : value) (loggers : list (string * t)).

Definition name (l : t) : string := match l with mk n _ _ => n end.
Definition currentLevel (l : t) : value := match l with mk _ c _ => c end.
Definition loggers (l : t) : list (string * t) :=
  match l with mk _ _ ls => ls end.

(** [new Logger(name)] *)
Definition new_Logger (name : string) : t := mk name (VStr "info") [].

Definition setLevel (l : t) (level : value) : t :=
  mk (name l) level (loggers l).

Definition getLevel (l : t) : value := currentLevel l.

(** The [console] method a message is written with. *)
Inductive console : Type :=
| console_debug | console_info | console_warn | console_error.

(** What a call of one of the eight methods does: it throws the
    TypeError of a conversion, returns without writing, or writes a line. *)
Inductive outcome : Type :=
| Throws
| Silent
| Writes (out : console) (line : string).

Section Logging.
Variable NumberToString : float -> string.
(** [JSON.stringify] *)
Variable JSON_stringify : value -> string.
(** [new Date().toISOString()] *)
Variable now : string.

(** [LOG_LEVELS[level]] as a number to compare: the level is turned into
    a property key, which throws when the level does not convert
    (the outer [None]); a key that is no own property gives [undefined]
    or an inherited object (the inner [None]), and a comparison with
    either is false. *)
Definition rank (level : value) : option (option nat) :=
  option_map (fun key => option_map LOG_LEVELS (level_of_key key))
    (ToString NumberToString level).

(** [shouldLog]; [None] when it throws. *)
Definition shouldLog (l : t) (level : LogLevel) : option bool :=
  match rank (currentLevel l) with
  | None => None
  | Some (Some current) => Some (current <=? LOG_LEVELS level)%nat
  | Some None => Some false
  end.

Definition formatMessage (l : t) (level : LogLevel) (message : string)
  (data : value) : string :=
  let dataStr := if truthy data then " " ++ JSON_stringify data else "" in
  now ++ " [" ++ level_upper level ++ "] [" ++ name l ++ "] " ++ message
  ++ dataStr.

(** One of the eight methods. *)
Definition write (out : console) (l : t) (level : LogLevel)
  (message : string) (data : value) : outcome :=
  match shouldLog l level with
  | None => Throws
  | Some true => Writes out (formatMessage l level message data)
  | Some false => Silent
  end.

Definition debug := write console_debug.
Definition info := write console_info.
Definition notice := write console_info.
Definition warning := write console_warn.
Definition error := write console_error.
Definition critical := write console_error.
Definition alert := write console_error.
Definition emergency := write console_error.
End Logging.

(** [child]: the child found or created, and the logger afterwards. *)
Definition child (l : t) (childOf : string) : t * t :=
  let childName := name l ++ ":" ++ childOf in
  match map_get childName (loggers l) with
  | Some found => (found, l)
  | None =>
      let childLogger := setLevel (new_Logger childName) (currentLevel l) in
      (childLogger,
       mk (name l) (currentLevel l) (map_set childName childLogger (loggers l)))
  end.

(** [export const logger] *)
Definition logger : t := new_Logger "mcp-server".

(** [getLogger] and [setLogLevel], on the module's logger. *)
Definition getLogger (root : t) (name : string) : t * t := child root name.
Definition setLogLevel (root : t) (level : value) : t := setLevel root level.

End Logger.

(** ** [resources/index.ts]: [exampleResources] and class [ResourceProvider] *)

Module ResourceProvider.
Import Js.

Definition exampleResources : list Resource.t :=
  [{| Resource.uri := "system://status";
      Resource.name := "System Status";
      Resource.description :=
        Some "Current system status and health information";
      Resource.mimeType := Some "application/json" |};
   {| Resource.uri := "docs://api";
      Resource.name := "API Documentation";
      Resource.description :=
        Some "Complete API documentation for this MCP server";
      Resource.mimeType := Some "text/markdown" |};
   {| Resource.uri := "config://capabilities";
      Resource.name := "Server Capabilities";
      Resource.description := Some "List of server capabilities and features";
      Resource.mimeType := Some "application/json" |};
   {| Resource.uri := "data://sample.json";
      Resource.name := "Sample Data";
      Resource.description := Some "Sample JSON data for testing";
      Resource.mimeType := Some "application/json" |}].

Definition newline : string := String (ascii_of_nat 10) EmptyString.

(** A text between double quotes. *)
Definition quoted (s : string) : string :=
  String (ascii_of_nat 34) EmptyString ++ s
  ++ String (ascii_of_nat 34) EmptyString.

(** The lines of a template literal, each ended by a line feed. *)
Fixpoint lines (l : list string) : string :=
  match l with
  | [] => ""
  | line :: rest => line ++ newline ++ lines rest
  end.

Definition getApiDocs : string :=
  lines [
    "# MCP Server API Documentation";
    "";
    "## Overview";
    "This is a fully functional Model Context Protocol (MCP) server implementation.";
    "";
    "## Capabilities";
    "- **Resources**: Access to various data sources and content";
    "- **Tools**: Execute various operations and computations";
    "- **Prompts**: Pre-defined prompt templates for AI interactions";
    "";
    "## Available Methods";
    "";
    "### Resources";
    "- `resources/list` - List all available resources";
    "- `resources/read` - Read content from a specific resource";
    "";
    "### Tools";
    "- `tools/list` - List all available tools";
    "- `tools/call` - Execute a specific tool";
    "";
    "### Prompts";
    "- `prompts/list` - List all available prompts";
    "- `prompts/get` - Get a specific prompt with arguments";
    "";
    "## Example Usage";
    "";
    "```json";
    "{";
    "  " ++ quoted "jsonrpc" ++ ": " ++ quoted "2.0" ++ ",";
    "  " ++ quoted "id" ++ ": 1,";
    "  " ++ quoted "method" ++ ": " ++ quoted "tools/call" ++ ",";
    "  " ++ quoted "params" ++ ": {";
    "    " ++ quoted "name" ++ ": " ++ quoted "echo" ++ ",";
    "    " ++ quoted "arguments" ++ ": {";
    "      " ++ quoted "message" ++ ": " ++ quoted "Hello, MCP!";
    "    }";
    "  }";
    "}";
    "```"].

Section Provider.
(** [JSON.stringify(v, null, 2)] *)
Variable JSON_stringify_pretty : value -> string.
(** [process.uptime()] *)
Variable uptime : float.
(** [process.memoryUsage()] *)
Variable memoryUsage : value.
(** [new Date().toISOString()] *)
Variable now : string.

Definition getSystemStatus : string :=
  JSON_stringify_pretty (VObj [
    ("status", VStr "healthy");
    ("uptime", VNum uptime);
    ("memory", memoryUsage);
    ("version", VStr "1.0.0");
    ("timestamp", VStr now)]).

Definition getCapabilities : string :=
  JSON_stringify_pretty (VObj [
    ("prompts", VObj [("listChanged", VBool true)]);
    ("resources", VObj [("subscribe", VBool true);
                        ("listChanged", VBool true)]);
    ("tools", VObj [("listChanged", VBool true)]);
    ("logging", VObj [])]).

#[warnings="-inexact-float"]
Definition getSampleData : string :=
  JSON_stringify_pretty (VObj [
    ("users", VArr [
       VObj [("id", VNum 1); ("name", VStr "Alice");
             ("email", VStr "alice@example.com")];
       VObj [("id", VNum 2); ("name", VStr "Bob");
             ("email", VStr "bob@example.com")];
       VObj [("id", VNum 3); ("name", VStr "Charlie");
             ("email", VStr "charlie@example.com")]]);
    ("products", VArr [
       VObj [("id", VNum 1); ("name", VStr "Widget A");
             ("price", VNum 19.99)];
       VObj [("id", VNum 2); ("name", VStr "Widget B");
             ("price", VNum 29.99)];
       VObj [("id", VNum 3); ("name", VStr "Widget C");
             ("price", VNum 39.99)]]);
    ("settings", VObj [("theme", VStr "dark"); ("language", VStr "en");
                       ("notifications", VBool true)])]).

(** [getContent]: the content, or the message of the [Error] thrown. *)
Definition getContent (uri : string) : string + string :=
  if uri =? "system://status" then inr getSystemStatus
  else if uri =? "docs://api" then inr getApiDocs
  else if uri =? "config://capabilities" then inr getCapabilities
  else if uri =? "data://sample.json" then inr getSampleData
  else inl ("Unknown resource: " ++ uri).
End Provider.

End ResourceProvider.

(** ** [tools/index.ts]: [exampleTools] and class [ToolExecutor] *)

Module ToolExecutor.
Import Js.

Definition string_property (description : string) : value :=
  VObj [("type", VStr "string"); ("description", VStr description)].

Definition exampleTools : list Tool.t :=
  [{| Tool.name := "file_list";
      Tool.description := Some "List files in a directory";
      Tool.inputSchema := VObj [
        ("type", VStr "object");
        ("properties", VObj [
           ("path", string_property "Directory path to list")]);
        ("required", VArr [VStr "path"])] |};
   {| Tool.name := "weather";
      Tool.description := Some "Get weather information for a location";
      Tool.inputSchema := VObj [
        ("type", VStr "object");
        ("properties", VObj [
           ("location", string_property "Location to get weather for");
           ("units", VObj [
              ("type", VStr "string");
              ("enum", VArr [VStr "celsius"; VStr "fahrenheit"]);
              ("description", VStr "Temperature units")])]);
        ("required", VArr [VStr "location"])] |};
   {| Tool.name := "base64_encode";
      Tool.description := Some "Encode text to base64";
      Tool.inputSchema := VObj [
        ("type", VStr "object");
        ("properties", VObj [("text", string_property "Text to encode")]);
        ("required", VArr [VStr "text"])] |};
   {| Tool.name := "base64_decode";
      Tool.description := Some "Decode base64 text";
      Tool.inputSchema := VObj [
        ("type", VStr "object");
        ("properties", VObj [
           ("encoded", string_property "Base64 encoded text to decode")]);
        ("required", VArr [VStr "encoded"])] |}].

Definition newline : string := String (ascii_of_nat 10) EmptyString.

(** The degree sign, one code unit. *)
Definition degree : string := String (ascii_of_nat 176) EmptyString.

(** The message of the TypeError of reading a member of [undefined] or
    [null]. *)
Definition read_error (key : string) (target : value) : string :=
  "Cannot read properties of "
  ++ match target with VNull => "null" | _ => "undefined" end
  ++ " (reading '" ++ key ++ "')".

Section Executor.
Variable NumberToString : float -> string.
(** [fs.readdir(path)] after [import('fs/promises')]: the names, or the
    message of the error thrown. *)
Variable readdir : value -> string + list string.
(** [Buffer.from(text, 'utf8').toString('base64')]: the text, or the
    message of the error thrown. *)
Variable utf8_to_base64 : value -> string + string.
(** [Buffer.from(encoded, 'base64').toString('utf8')]: the text, or the
    message of the error thrown. *)
Variable base64_to_utf8 : value -> string + string.

Definition str_of : value -> option string := ToString NumberToString.

(** The template literal stands inside the [try]: the TypeError of the
    conversion of the path is caught like an error of [readdir]. *)
Definition executeFileList (args : value) : string + string :=
  if nullish args then inl (read_error "path" args)
  else
    let path := get_prop args "path" in
    match readdir path with
    | inr files =>
        match str_of path with
        | Some text =>
            inr ("Files in " ++ text ++ ":" ++ newline
                 ++ join newline (map (fun f => "- " ++ f) files))
        | None => inr ("Error listing files: " ++ cannot_convert)
        end
    | inl message => inr ("Error listing files: " ++ message)
    end.

Definition executeWeather (args : value) : string + string :=
  if nullish args then inl (read_error "location" args)
  else
    let location := get_prop args "location" in
    let units := or_else (get_prop args "units") (VStr "celsius") in
    let temp := if is_str units "celsius" then "22" ++ degree ++ "C"
                else "72" ++ degree ++ "F" in
    match str_of location with
    | Some place =>
        inr ("Weather in " ++ place ++ ": Sunny, " ++ temp ++ ", Light breeze")
    | None => inl cannot_convert
    end.

Definition executeBase64Encode (args : value) : string + string :=
  if nullish args then inl (read_error "text" args)
  else
    match utf8_to_base64 (get_prop args "text") with
    | inr encoded => inr ("Base64 encoded: " ++ encoded)
    | inl message => inl message
    end.

Definition executeBase64Decode (args : value) : string + string :=
  if nullish args then inl (read_error "encoded" args)
  else
    match base64_to_utf8 (get_prop args "encoded") with
    | inr decoded => inr ("Decoded text: " ++ decoded)
    | inl _ => inr "Error decoding base64: Invalid input"
    end.

(** [execute]: the text, or the message of the [Error] thrown. *)
Definition execute (toolName : string) (args : value) : string + string :=
  if toolName =? "file_list" then executeFileList args
  else if toolName =? "weather" then executeWeather args
  else if toolName =? "base64_encode" then executeBase64Encode args
  else if toolName =? "base64_decode" then executeBase64Decode args
  else inl ("Unknown tool: " ++ toolName).
End Executor.

End ToolExecutor.

(** ** Sequences of requests and what a batch answers *)

Module Sessions.
Import Js JsonRpc.

(** The Express dispatcher after the requests, oldest first, whether
    their promises are fulfilled or rejected. *)
Definition run_requests (srv : McpHandler.McpServer)
  (requests : list JsonRpcRequest) : McpHandler.McpServer :=
  fold_left (fun s request => snd (McpHandler.handleRequest s request))
    requests srv.

(** A member of a batch that is passed to the dispatcher. *)
Definition dispatched (obj : value) : bool :=
  isValidJsonRpcRequest obj && negb (has_prop obj "code").

(** A member of a batch that is passed to the dispatcher as a
    notification. *)
Definition silent (obj : value) : bool :=
  isValidJsonRpcRequest obj && negb (has_prop obj "code")
  && isNotification (as_request obj).

(** A request that leaves the logger with a level that does not convert:
    [logging/setLevel] with such a level. *)
Definition spoils (request : JsonRpcRequest) : bool :=
  (req_method request =? "logging/setLevel")
  && negb (nullish (req_params request))
  && negb (convertible (get_prop (req_params request) "level")).

(** The identifier of the entry that answers a member. *)
Definition entry_id (obj : value) : value :=
  if isValidJsonRpcRequest obj && negb (has_prop obj "code")
  then get_prop obj "id"
  else or_else (opt_prop obj "id") VNull.

(** The handler table [setupDefaultHandlers] builds. *)
Definition default_handlers (NumberToString : float -> string)
  (JSON_stringify : value -> string) (now : string)
  (run_Function : string -> McpHandler.thrown + value)
  : Map McpHandler.MethodHandler :=
  McpHandler.methodHandlers
    (McpHandler.new_McpServer NumberToString JSON_stringify now run_Function).

(** What the endpoint answers to a notification when the dispatcher
    throws the TypeError of a conversion. *)
Definition logger_fault_answer : ExpressServer.HttpResponse :=
  {| ExpressServer.status := 200;
     ExpressServer.body := ExpressServer.JsonResponse
       {| res_id := VNull; res_result := None;
          res_error := Some (createInvalidRequestError
                               (VStr cannot_convert)) |} |}.

(** A member of a batch that is dispatched and spoils the level. *)
Definition spoils_member (obj : value) : bool :=
  dispatched obj && spoils (as_request obj).

(** A [Function] constructor whose call returns the given number. *)
Definition constant_Function (x : float) (body : string)
  : McpHandler.thrown + value :=
  inr (VNum x).

(** The event a call on the stdio server emits. *)
Definition events_of (c : History.call) : list string :=
  match c with
  | History.RegisterResource _ => ["resources/list_changed"]
  | History.RegisterTool _ => ["tools/list_changed"]
  | History.RegisterPrompt _ => ["prompts/list_changed"]
  | History.HandleRequest _ => []
  end.

(** Every character of the string passes the test. *)
Definition string_forall (p : ascii -> bool) (s : string) : bool :=
  forallb p (list_ascii_of_string s).


End Sessions.

(** * Properties *)

(** ** Conversions *)

Module ConversionFacts.
Import Js.

Section Conversions.
Variable NumberToString : float -> string.
Variable StringToNumber : string -> float.

(** [ToString] returns exactly on the values [convertible] accepts. *)
Lemma convertible_ToString :
  forall v, convertible v
            = match ToString NumberToString v with
              | Some _ => true
              | None => false
              end.
Proof.
  fix IH 1. intros [ | | [|] | x | s | items | props]; try reflexivity.
  - cbn [convertible ToString].
    induction items as [|i rest IHrest]; [reflexivity|].
    cbn [forallb]. rewrite IHrest. rewrite (IH i).
    destruct (nullish i); cbn [orb].
    + destruct ((fix each (l : list value) : option (list string) := _) rest);
        reflexivity.
    + destruct (ToString NumberToString i);
        destruct ((fix each (l : list value) : option (list string) := _) rest);
        reflexivity.
  - cbn [convertible ToString]. destruct (lookup "toString" props); reflexivity.
Qed.

Lemma ToString_throws (v : value) :
  ToString NumberToString v = None <-> convertible v = false.
Proof.
  rewrite convertible_ToString.
  destruct (ToString NumberToString v); split; intros H;
    try reflexivity; discriminate.
Qed.

Lemma ToString_returns (v : value) :
  convertible v = true -> exists text, ToString NumberToString v = Some text.
Proof.
  rewrite convertible_ToString.
  destruct (ToString NumberToString v) as [text|]; [|discriminate].
  intros _. exists text. reflexivity.
Qed.

(** [Number] throws on the same values. *)
Lemma Number_returns (v : value) :
  convertible v = true ->
  exists x, Number NumberToString StringToNumber v = Some x.
Proof.
  intros Hc. destruct v as [ | | [|] | x | s | items | props];
    try (eexists; reflexivity).
  - destruct (ToString_returns _ Hc) as [text Ht].
    unfold Number. rewrite Ht. eexists; reflexivity.
  - destruct (ToString_returns _ Hc) as [text Ht].
    unfold Number. rewrite Ht. eexists; reflexivity.
Qed.

Lemma Number_throws (v : value) :
  convertible v = false -> Number NumberToString StringToNumber v = None.
Proof.
  intros Hc. apply ToString_throws in Hc.
  destruct v as [ | | [|] | x | s | items | props]; try discriminate;
    unfold Number; rewrite Hc; reflexivity.
Qed.
End Conversions.

End ConversionFacts.

(** ** The dispatcher of the Express server *)

Module ExpressFacts.
Import Js JsonRpc McpHandler.

Lemma error_response (id : value) (code : float) (message : string)
  (data : value) :
  createJsonRpcResponse id VUndefined (createJsonRpcError code message data)
  = {| res_id := id; res_result := None;
       res_error := Some (createJsonRpcError code message data) |}.
Proof. reflexivity. Qed.

Lemma result_response (id result : value) :
  createJsonRpcResponse id result VUndefined
  = {| res_id := id; res_result := Some result; res_error := None |}.
Proof. reflexivity. Qed.

Lemma with_data_same (srv : McpServer) : with_data srv (data srv) = srv.
Proof. destruct srv; reflexivity. Qed.

(** With a level that does not convert the first [logger.debug] throws:
    the promise is rejected and nothing has changed. *)
Lemma handleRequest_rejects (srv : McpServer) (request : JsonRpcRequest) :
  logs (data srv) = false ->
  handleRequest srv request = (inl conversion_error, srv).
Proof. intros Hl. unfold handleRequest. rewrite Hl. reflexivity. Qed.

(** The dispatcher has no response for a notification: its promise is
    fulfilled with [null], or rejected by the logger. *)
Lemma handleRequest_notification_outcomes (srv : McpServer)
  (request : JsonRpcRequest) :
  isNotification request = true ->
  fst (handleRequest srv request) = inr None
  \/ fst (handleRequest srv request) = inl conversion_error.
Proof.
  intros Hn. unfold handleRequest. rewrite Hn. cbn [negb].
  destruct (logs (data srv)); cbn [negb]; [|right; reflexivity].
  destruct (map_get (req_method request) (methodHandlers srv)) as [handler|];
    [|left; reflexivity].
  destruct (handler (data srv) (req_params request)) as [[error|result] d];
    [|left; reflexivity].
  destruct (logs d); [left | right]; reflexivity.
Qed.

(** It is fulfilled with [null] when the level converts before the call
    and after it. *)
Lemma handleRequest_notification (srv : McpServer) (request : JsonRpcRequest) :
  isNotification request = true ->
  logs (data srv) = true ->
  logs (data (snd (handleRequest srv request))) = true ->
  fst (handleRequest srv request) = inr None.
Proof.
  intros Hn Hl. unfold handleRequest. rewrite Hn, Hl. cbn [negb].
  destruct (map_get (req_method request) (methodHandlers srv)) as [handler|];
    [|reflexivity].
  destruct (handler (data srv) (req_params request)) as [[error|result] d];
    [|reflexivity].
  cbn [snd fst]. destruct (logs d) eqn:Hd; cbn [negb snd data with_data].
  - reflexivity.
  - rewrite Hd. discriminate.
Qed.

(** The promise is fulfilled when the level converts before the call and
    after it. *)
Lemma handleRequest_fulfilled (srv : McpServer) (request : JsonRpcRequest) :
  logs (data srv) = true ->
  logs (data (snd (handleRequest srv request))) = true ->
  exists outcome, fst (handleRequest srv request) = inr outcome.
Proof.
  intros Hl. unfold handleRequest. rewrite Hl. cbn [negb].
  destruct (map_get (req_method request) (methodHandlers srv)) as [handler|].
  - destruct (handler (data srv) (req_params request)) as [[error|result] d];
      destruct (negb (isNotification request)); destruct (logs d) eqn:Hd;
      cbn [negb fst snd data with_data]; intros Hl';
      first [eexists; reflexivity | rewrite Hd in Hl'; discriminate].
  - destruct (negb (isNotification request)); intros _; eexists; reflexivity.
Qed.

Lemma handleRequest_no_handler (srv : McpServer) (request : JsonRpcRequest) :
  logs (data srv) = true ->
  map_get (req_method request) (methodHandlers srv) = None ->
  isNotification request = false ->
  handleRequest srv request
  = (inr (Some {| res_id := req_id request; res_result := None;
                  res_error :=
                    Some (createMethodNotFoundError (req_method request)) |}),
     srv).
Proof.
  intros Hl Hget Hn. unfold handleRequest. rewrite Hl, Hget, Hn. reflexivity.
Qed.

Lemma handleRequest_returned (srv : McpServer) (request : JsonRpcRequest)
  (handler : MethodHandler) (result : value) (d : McpData) :
  logs (data srv) = true ->
  map_get (req_method request) (methodHandlers srv) = Some handler ->
  handler (data srv) (req_params request) = (inr result, d) ->
  logs d = true ->
  isNotification request = false ->
  handleRequest srv request
  = (inr (Some {| res_id := req_id request; res_result := Some result;
                  res_error := None |}),
     with_data srv d).
Proof.
  intros Hl Hget Hrun Hd Hn. unfold handleRequest.
  rewrite Hl, Hget, Hrun, Hn. cbn [negb]. rewrite Hd. reflexivity.
Qed.

Lemma handleRequest_threw (srv : McpServer) (request : JsonRpcRequest)
  (handler : MethodHandler) (error : thrown) (d : McpData) :
  logs (data srv) = true ->
  map_get (req_method request) (methodHandlers srv) = Some handler ->
  handler (data srv) (req_params request) = (inl error, d) ->
  logs d = true ->
  isNotification request = false ->
  handleRequest srv request
  = (inr (Some {| res_id := req_id request; res_result := None;
                  res_error :=
                    Some (createInternalError
                            (VStr (message_or "Unknown error" error))) |}),
     with_data srv d).
Proof.
  intros Hl Hget Hrun Hd Hn. unfold handleRequest.
  rewrite Hl, Hget, Hrun, Hn, Hd. reflexivity.
Qed.

(** The handler table is never changed by a dispatch. *)
Lemma handleRequest_keeps_handlers (srv : McpServer) (request : JsonRpcRequest) :
  methodHandlers (snd (handleRequest srv request)) = methodHandlers srv.
Proof.
  unfold handleRequest. destruct (negb (logs (data srv))); [reflexivity|].
  destruct (map_get (req_method request) (methodHandlers srv)) as [handler|].
  - destruct (handler (data srv) (req_params request)) as [[error|result] d];
      destruct (negb (isNotification request)); destruct (logs d); reflexivity.
  - destruct (negb (isNotification request)); reflexivity.
Qed.

(** A request with an unregistered method is answered MethodNotFound. *)
Lemma unknown_method_express (srv : McpServer) (request : JsonRpcRequest) :
  logs (data srv) = true ->
  map_get (req_method request) (methodHandlers srv) = None ->
  isNotification request = false ->
  exists response,
    fst (handleRequest srv request) = inr (Some response)
    /\ res_id response = req_id request
    /\ res_result response = None
    /\ error_code response = VNum McpErrorCode.MethodNotFound.
Proof.
  intros Hl Hget Hn. rewrite (handleRequest_no_handler _ _ Hl Hget Hn).
  eexists; repeat split.
Qed.

(** *** Strings the sanitising filter changes *)

Lemma string_filter_length (p : ascii -> bool) (s : string) :
  String.length (string_filter p s) <= String.length s.
Proof.
  induction s as [|c s IH]; simpl; [lia|].
  destruct (p c); simpl; lia.
Qed.

Lemma string_filter_shrinks (p : ascii -> bool) (s : string) (c : ascii) :
  In c (list_ascii_of_string s) -> p c = false ->
  String.length (string_filter p s) < String.length s.
Proof.
  induction s as [|c' s IH]; simpl; [contradiction|].
  intros [Heq|Hin] Hp.
  - subst c'. rewrite Hp. pose proof (string_filter_length p s). lia.
  - specialize (IH Hin Hp). destruct (p c'); simpl; lia.
Qed.

Section Evaluator.
Variable NumberToString : float -> string.
Variable run_Function : string -> thrown + value.

(** An expression with a character outside the accepted set is rejected,
    whatever the [Function] constructor would do with it. *)
Lemma evaluateExpression_invalid_characters (e : string) (c : ascii) :
  In c (list_ascii_of_string e) -> allowed_char c = false ->
  evaluateExpression run_Function (VStr e)
  = inl (ErrorInstance "Invalid characters in expression").
Proof.
  intros Hin Hc. unfold evaluateExpression.
  assert (Hneq : (string_filter allowed_char e =? e) = false).
  { apply String.eqb_neq. intros Heq.
    pose proof (string_filter_shrinks allowed_char e c Hin Hc) as Hlt.
    rewrite Heq in Hlt. lia. }
  rewrite Hneq. rewrite orb_true_r. reflexivity.
Qed.

(** A rejected expression makes [tools/call] return a result flagged
    [isError], not a thrown fault. *)
Lemma handleCallTool_calculate_rejected (this : McpData) (params : value)
  (error : thrown) :
  logs this = true ->
  get_prop params "name" = VStr "calculate" ->
  evaluateExpression run_Function
    (or_else (opt_prop (get_prop params "arguments") "expression") (VStr ""))
  = inl error ->
  handleCallTool NumberToString run_Function this params
  = (inr (VObj [("content", VArr [
            text_block (VStr ("Error: "
                              ++ message_or "Invalid expression" error))]);
                ("isError", VBool true)]),
     this).
Proof.
  intros Hl Hname Hev. unfold handleCallTool. rewrite Hl. cbn [negb].
  assert (Hnn : nullish params = false).
  { destruct params; simpl in *; try discriminate; reflexivity. }
  rewrite Hnn, Hname. simpl is_str. cbv iota.
  change (is_str (VStr "calculate") "echo") with false.
  change (is_str (VStr "calculate") "calculate") with true.
  cbv iota. rewrite Hev. reflexivity.
Qed.
End Evaluator.

End ExpressFacts.

(** ** The HTTP endpoint of the Express server *)

Module HttpFacts.
Import Js JsonRpc McpHandler ExpressServer ExpressFacts.

Lemma valid_is_object (obj : value) :
  isValidJsonRpcRequest obj = true -> exists props, obj = VObj props.
Proof.
  unfold isValidJsonRpcRequest. intros H.
  repeat (apply andb_true_iff in H; destruct H as [H ?]).
  destruct obj; simpl in *; try discriminate.
  eexists; reflexivity.
Qed.

Lemma validate_valid (obj : value) :
  isValidJsonRpcRequest obj = true -> validateJsonRpcRequest obj = obj.
Proof. intros H. unfold validateJsonRpcRequest. rewrite H. reflexivity. Qed.

(** A dispatched Request is answered under its own identifier, unless
    the logger rejects the promise. *)
Lemma handleRequest_answers (srv : McpServer) (request : JsonRpcRequest) :
  isNotification request = false ->
  (exists response,
     fst (handleRequest srv request) = inr (Some response)
     /\ res_id response = req_id request)
  \/ fst (handleRequest srv request) = inl conversion_error.
Proof.
  intros Hn. unfold handleRequest. rewrite Hn. cbn [negb].
  destruct (logs (data srv)); cbn [negb]; [|right; reflexivity].
  destruct (map_get (req_method request) (methodHandlers srv)) as [handler|].
  - destruct (handler (data srv) (req_params request)) as [[error|result] d];
      destruct (logs d); cbn [negb];
      first [right; reflexivity | left; eexists; split; reflexivity].
  - left; eexists; split; reflexivity.
Qed.

(** One turn of the loop on a valid member without a [code] member. *)
Lemma processRequest_valid (responses : list JsonRpcResponse)
  (srv : McpServer) (obj : value) :
  isValidJsonRpcRequest obj = true -> has_prop obj "code" = false ->
  processRequest (responses, srv) obj
  = (match fst (handleRequest srv (as_request obj)) with
     | inr (Some response) => responses ++ [response]
     | inr None => responses
     | inl error => responses ++ [rejected_entry obj error]
     end%list,
     snd (handleRequest srv (as_request obj))).
Proof.
  intros Hv Hc. unfold processRequest.
  rewrite (validate_valid _ Hv), Hc.
  destruct (valid_is_object _ Hv) as [props ->].
  destruct (handleRequest srv (as_request (VObj props)))
    as [[error|[response|]] srv']; reflexivity.
Qed.

(** One turn of the loop on a valid member that has a [code] member: the
    member itself is pushed as the error of an envelope. *)
Lemma processRequest_code_member (responses : list JsonRpcResponse)
  (srv : McpServer) (obj : value) :
  isValidJsonRpcRequest obj = true -> has_prop obj "code" = true ->
  processRequest (responses, srv) obj
  = ((responses ++ [{| res_id := or_else (get_prop obj "id") VNull;
                       res_result := None; res_error := Some obj |}])%list,
     srv).
Proof.
  intros Hv Hc. unfold processRequest.
  rewrite (validate_valid _ Hv), Hc.
  destruct (valid_is_object _ Hv) as [props ->]. reflexivity.
Qed.

(** A single member the dispatcher rejects is answered with status 200
    and an InvalidRequest envelope that carries the message of the
    TypeError. *)
Lemma single_member_rejected (srv : McpServer) (obj : value) :
  plain_member obj -> logs (data srv) = false ->
  handleMcpRequest srv obj
  = ({| status := 200;
        body := JsonResponse (rejected_entry obj conversion_error) |}, srv).
Proof.
  intros [Hv Hc] Hl. destruct (valid_is_object _ Hv) as [props ->].
  unfold handleMcpRequest. cbn [isArray fold_left].
  rewrite (processRequest_valid _ _ _ Hv Hc).
  rewrite (handleRequest_rejects _ _ Hl). reflexivity.
Qed.

(** A single Notification without a [code] member is answered 204 when
    the level of the logger converts before and after the call. *)
Lemma single_plain_notification (srv : McpServer) (obj : value) :
  plain_member obj -> isNotification (as_request obj) = true ->
  logs (data srv) = true ->
  logs (data (snd (handleRequest srv (as_request obj)))) = true ->
  fst (handleMcpRequest srv obj) = {| status := 204; body := NoBody |}.
Proof.
  intros [Hv Hc] Hn Hl Hl'. destruct (valid_is_object _ Hv) as [props ->].
  unfold handleMcpRequest. cbn [isArray fold_left].
  rewrite (processRequest_valid _ _ _ Hv Hc).
  rewrite (handleRequest_notification _ _ Hn Hl Hl'). reflexivity.
Qed.

Section Application.
Variable now : string.
Variable NODE_ENV : value.
Variable express_json : string -> string + value.
Variable unparsed_body : value.

Lemma handleMcpRequest_status (srv : McpServer) (parsed : value) :
  status (fst (handleMcpRequest srv parsed)) = 200
  \/ status (fst (handleMcpRequest srv parsed)) = 204.
Proof.
  unfold handleMcpRequest.
  destruct (fold_left processRequest _ _) as [responses srv'].
  destruct (isArray parsed); [left; reflexivity|].
  destruct responses; [right | left]; reflexivity.
Qed.

Lemma sent_status (req : HttpRequest) (r : HttpResponse) :
  status (sent req r) = status r.
Proof. unfold sent. destruct (verb req =? "HEAD"); reflexivity. Qed.

(** No request at all is answered with status 400. *)
Lemma app_never_answers_400 (srv : McpServer) (req : HttpRequest) :
  status (fst (app now NODE_ENV express_json unparsed_body srv req)) <> 400.
Proof.
  unfold app. destruct (verb req =? "OPTIONS"); [simpl; discriminate|].
  destruct (match payload req with
            | Some text => express_json text
            | None => inr unparsed_body
            end) as [message|parsed];
    [cbn [fst]; rewrite sent_status; simpl; discriminate|].
  destruct (get_verb (verb req) && route_matches "/health" (path req));
    [cbn [fst]; rewrite sent_status; simpl; discriminate|].
  destruct ((verb req =? "POST") && route_matches "/mcp" (path req)).
  - destruct (handleMcpRequest_status srv parsed) as [-> | ->]; discriminate.
  - destruct (get_verb (verb req) && root_matches (path req));
      cbn [fst]; rewrite sent_status; simpl; discriminate.
Qed.
End Application.

End HttpFacts.

(** ** Insertion-ordered maps *)

Module MapFacts.
Import Js.

Section WithValues.
Context {V : Type}.
Implicit Types (m : Map V) (k : string) (v : V).

Lemma map_get_set_same k v m : map_get k (map_set k v m) = Some v.
Proof.
  induction m as [|[k' v'] m IH]; simpl.
  - rewrite String.eqb_refl. reflexivity.
  - destruct (k' =? k) eqn:E; simpl.
    + rewrite String.eqb_refl. reflexivity.
    + rewrite E. exact IH.
Qed.

Lemma map_set_In k v m : In (k, v) (map_set k v m).
Proof.
  induction m as [|[k' v'] m IH]; simpl.
  - left; reflexivity.
  - destruct (k' =? k); simpl; [left; reflexivity | right; exact IH].
Qed.

Lemma map_set_inv k v m k' v' :
  In (k', v') (map_set k v m) -> (k', v') = (k, v) \/ In (k', v') m.
Proof.
  induction m as [|[k0 v0] m IH]; simpl.
  - intros [H|[]]; left; symmetry; exact H.
  - destruct (k0 =? k); simpl.
    + intros [H|H]; [left; symmetry; exact H | right; right; exact H].
    + intros [H|H]; [right; left; exact H|].
      destruct (IH H) as [H'|H']; [left; exact H' | right; right; exact H'].
Qed.

Lemma map_keys_set_inv k v m k' :
  In k' (map_keys (map_set k v m)) -> k' = k \/ In k' (map_keys m).
Proof.
  unfold map_keys. induction m as [|[k0 v0] m IH]; simpl.
  - intros [H|[]]; left; symmetry; exact H.
  - destruct (k0 =? k) eqn:E; simpl.
    + intros [H|H]; [left; symmetry; exact H | right; right; exact H].
    + intros [H|H]; [right; left; exact H|].
      destruct (IH H) as [H'|H']; [left; exact H' | right; right; exact H'].
Qed.

(** [set] never makes two entries share a key. *)
Lemma map_set_NoDup k v m :
  NoDup (map_keys m) -> NoDup (map_keys (map_set k v m)).
Proof.
  unfold map_keys. induction m as [|[k0 v0] m IH]; simpl; intros Hnd.
  - constructor; [intros [] | constructor].
  - inversion Hnd as [|? ? Hnotin Hnd']; subst.
    destruct (k0 =? k) eqn:E; simpl.
    + apply String.eqb_eq in E. subst k0. constructor; assumption.
    + constructor; [|exact (IH Hnd')].
      intros Hin. destruct (map_keys_set_inv _ _ _ _ Hin) as [Heq|Hin'].
      * subst k0. rewrite String.eqb_refl in E. discriminate.
      * exact (Hnotin Hin').
Qed.

(** Under distinct keys a key has one value. *)
Lemma NoDup_keys_functional m k v v' :
  NoDup (map_keys m) -> In (k, v) m -> In (k, v') m -> v = v'.
Proof.
  unfold map_keys. induction m as [|[k0 v0] m IH]; simpl; [contradiction|].
  intros Hnd H1 H2. inversion Hnd as [|? ? Hnotin Hnd']; subst.
  destruct H1 as [H1|H1], H2 as [H2|H2].
  - congruence.
  - inversion H1; subst. exfalso. apply Hnotin.
    apply (in_map fst) in H2. exact H2.
  - inversion H2; subst. exfalso. apply Hnotin.
    apply (in_map fst) in H1. exact H1.
  - exact (IH Hnd' H1 H2).
Qed.
End WithValues.

End MapFacts.

(** ** The stdio server *)

Module StdioFacts.
Import Js MCPServer History MapFacts.

(** *** The tool registry *)

Lemma registry_ok_empty : registry_ok [].
Proof. split; constructor. Qed.

Lemma registry_ok_set (tool : Tool.t) (m : Map Tool.t) :
  registry_ok m -> registry_ok (map_set (Tool.name tool) tool m).
Proof.
  intros [Hnd Hkeys]. split.
  - apply map_set_NoDup. exact Hnd.
  - apply Forall_forall. intros [k t] Hin.
    destruct (map_set_inv _ _ _ _ _ Hin) as [Heq|Hold].
    + inversion Heq; subst. reflexivity.
    + exact (proj1 (Forall_forall _ _) Hkeys _ Hold).
Qed.

Lemma registry_names (m : Map Tool.t) :
  registry_ok m -> map Tool.name (map_values m) = map_keys m.
Proof.
  intros [_ Hkeys]. unfold map_values, map_keys.
  induction Hkeys as [|[k t] m Hk _ IH]; simpl; [reflexivity|].
  simpl in Hk. rewrite Hk, IH. reflexivity.
Qed.

Lemma filter_name_absent (n : string) (l : list Tool.t) :
  ~ In n (map Tool.name l) -> filter (fun t => Tool.name t =? n) l = [].
Proof.
  induction l as [|a l IH]; simpl; [reflexivity|]. intros Hnotin.
  destruct (Tool.name a =? n) eqn:E.
  - apply String.eqb_eq in E. exfalso. apply Hnotin. left. exact E.
  - apply IH. intros Hin. apply Hnotin. right. exact Hin.
Qed.

(** In a list without repeated names a listed tool is the only one under
    its name. *)
Lemma count_name_once (t : Tool.t) (l : list Tool.t) :
  NoDup (map Tool.name l) -> In t l -> count_name (Tool.name t) l = 1.
Proof.
  unfold count_name. induction l as [|a l IH]; simpl; [contradiction|].
  intros Hnd Hin. inversion Hnd as [|? ? Hnotin Hnd']; subst.
  destruct Hin as [Heq|Hin].
  - subst a. rewrite String.eqb_refl. simpl.
    rewrite (filter_name_absent _ _ Hnotin). reflexivity.
  - destruct (Tool.name a =? Tool.name t) eqn:E.
    + apply String.eqb_eq in E. exfalso. apply Hnotin. rewrite E.
      apply in_map. exact Hin.
    + exact (IH Hnd' Hin).
Qed.

Lemma unique_by_name (t t' : Tool.t) (l : list Tool.t) :
  NoDup (map Tool.name l) -> In t l -> In t' l ->
  Tool.name t' = Tool.name t -> t' = t.
Proof.
  induction l as [|a l IH]; simpl; [contradiction|].
  intros Hnd Hin Hin' Hname. inversion Hnd as [|? ? Hnotin Hnd']; subst.
  destruct Hin as [Heq|Hin], Hin' as [Heq'|Hin'].
  - congruence.
  - subst a. exfalso. apply Hnotin. rewrite <- Hname. apply in_map. exact Hin'.
  - subst a. exfalso. apply Hnotin. rewrite Hname. apply in_map. exact Hin.
  - exact (IH Hnd' Hin Hin' Hname).
Qed.

Section Server.
Variable NumberToString : float -> string.
Variable StringToNumber : string -> float.
Variable JSON_stringify : value -> string.
Variable now : string.

Local Abbreviation handleRequest :=
  (handleRequest NumberToString StringToNumber JSON_stringify now).
Local Abbreviation dispatch :=
  (dispatch NumberToString StringToNumber JSON_stringify now).
Local Abbreviation step :=
  (step NumberToString StringToNumber JSON_stringify now).
Local Abbreviation after :=
  (after NumberToString StringToNumber JSON_stringify now).

Lemma initialize_tools (s : state) (params : value) :
  tools (snd (initialize NumberToString s params)) = tools s.
Proof.
  unfold initialize. destruct (initialized s); [reflexivity|].
  destruct (nullish params); [reflexivity|].
  destruct (negb _); reflexivity.
Qed.

Lemma dispatch_tools (s : state) (method params : value) :
  tools (snd (dispatch s method params)) = tools s.
Proof.
  unfold MCPServer.dispatch.
  repeat match goal with
         | |- context [if is_str method ?m then _ else _] =>
             destruct (is_str method m)
         end;
    try reflexivity.
  apply initialize_tools.
Qed.

(** Requests leave the registry of tools alone. *)
Lemma handleRequest_tools (s : state) (request : value) :
  tools (snd (handleRequest s request)) = tools s.
Proof.
  unfold MCPServer.handleRequest.
  destruct (nullish request); [reflexivity|].
  destruct (is_str _ "notifications/initialized"); [reflexivity|].
  pose proof (dispatch_tools s (get_prop request "method")
                (get_prop request "params")) as Hd.
  destruct (dispatch s (get_prop request "method")
              (get_prop request "params")) as [[error|result] s'];
    exact Hd.
Qed.

Lemma step_registry_ok (s : state) (c : call) :
  registry_ok (tools s) -> registry_ok (tools (step s c)).
Proof.
  intros Hok. destruct c as [resource|tool|prompt|request]; simpl.
  - exact Hok.
  - apply registry_ok_set. exact Hok.
  - exact Hok.
  - rewrite handleRequest_tools. exact Hok.
Qed.

Lemma run_registry_ok (calls : list call) (s : state) :
  registry_ok (tools s) -> registry_ok (tools (fold_left step calls s)).
Proof.
  revert s. induction calls as [|c calls IH]; intros s Hok; simpl.
  - exact Hok.
  - apply IH. apply step_registry_ok. exact Hok.
Qed.

(** The registry of every server reached from a new one is well formed. *)
Lemma after_registry_ok (calls : list call) :
  registry_ok (tools (after calls)).
Proof. apply run_registry_ok. apply registry_ok_empty. Qed.

Lemma after_snoc (calls : list call) (c : call) :
  after (calls ++ [c]) = step (after calls) c.
Proof. unfold History.after. rewrite fold_left_app. reflexivity. Qed.

(** What [tools/list] answers. *)
Lemma handleRequest_tools_list (s : state) (request : value) :
  get_prop request "method" = VStr "tools/list" ->
  handleRequest s request
  = (inr {| id := get_prop request "id";
            result_of := Some (ListToolsResult (map_values (tools s)));
            error_of := None |}, s).
Proof.
  intros Hm. unfold MCPServer.handleRequest.
  assert (Hnn : nullish request = false).
  { destruct request; simpl in *; try discriminate; reflexivity. }
  rewrite Hnn, Hm. reflexivity.
Qed.

(** *** Faults of the [switch] as the [catch] block reports them *)

Lemma caught_createError (code : float) (message : string) :
  caught (ThrownValue (createError code message))
  = createError (-32603) "Internal error".
Proof. reflexivity. Qed.

(** The TypeError of a conversion is reported with its message. *)
Lemma caught_conversion_error :
  caught conversion_error = createError (-32603) cannot_convert.
Proof. reflexivity. Qed.

(** What the [catch] block makes of an error built around a template
    literal. *)
Lemma caught_error_about (code : float) (prefix : string) (v : value) :
  caught (error_about NumberToString code prefix v)
  = createError (-32603)
      (if convertible v then "Internal error" else cannot_convert).
Proof.
  unfold error_about, str_of.
  rewrite (ConversionFacts.convertible_ToString NumberToString v).
  destruct (ToString NumberToString v); reflexivity.
Qed.

(** The [catch] block gives every fault but an [Error] instance with an
    own [code] the code -32603. *)
Lemma caught_code (error : thrown) :
  instanceofError error && code_in error = false ->
  get_prop (caught error) "code" = VNum (-32603)%float.
Proof. intros H. unfold caught. rewrite H. reflexivity. Qed.

Lemma dispatch_no_case (s : state) (method params : value) :
  has_case method = false ->
  dispatch s method params
  = (inl (error_about NumberToString (-32601) "Method not found: " method), s).
Proof.
  unfold has_case, cases. cbn [existsb]. intros H.
  repeat (apply orb_false_iff in H; destruct H as [? H]).
  unfold MCPServer.dispatch.
  repeat match goal with
         | Hc : is_str method ?m = false |- _ => rewrite Hc; clear Hc
         end.
  reflexivity.
Qed.

(** A method without a [case] is answered with code -32603: the object
    thrown by the [default] branch is not an [Error] instance. *)
Lemma handleRequest_no_case (s : state) (request : value) :
  nullish request = false ->
  has_case (get_prop request "method") = false ->
  handleRequest s request
  = (inr {| id := get_prop request "id"; result_of := None;
            error_of :=
              Some (createError (-32603)
                      (if convertible (get_prop request "method")
                       then "Internal error" else cannot_convert)) |}, s).
Proof.
  intros Hnn Hc. unfold MCPServer.handleRequest. rewrite Hnn.
  assert (Hni : is_str (get_prop request "method") "notifications/initialized"
                = false).
  { unfold has_case, cases in Hc. cbn [existsb] in Hc.
    repeat (apply orb_false_iff in Hc; destruct Hc as [? Hc]). assumption. }
  rewrite Hni, (dispatch_no_case _ _ _ Hc), caught_error_about. reflexivity.
Qed.

(** *** [initialize] *)

Lemma initialize_again (s : state) (params : value) :
  initialized s = true ->
  initialize NumberToString s params
  = (inl (ThrownValue (createError (-32600) "Already initialized")), s).
Proof. intros Hi. unfold initialize. rewrite Hi. reflexivity. Qed.

Lemma initialize_unsupported (s : state) (params : value) :
  initialized s = false -> nullish params = false ->
  is_str (get_prop params "protocolVersion") "2024-11-05" = false ->
  initialize NumberToString s params
  = (inl (error_about NumberToString (-32602) "Unsupported protocol version: "
            (get_prop params "protocolVersion")), s).
Proof.
  intros Hi Hnn Hv. unfold initialize. rewrite Hi, Hnn, Hv. reflexivity.
Qed.

Lemma initialize_supported (s : state) (params : value) :
  initialized s = false ->
  get_prop params "protocolVersion" = VStr "2024-11-05" ->
  initialize NumberToString s params
  = (inr (InitializeResult "2024-11-05" (capabilities s) (serverInfo s)),
     set_initialized s true).
Proof.
  intros Hi Hv. unfold initialize. rewrite Hi.
  assert (Hnn : nullish params = false).
  { destruct params; simpl in *; try discriminate; reflexivity. }
  rewrite Hnn, Hv. reflexivity.
Qed.

Lemma handleRequest_initialize (s : state) (request : value) :
  get_prop request "method" = VStr "initialize" ->
  handleRequest s request
  = match initialize NumberToString s (get_prop request "params") with
    | (inr result, s') =>
        (inr {| id := get_prop request "id"; result_of := Some result;
                error_of := None |}, s')
    | (inl error, s') =>
        (inr {| id := get_prop request "id"; result_of := None;
                error_of := Some (caught error) |}, s')
    end.
Proof.
  intros Hm. unfold MCPServer.handleRequest.
  assert (Hnn : nullish request = false).
  { destruct request; simpl in *; try discriminate; reflexivity. }
  rewrite Hnn, Hm. reflexivity.
Qed.

(** *** [resources/read] *)

Lemma readResource_unregistered (s : state) (params : value) :
  nullish params = false ->
  get_by (get_prop params "uri") (resources s) = None ->
  readResource NumberToString s params
  = inl (error_about NumberToString (-32602) "Resource not found: "
           (get_prop params "uri")).
Proof.
  intros Hnn Hget. unfold readResource. rewrite Hnn, Hget. reflexivity.
Qed.

Lemma handleRequest_resources_read (s : state) (request : value) :
  get_prop request "method" = VStr "resources/read" ->
  handleRequest s request
  = match readResource NumberToString s (get_prop request "params") with
    | inr result =>
        (inr {| id := get_prop request "id"; result_of := Some result;
                error_of := None |}, s)
    | inl error =>
        (inr {| id := get_prop request "id"; result_of := None;
                error_of := Some (caught error) |}, s)
    end.
Proof.
  intros Hm. unfold MCPServer.handleRequest.
  assert (Hnn : nullish request = false).
  { destruct request; simpl in *; try discriminate; reflexivity. }
  rewrite Hnn, Hm. unfold MCPServer.dispatch. simpl is_str. cbv iota.
  destruct (readResource NumberToString s (get_prop request "params"));
    reflexivity.
Qed.

(** *** [tools/call] *)

Lemma handleRequest_tools_call (s : state) (request : value) :
  get_prop request "method" = VStr "tools/call" ->
  handleRequest s request
  = match callTool NumberToString StringToNumber JSON_stringify now s
            (get_prop request "params") with
    | inr result =>
        (inr {| id := get_prop request "id"; result_of := Some result;
                error_of := None |}, s)
    | inl error =>
        (inr {| id := get_prop request "id"; result_of := None;
                error_of := Some (caught error) |}, s)
    end.
Proof.
  intros Hm. unfold MCPServer.handleRequest.
  assert (Hnn : nullish request = false).
  { destruct request; simpl in *; try discriminate; reflexivity. }
  rewrite Hnn, Hm. unfold MCPServer.dispatch. simpl is_str. cbv iota.
  destruct (callTool _ _ _ _ s (get_prop request "params")); reflexivity.
Qed.

(** The guard of the [divide] case: a divisor equal to zero (either
    sign) selects the message, and no quotient is formed. *)
Lemma executeTool_divide_by_zero (args : value) (a b : float) :
  get_prop args "operation" = VStr "divide" ->
  get_prop args "a" = VNum a ->
  get_prop args "b" = VNum b ->
  (b =? 0)%float = true ->
  executeTool NumberToString StringToNumber JSON_stringify now
    "calculate" args
  = inr "Error: Division by zero".
Proof.
  intros Hop Ha Hb Hz. unfold executeTool. cbn [String.eqb Ascii.eqb Bool.eqb].
  rewrite Hop, Ha, Hb.
  change (num_of NumberToString StringToNumber (VNum a)) with (Some a).
  change (num_of NumberToString StringToNumber (VNum b)) with (Some b).
  unfold calculate. cbn [is_str String.eqb Ascii.eqb Bool.eqb].
  rewrite Hz. reflexivity.
Qed.
End Server.

End StdioFacts.

(** ** The properties of the specification *)

Module Spec.
Import Js.

(** Two numbers that differ are different values. *)
Lemma VNum_neq (a b : float) :
  (a =? b)%float = false -> (b =? b)%float = true -> VNum a <> VNum b.
Proof.
  intros Hab Hb Heq. injection Heq as Heq. subst a. congruence.
Qed.

(** *** Unknown methods *)

(** Claim C1, on the stdio server: a request whose method has no [case] in
    [MCPServer.handleRequest] is answered with an error whose code is
    -32603 (InternalError), not -32601: the [default] branch throws the
    plain object of [createError], the [catch] block forwards a caught
    value only when it is an [Error] instance, and so it builds a new
    error with code -32603. *)
Theorem unknown_method_stdio_reports_internal_error
  (NumberToString : float -> string) (StringToNumber : string -> float)
  (JSON_stringify : value -> string) (now : string)
  (s : MCPServer.state) (request : value) :
  nullish request = false ->
  MCPServer.has_case (get_prop request "method") = false ->
  exists response,
    MCPServer.handleRequest NumberToString StringToNumber JSON_stringify now
      s request = (inr response, s)
    /\ MCPServer.id response = get_prop request "id"
    /\ MCPServer.result_of response = None
    /\ MCPServer.error_code response = VNum (-32603)%float
    /\ MCPServer.error_code response <> VNum (-32601)%float.
Proof.
  intros Hnn Hc.
  rewrite (StdioFacts.handleRequest_no_case NumberToString StringToNumber
             JSON_stringify now s request Hnn Hc).
  eexists. split; [reflexivity|]. repeat split.
  apply VNum_neq; reflexivity.
Qed.

Lemma unknown_method_stdio_witness :
  exists response,
    Sample.stdio StdioTransport.new_StdioTransport
      (Sample.request (VNum 4) "unknown/method" VUndefined)
    = (inr response, StdioTransport.new_StdioTransport)
    /\ MCPServer.id response = VNum 4%float
    /\ MCPServer.result_of response = None
    /\ MCPServer.error_code response = VNum (-32603)%float
    /\ MCPServer.error_code response <> VNum (-32601)%float.
Proof.
  apply (unknown_method_stdio_reports_internal_error
           Sample.NumberToString Sample.StringToNumber Sample.JSON_stringify
           Sample.now StdioTransport.new_StdioTransport
           (Sample.request (VNum 4) "unknown/method" VUndefined));
    reflexivity.
Defined.

(** *** Notifications *)

Lemma notification_id (obj : value) :
  ExpressServer.isNotificationMember obj = true ->
  JsonRpc.isValidJsonRpcRequest obj = true
  /\ JsonRpc.isNotification (JsonRpc.as_request obj) = true
  /\ get_prop obj "id" = VUndefined.
Proof.
  unfold ExpressServer.isNotificationMember. intros Hm.
  apply andb_true_iff in Hm. destruct Hm as [Hv Hn].
  repeat split; try assumption.
  unfold JsonRpc.isNotification, JsonRpc.as_request in Hn.
  cbn [JsonRpc.req_id] in Hn.
  destruct (get_prop obj "id"); try discriminate. reflexivity.
Qed.

(** [logging/setLevel] with a level that does not convert: the handler
    throws after it has stored the level, the [catch] of the dispatcher
    throws in turn, and the level stays. *)
Lemma setLevel_spoils (NumberToString : float -> string)
  (srv : McpHandler.McpServer) (request : JsonRpc.JsonRpcRequest) :
  map_get "logging/setLevel" (McpHandler.methodHandlers srv)
  = Some (McpHandler.handleSetLevel NumberToString) ->
  McpHandler.logs (McpHandler.data srv) = true ->
  Sessions.spoils request = true ->
  fst (McpHandler.handleRequest srv request) = inl McpHandler.conversion_error
  /\ McpHandler.logs
       (McpHandler.data (snd (McpHandler.handleRequest srv request))) = false.
Proof.
  intros Hh Hl Hs. unfold Sessions.spoils in Hs.
  apply andb_true_iff in Hs. destruct Hs as [Hs Hconv].
  apply andb_true_iff in Hs. destruct Hs as [Hm Hnn].
  apply String.eqb_eq in Hm. apply negb_true_iff in Hnn, Hconv.
  assert (Hrun : McpHandler.handleRequest srv request
                 = (inl McpHandler.conversion_error,
                    McpHandler.with_data srv
                      (McpHandler.set_logLevel (McpHandler.data srv)
                         (get_prop (JsonRpc.req_params request) "level")))).
  { unfold McpHandler.handleRequest. rewrite Hl, Hm, Hh. cbn [negb].
    unfold McpHandler.handleSetLevel, McpHandler.str_of.
    rewrite Hl, Hnn. cbn [negb].
    rewrite (proj2 (ConversionFacts.ToString_throws NumberToString _) Hconv).
    unfold McpHandler.logs.
    cbn [McpHandler.logLevel McpHandler.set_logLevel]. rewrite Hconv.
    reflexivity. }
  rewrite Hrun. split; [reflexivity|]. exact Hconv.
Qed.

(** Claim C2, on the code: a notification can get a response.
    [logging/setLevel] stores the level before its template literal
    converts it; when the level does not convert (an object with an own
    property [toString]) the handler throws with that level in place,
    [logger.error] in the [catch] of the dispatcher throws in turn, and
    the promise is rejected instead of fulfilled with [null].  The
    endpoint answers the notification with status 200 and an
    InvalidRequest envelope.  From then on the first [logger.debug] of
    the dispatcher throws: every later notification is answered the same
    way. *)
Theorem notification_answered_through_logger
  (NumberToString : float -> string)
  (srv : McpHandler.McpServer) (obj later : value) :
  map_get "logging/setLevel" (McpHandler.methodHandlers srv)
  = Some (McpHandler.handleSetLevel NumberToString) ->
  McpHandler.logs (McpHandler.data srv) = true ->
  ExpressServer.isNotificationMember obj = true ->
  has_prop obj "code" = false ->
  Sessions.spoils (JsonRpc.as_request obj) = true ->
  ExpressServer.isNotificationMember later = true ->
  has_prop later "code" = false ->
  fst (McpHandler.handleRequest srv (JsonRpc.as_request obj))
  = inl McpHandler.conversion_error
  /\ fst (ExpressServer.handleMcpRequest srv obj) = Sessions.logger_fault_answer
  /\ fst (ExpressServer.handleMcpRequest
            (snd (ExpressServer.handleMcpRequest srv obj)) later)
     = Sessions.logger_fault_answer.
Proof.
  intros Hh Hl Hobj Hc Hs Hlater Hc'.
  destruct (notification_id obj Hobj) as (Hv & Hn & Hid).
  destruct (notification_id later Hlater) as (Hv' & Hn' & Hid').
  destruct (setLevel_spoils NumberToString srv _ Hh Hl Hs) as [Hrun Hbad].
  assert (Hsingle : ExpressServer.handleMcpRequest srv obj
                    = (Sessions.logger_fault_answer,
                       snd (McpHandler.handleRequest srv
                              (JsonRpc.as_request obj)))).
  { destruct (HttpFacts.valid_is_object obj Hv) as [props ->].
    unfold ExpressServer.handleMcpRequest. cbn [isArray fold_left].
    rewrite (HttpFacts.processRequest_valid [] srv _ Hv Hc), Hrun.
    cbn [app]. unfold ExpressServer.rejected_entry. rewrite Hid.
    reflexivity. }
  split; [exact Hrun|]. split; [rewrite Hsingle; reflexivity|].
  rewrite Hsingle. cbn [snd].
  rewrite (HttpFacts.single_member_rejected _ later (conj Hv' Hc') Hbad).
  unfold ExpressServer.rejected_entry. rewrite Hid'. reflexivity.
Qed.

Lemma notification_answered_through_logger_witness :
  fst (McpHandler.handleRequest Sample.express
         (JsonRpc.as_request Sample.setLevel_notification))
  = inl McpHandler.conversion_error
  /\ fst (ExpressServer.handleMcpRequest Sample.express
            Sample.setLevel_notification) = Sessions.logger_fault_answer
  /\ fst (ExpressServer.handleMcpRequest
            (snd (ExpressServer.handleMcpRequest Sample.express
                    Sample.setLevel_notification))
            (Sample.notification "initialized"))
     = Sessions.logger_fault_answer.
Proof.
  apply (notification_answered_through_logger Sample.NumberToString
           Sample.express Sample.setLevel_notification
           (Sample.notification "initialized"));
    reflexivity.
Defined.

(** While the level of the logger converts to a property key, when the
    request arrives and when the call is over, a notification gets no
    response.  The Express dispatcher then returns [null] for a request
    without identifier whatever the handler table holds and whatever the
    handler does, and the stdio transport writes nothing for a line that
    parses to a message without [id]. *)
Theorem notification_gets_no_response
  (srv : McpHandler.McpServer) (request : JsonRpc.JsonRpcRequest)
  (NumberToString : float -> string) (StringToNumber : string -> float)
  (JSON_stringify : value -> string) (now : string)
  (JSON_parse : string -> string + value)
  (server : MCPServer.state) (line : string) (message : value) :
  JsonRpc.isNotification request = true ->
  McpHandler.logs (McpHandler.data srv) = true ->
  McpHandler.logs
    (McpHandler.data (snd (McpHandler.handleRequest srv request))) = true ->
  JSON_parse (trim line) = inr message ->
  nullish message = false ->
  get_prop message "id" = VUndefined ->
  fst (McpHandler.handleRequest srv request) = inr None
  /\ fst (StdioTransport.on_line NumberToString StringToNumber JSON_stringify
            now JSON_parse server line) = [].
Proof.
  intros Hn Hl Hl' Hparse Hnn Hid. split.
  - apply ExpressFacts.handleRequest_notification; assumption.
  - unfold StdioTransport.on_line. destruct (trim line =? ""); [reflexivity|].
    rewrite Hparse.
    destruct (MCPServer.handleRequest NumberToString StringToNumber
                JSON_stringify now server message)
      as [[error|response] server'] eqn:Hh.
    + unfold MCPServer.handleRequest in Hh. rewrite Hnn in Hh.
      destruct (is_str _ "notifications/initialized"); [discriminate|].
      destruct (MCPServer.dispatch _ _ _ _ _ _ _) as [[e|r] s']; discriminate.
    + rewrite Hid. reflexivity.
Qed.

Lemma notification_gets_no_response_witness :
  fst (McpHandler.handleRequest Sample.express
         (JsonRpc.as_request (Sample.notification "initialized"))) = inr None
  /\ fst (StdioTransport.on_line Sample.NumberToString Sample.StringToNumber
            Sample.JSON_stringify Sample.now
            (Sample.read_as (Sample.notification "notifications/initialized"))
            StdioTransport.new_StdioTransport "{}") = [].
Proof.
  apply (notification_gets_no_response Sample.express
           (JsonRpc.as_request (Sample.notification "initialized"))
           Sample.NumberToString Sample.StringToNumber Sample.JSON_stringify
           Sample.now
           (Sample.read_as (Sample.notification "notifications/initialized"))
           StdioTransport.new_StdioTransport "{}"
           (Sample.notification "notifications/initialized"));
    reflexivity.
Defined.

(** *** Repeated [initialize] *)

(** What [initialize] answers on the Express server. *)
Lemma express_initialize (srv : McpHandler.McpServer)
  (request : JsonRpc.JsonRpcRequest) :
  McpHandler.logs (McpHandler.data srv) = true ->
  map_get "initialize" (McpHandler.methodHandlers srv)
  = Some McpHandler.handleInitialize ->
  JsonRpc.req_method request = "initialize" ->
  JsonRpc.isNotification request = false ->
  McpHandler.handleRequest srv request
  = (inr (Some {| JsonRpc.res_id := JsonRpc.req_id request;
                  JsonRpc.res_result := Some (VObj [
                    ("protocolVersion", VStr "2024-11-05");
                    ("capabilities",
                     McpHandler.capabilities (McpHandler.data srv));
                    ("serverInfo",
                     McpHandler.serverInfo (McpHandler.data srv))]);
                  JsonRpc.res_error := None |}),
     McpHandler.with_data srv
       (McpHandler.set_initialized (McpHandler.data srv) true)).
Proof.
  intros Hl Hh Hm Hn.
  apply (ExpressFacts.handleRequest_returned srv request
           McpHandler.handleInitialize); try assumption.
  - rewrite Hm. exact Hh.
  - unfold McpHandler.handleInitialize. rewrite Hl. reflexivity.
Qed.

(** [initialize] leaves everything but the flag as it was. *)
Lemma express_initialize_state (srv : McpHandler.McpServer)
  (request : JsonRpc.JsonRpcRequest) :
  McpHandler.logs (McpHandler.data srv) = true ->
  map_get "initialize" (McpHandler.methodHandlers srv)
  = Some McpHandler.handleInitialize ->
  JsonRpc.req_method request = "initialize" ->
  snd (McpHandler.handleRequest srv request)
  = McpHandler.with_data srv
      (McpHandler.set_initialized (McpHandler.data srv) true).
Proof.
  intros Hl Hh Hm. unfold McpHandler.handleRequest.
  rewrite Hl, Hm, Hh. cbn [negb]. unfold McpHandler.handleInitialize.
  rewrite Hl. cbn [negb].
  destruct (negb (JsonRpc.isNotification request)); [|reflexivity].
  change (McpHandler.logs
            (McpHandler.set_initialized (McpHandler.data srv) true))
    with (McpHandler.logs (McpHandler.data srv)).
  rewrite Hl. reflexivity.
Qed.

(** Claim C3 fails on the stdio server: after a successful [initialize]
    a second one is answered with an error and no result. *)
Lemma reinitialize_stdio_rejected :
  fst (Sample.stdio StdioTransport.new_StdioTransport
         (Sample.initialize_request 1))
  = inr {| MCPServer.id := VNum 1;
           MCPServer.result_of :=
             Some (MCPServer.InitializeResult "2024-11-05"
                     (MCPServer.capabilities StdioTransport.new_StdioTransport)
                     (MCPServer.serverInfo StdioTransport.new_StdioTransport));
           MCPServer.error_of := None |}
  /\ fst (Sample.stdio Sample.stdio_initialized (Sample.initialize_request 2))
     = inr {| MCPServer.id := VNum 2;
              MCPServer.result_of := None;
              MCPServer.error_of :=
                Some (MCPServer.createError (-32603) "Internal error") |}.
Proof. split; reflexivity. Qed.

(** Claim C3, amended: on the Express server, while the level of the
    logger converts to a property key, a repeated [initialize] succeeds
    again, with the same result and [initialized] set; on the stdio
    server an [initialize] that follows a successful one is answered with
    an error and no result, and leaves the session as it was,
    initialized. *)
Theorem reinitialize
  (srv : McpHandler.McpServer) (first second : JsonRpc.JsonRpcRequest)
  (NumberToString : float -> string) (StringToNumber : string -> float)
  (JSON_stringify : value -> string) (now : string)
  (s : MCPServer.state) (request1 request2 : value)
  (response1 : MCPServer.JSONRPCResponse) (result1 : MCPServer.result) :
  McpHandler.logs (McpHandler.data srv) = true ->
  map_get "initialize" (McpHandler.methodHandlers srv)
  = Some McpHandler.handleInitialize ->
  JsonRpc.req_method first = "initialize" ->
  JsonRpc.req_method second = "initialize" ->
  JsonRpc.isNotification second = false ->
  get_prop request1 "method" = VStr "initialize" ->
  get_prop request2 "method" = VStr "initialize" ->
  fst (MCPServer.handleRequest NumberToString StringToNumber JSON_stringify
         now s request1) = inr response1 ->
  MCPServer.result_of response1 = Some result1 ->
  (let srv1 := snd (McpHandler.handleRequest srv first) in
   fst (McpHandler.handleRequest srv1 second)
   = inr (Some {| JsonRpc.res_id := JsonRpc.req_id second;
                  JsonRpc.res_result := Some (VObj [
                    ("protocolVersion", VStr "2024-11-05");
                    ("capabilities",
                     McpHandler.capabilities (McpHandler.data srv));
                    ("serverInfo",
                     McpHandler.serverInfo (McpHandler.data srv))]);
                  JsonRpc.res_error := None |})
   /\ McpHandler.isInitialized (snd (McpHandler.handleRequest srv1 second))
      = true)
  /\ (let s1 := snd (MCPServer.handleRequest NumberToString StringToNumber
                       JSON_stringify now s request1) in
      MCPServer.initialized s1 = true
      /\ exists error,
           MCPServer.handleRequest NumberToString StringToNumber
             JSON_stringify now s1 request2
           = (inr {| MCPServer.id := get_prop request2 "id";
                     MCPServer.result_of := None;
                     MCPServer.error_of := Some error |}, s1)).
Proof.
  intros Hl Hh Hm1 Hm2 Hn2 Hr1 Hr2 Hfirst Hres. split.
  - cbv zeta. rewrite (express_initialize_state srv first Hl Hh Hm1).
    rewrite (express_initialize _ second); try assumption.
    split; reflexivity.
  - cbv zeta.
    rewrite (StdioFacts.handleRequest_initialize NumberToString StringToNumber
               JSON_stringify now s request1 Hr1) in Hfirst |- *.
    unfold MCPServer.initialize in Hfirst |- *.
    destruct (MCPServer.initialized s) eqn:Hi.
    { cbn in Hfirst. injection Hfirst as <-. discriminate. }
    destruct (nullish (get_prop request1 "params")).
    { cbn in Hfirst. injection Hfirst as <-. discriminate. }
    destruct (negb _).
    { cbn in Hfirst. injection Hfirst as <-. discriminate. }
    cbn [snd]. split; [reflexivity|].
    rewrite (StdioFacts.handleRequest_initialize NumberToString StringToNumber
               JSON_stringify now _ request2 Hr2).
    rewrite StdioFacts.initialize_again by reflexivity.
    eexists. reflexivity.
Qed.

Lemma reinitialize_witness :
  (let srv1 :=
     snd (McpHandler.handleRequest Sample.express
            (JsonRpc.as_request
               (Sample.request (VNum 1) "initialize"
                  (Sample.initialize_params "2024-11-05")))) in
   fst (McpHandler.handleRequest srv1
          (JsonRpc.as_request
             (Sample.request (VNum 2) "initialize"
                (Sample.initialize_params "2024-11-05"))))
   = inr (Some {| JsonRpc.res_id := VNum 2;
                  JsonRpc.res_result := Some (VObj [
                    ("protocolVersion", VStr "2024-11-05");
                    ("capabilities",
                     McpHandler.capabilities (McpHandler.data Sample.express));
                    ("serverInfo",
                     McpHandler.serverInfo (McpHandler.data Sample.express))]);
                  JsonRpc.res_error := None |})
   /\ McpHandler.isInitialized
        (snd (McpHandler.handleRequest srv1
                (JsonRpc.as_request
                   (Sample.request (VNum 2) "initialize"
                      (Sample.initialize_params "2024-11-05"))))) = true)
  /\ (let s1 :=
        snd (Sample.stdio StdioTransport.new_StdioTransport
               (Sample.request (VNum 1) "initialize"
                  (Sample.initialize_params "2024-11-05"))) in
      MCPServer.initialized s1 = true
      /\ exists error,
           Sample.stdio s1
             (Sample.request (VNum 2) "initialize"
                (Sample.initialize_params "2024-11-05"))
           = (inr {| MCPServer.id := VNum 2;
                     MCPServer.result_of := None;
                     MCPServer.error_of := Some error |}, s1)).
Proof.
  apply (reinitialize Sample.express
           (JsonRpc.as_request
              (Sample.request (VNum 1) "initialize"
                 (Sample.initialize_params "2024-11-05")))
           (JsonRpc.as_request
              (Sample.request (VNum 2) "initialize"
                 (Sample.initialize_params "2024-11-05")))
           Sample.NumberToString Sample.StringToNumber Sample.JSON_stringify
           Sample.now StdioTransport.new_StdioTransport
           (Sample.request (VNum 1) "initialize"
              (Sample.initialize_params "2024-11-05"))
           (Sample.request (VNum 2) "initialize"
              (Sample.initialize_params "2024-11-05"))
           {| MCPServer.id := VNum 1;
              MCPServer.result_of :=
                Some (MCPServer.InitializeResult "2024-11-05"
                        (MCPServer.capabilities StdioTransport.new_StdioTransport)
                        (MCPServer.serverInfo StdioTransport.new_StdioTransport));
              MCPServer.error_of := None |}
           (MCPServer.InitializeResult "2024-11-05"
              (MCPServer.capabilities StdioTransport.new_StdioTransport)
              (MCPServer.serverInfo StdioTransport.new_StdioTransport)));
    reflexivity.
Defined.

(** *** Protocol version *)

(** Claim C4 fails on the Express server: an [initialize] that names a
    version the server does not speak is answered with a result. *)
Lemma express_initialize_any_version :
  fst (McpHandler.handleRequest Sample.express
         (JsonRpc.as_request
            (Sample.request (VNum 1) "initialize"
               (Sample.initialize_params "1999-01-01"))))
  = inr (Some {| JsonRpc.res_id := VNum 1;
                 JsonRpc.res_result := Some (VObj [
                   ("protocolVersion", VStr "2024-11-05");
                   ("capabilities",
                    McpHandler.capabilities (McpHandler.data Sample.express));
                   ("serverInfo",
                    McpHandler.serverInfo (McpHandler.data Sample.express))]);
                 JsonRpc.res_error := None |}).
Proof. reflexivity. Qed.

(** Claim C4, amended: the Express handler checks no version: while the
    level of the logger converts to a property key, every [initialize]
    request is answered with the result [{protocolVersion: '2024-11-05',
    capabilities, serverInfo}]; [MCPServer.initialize] of the stdio
    server, on a session not yet initialized, throws an error object with
    code -32602 for a [protocolVersion] other than ['2024-11-05'] that
    converts to a string, and leaves the session uninitialized, and for
    ['2024-11-05'] returns [{protocolVersion, capabilities, serverInfo}]
    and marks the session initialized. *)
Theorem initialize_version_check
  (srv : McpHandler.McpServer) (request : JsonRpc.JsonRpcRequest)
  (NumberToString : float -> string) (s : MCPServer.state)
  (unsupported supported : value) :
  McpHandler.logs (McpHandler.data srv) = true ->
  map_get "initialize" (McpHandler.methodHandlers srv)
  = Some McpHandler.handleInitialize ->
  JsonRpc.req_method request = "initialize" ->
  JsonRpc.isNotification request = false ->
  MCPServer.initialized s = false ->
  nullish unsupported = false ->
  is_str (get_prop unsupported "protocolVersion") "2024-11-05" = false ->
  convertible (get_prop unsupported "protocolVersion") = true ->
  get_prop supported "protocolVersion" = VStr "2024-11-05" ->
  fst (McpHandler.handleRequest srv request)
  = inr (Some {| JsonRpc.res_id := JsonRpc.req_id request;
                 JsonRpc.res_result := Some (VObj [
                   ("protocolVersion", VStr "2024-11-05");
                   ("capabilities",
                    McpHandler.capabilities (McpHandler.data srv));
                   ("serverInfo",
                    McpHandler.serverInfo (McpHandler.data srv))]);
                 JsonRpc.res_error := None |})
  /\ (exists error,
        MCPServer.initialize NumberToString s unsupported
        = (inl (MCPServer.ThrownValue error), s)
        /\ get_prop error "code" = VNum (-32602)%float)
  /\ MCPServer.initialize NumberToString s supported
     = (inr (MCPServer.InitializeResult "2024-11-05"
               (MCPServer.capabilities s) (MCPServer.serverInfo s)),
        MCPServer.set_initialized s true).
Proof.
  intros Hl Hh Hm Hn Hi Hnn Hbad Hconv Hgood. split; [|split].
  - rewrite (express_initialize srv request Hl Hh Hm Hn). reflexivity.
  - rewrite (StdioFacts.initialize_unsupported NumberToString s unsupported
               Hi Hnn Hbad).
    destruct (ConversionFacts.ToString_returns NumberToString _ Hconv)
      as [text Htext].
    unfold MCPServer.error_about, MCPServer.str_of. rewrite Htext.
    eexists. split; reflexivity.
  - apply StdioFacts.initialize_supported; assumption.
Qed.

Lemma initialize_version_check_witness :
  fst (McpHandler.handleRequest Sample.express
         (JsonRpc.as_request
            (Sample.request (VNum 1) "initialize"
               (Sample.initialize_params "1999-01-01"))))
  = inr (Some {| JsonRpc.res_id := VNum 1;
                 JsonRpc.res_result := Some (VObj [
                   ("protocolVersion", VStr "2024-11-05");
                   ("capabilities",
                    McpHandler.capabilities (McpHandler.data Sample.express));
                   ("serverInfo",
                    McpHandler.serverInfo (McpHandler.data Sample.express))]);
                 JsonRpc.res_error := None |})
  /\ (exists error,
        MCPServer.initialize Sample.NumberToString
          StdioTransport.new_StdioTransport
          (Sample.initialize_params "1999-01-01")
        = (inl (MCPServer.ThrownValue error), StdioTransport.new_StdioTransport)
        /\ get_prop error "code" = VNum (-32602)%float)
  /\ MCPServer.initialize Sample.NumberToString
       StdioTransport.new_StdioTransport
       (Sample.initialize_params "2024-11-05")
     = (inr (MCPServer.InitializeResult "2024-11-05"
               (MCPServer.capabilities StdioTransport.new_StdioTransport)
               (MCPServer.serverInfo StdioTransport.new_StdioTransport)),
        MCPServer.set_initialized StdioTransport.new_StdioTransport true).
Proof.
  apply (initialize_version_check Sample.express
           (JsonRpc.as_request
              (Sample.request (VNum 1) "initialize"
                 (Sample.initialize_params "1999-01-01")))
           Sample.NumberToString StdioTransport.new_StdioTransport
           (Sample.initialize_params "1999-01-01")
           (Sample.initialize_params "2024-11-05"));
    reflexivity.
Defined.

(** *** Reading an unknown resource *)

(** What [resources/read] answers on the Express server for a [uri] that
    is neither of the two it serves. *)
Lemma express_read_unknown (srv : McpHandler.McpServer)
  (request : JsonRpc.JsonRpcRequest) (NumberToString : float -> string)
  (JSON_stringify : value -> string) (now : string) (text : string) :
  McpHandler.logs (McpHandler.data srv) = true ->
  McpHandler.str_of NumberToString
    (get_prop (JsonRpc.req_params request) "uri") = Some text ->
  map_get "resources/read" (McpHandler.methodHandlers srv)
  = Some (McpHandler.handleReadResource NumberToString JSON_stringify now) ->
  JsonRpc.req_method request = "resources/read" ->
  JsonRpc.isNotification request = false ->
  nullish (JsonRpc.req_params request) = false ->
  is_str (get_prop (JsonRpc.req_params request) "uri") "file:///example.txt"
  = false ->
  is_str (get_prop (JsonRpc.req_params request) "uri")
    "http://example.com/api/data" = false ->
  McpHandler.handleRequest srv request
  = (inr (Some {| JsonRpc.res_id := JsonRpc.req_id request;
                  JsonRpc.res_result := None;
                  JsonRpc.res_error :=
                    Some (JsonRpc.createInternalError
                            (VStr ("Resource not found: " ++ text))) |}),
     srv).
Proof.
  intros Hl Htext Hh Hm Hn Hnn H1 H2.
  rewrite <- (ExpressFacts.with_data_same srv) at 2.
  apply (ExpressFacts.handleRequest_threw srv request
           (McpHandler.handleReadResource NumberToString JSON_stringify now)
           (McpHandler.ErrorInstance ("Resource not found: " ++ text)));
    try assumption.
  - rewrite Hm. exact Hh.
  - unfold McpHandler.handleReadResource, McpHandler.error_about.
    rewrite Hl, Hnn, H1, H2, Htext. reflexivity.
Qed.

(** Claim C5 fails on the Express server: the answer to [resources/read]
    with an unknown [uri] carries the code -32603. *)
Lemma express_read_unknown_internal_error :
  exists response,
    fst (McpHandler.handleRequest Sample.express
           (JsonRpc.as_request
              (Sample.request (VNum 5) "resources/read"
                 (VObj [("uri", VStr "file:///missing.txt")]))))
    = inr (Some response)
    /\ JsonRpc.error_code response = VNum (-32603)%float
    /\ JsonRpc.error_code response <> VNum (-32602)%float.
Proof.
  eexists. split; [reflexivity|]. split; [reflexivity|].
  apply VNum_neq; reflexivity.
Qed.

(** Claim C5, amended: for a [resources/read] request whose [uri] is not
    known and converts to a string, the Express server, while the level
    of its logger converts to a property key, answers with an error of
    code -32603 (InternalError) that carries the message [Resource not
    found: uri] as its data; on the stdio server [readResource] throws an
    error object of code -32602, and the response carries an error and no
    result. *)
Theorem read_unknown_resource
  (srv : McpHandler.McpServer) (request : JsonRpc.JsonRpcRequest)
  (NumberToString : float -> string) (StringToNumber : string -> float)
  (JSON_stringify : value -> string) (now : string)
  (s : MCPServer.state) (message : value) (text : string) :
  McpHandler.logs (McpHandler.data srv) = true ->
  McpHandler.str_of NumberToString
    (get_prop (JsonRpc.req_params request) "uri") = Some text ->
  convertible (get_prop (get_prop message "params") "uri") = true ->
  map_get "resources/read" (McpHandler.methodHandlers srv)
  = Some (McpHandler.handleReadResource NumberToString JSON_stringify now) ->
  JsonRpc.req_method request = "resources/read" ->
  JsonRpc.isNotification request = false ->
  nullish (JsonRpc.req_params request) = false ->
  is_str (get_prop (JsonRpc.req_params request) "uri") "file:///example.txt"
  = false ->
  is_str (get_prop (JsonRpc.req_params request) "uri")
    "http://example.com/api/data" = false ->
  get_prop message "method" = VStr "resources/read" ->
  nullish (get_prop message "params") = false ->
  MCPServer.get_by (get_prop (get_prop message "params") "uri")
    (MCPServer.resources s) = None ->
  (exists response,
      McpHandler.handleRequest srv request = (inr (Some response), srv)
      /\ JsonRpc.res_id response = JsonRpc.req_id request
      /\ JsonRpc.res_result response = None
      /\ JsonRpc.error_code response = VNum JsonRpc.McpErrorCode.InternalError
      /\ get_prop (match JsonRpc.res_error response with
                   | Some e => e
                   | None => VUndefined
                   end) "data"
         = VStr ("Resource not found: " ++ text))
  /\ (exists thrown,
         MCPServer.readResource NumberToString s (get_prop message "params")
         = inl (MCPServer.ThrownValue thrown)
         /\ get_prop thrown "code" = VNum (-32602)%float)
  /\ (exists error,
         MCPServer.handleRequest NumberToString StringToNumber JSON_stringify
           now s message
         = (inr {| MCPServer.id := get_prop message "id";
                   MCPServer.result_of := None;
                   MCPServer.error_of := Some error |}, s)).
Proof.
  intros Hl Htext Hconv Hh Hm Hn Hnn H1 H2 Hmm Hpn Hget. split; [|split].
  - rewrite (express_read_unknown srv request NumberToString JSON_stringify
               now text Hl Htext Hh Hm Hn Hnn H1 H2).
    eexists. split; [reflexivity|]. repeat split.
  - rewrite (StdioFacts.readResource_unregistered NumberToString s _ Hpn Hget).
    destruct (ConversionFacts.ToString_returns NumberToString _ Hconv)
      as [found Hfound].
    unfold MCPServer.error_about, MCPServer.str_of. rewrite Hfound.
    eexists. split; reflexivity.
  - rewrite (StdioFacts.handleRequest_resources_read NumberToString
               StringToNumber JSON_stringify now s message Hmm).
    rewrite (StdioFacts.readResource_unregistered NumberToString s _ Hpn Hget).
    eexists. reflexivity.
Qed.

Lemma read_unknown_resource_witness :
  (exists response,
      McpHandler.handleRequest Sample.express
        (JsonRpc.as_request
           (Sample.request (VNum 5) "resources/read"
              (VObj [("uri", VStr "file:///missing.txt")])))
      = (inr (Some response), Sample.express)
      /\ JsonRpc.res_id response = VNum 5
      /\ JsonRpc.res_result response = None
      /\ JsonRpc.error_code response = VNum JsonRpc.McpErrorCode.InternalError
      /\ get_prop (match JsonRpc.res_error response with
                   | Some e => e
                   | None => VUndefined
                   end) "data"
         = VStr "Resource not found: file:///missing.txt")
  /\ (exists thrown,
         MCPServer.readResource Sample.NumberToString
           StdioTransport.new_StdioTransport
           (VObj [("uri", VStr "file:///missing.txt")])
         = inl (MCPServer.ThrownValue thrown)
         /\ get_prop thrown "code" = VNum (-32602)%float)
  /\ (exists error,
         Sample.stdio StdioTransport.new_StdioTransport
           (Sample.request (VNum 5) "resources/read"
              (VObj [("uri", VStr "file:///missing.txt")]))
         = (inr {| MCPServer.id := VNum 5;
                   MCPServer.result_of := None;
                   MCPServer.error_of := Some error |},
            StdioTransport.new_StdioTransport)).
Proof.
  apply (read_unknown_resource Sample.express
           (JsonRpc.as_request
              (Sample.request (VNum 5) "resources/read"
                 (VObj [("uri", VStr "file:///missing.txt")])))
           Sample.NumberToString Sample.StringToNumber Sample.JSON_stringify
           Sample.now StdioTransport.new_StdioTransport
           (Sample.request (VNum 5) "resources/read"
              (VObj [("uri", VStr "file:///missing.txt")]))
           "file:///missing.txt");
    reflexivity.
Defined.

(** *** A rejected expression *)

(** Claim C6, on the code: once [logging/setLevel] has stored a level
    that does not convert, no request reaches its handler.  The first
    [logger.debug] of the dispatcher throws, the promise is rejected, and
    the endpoint answers every Request, a [tools/call] of [calculate]
    with an expression the evaluator rejects among them, with a
    protocol-level error: the InvalidRequest envelope of its [catch],
    under the identifier of the request or [null] when that is falsy. *)
Theorem calculate_rejected_through_logger
  (NumberToString : float -> string)
  (srv : McpHandler.McpServer) (spoiling : JsonRpc.JsonRpcRequest)
  (obj : value) :
  map_get "logging/setLevel" (McpHandler.methodHandlers srv)
  = Some (McpHandler.handleSetLevel NumberToString) ->
  McpHandler.logs (McpHandler.data srv) = true ->
  Sessions.spoils spoiling = true ->
  ExpressServer.isRequestMember obj = true ->
  has_prop obj "code" = false ->
  fst (McpHandler.handleRequest
         (snd (McpHandler.handleRequest srv spoiling))
         (JsonRpc.as_request obj))
  = inl McpHandler.conversion_error
  /\ ExpressServer.handleMcpRequest
       (snd (McpHandler.handleRequest srv spoiling)) obj
     = ({| ExpressServer.status := 200;
           ExpressServer.body := ExpressServer.JsonResponse
             {| JsonRpc.res_id := or_else (get_prop obj "id") VNull;
                JsonRpc.res_result := None;
                JsonRpc.res_error :=
                  Some (JsonRpc.createJsonRpcError
                          JsonRpc.McpErrorCode.InvalidRequest
                          "Invalid Request" (VStr cannot_convert)) |} |},
        snd (McpHandler.handleRequest srv spoiling)).
Proof.
  intros Hh Hl Hs Hobj Hc. unfold ExpressServer.isRequestMember in Hobj.
  apply andb_true_iff in Hobj. destruct Hobj as [Hv _].
  destruct (setLevel_spoils NumberToString srv _ Hh Hl Hs) as [_ Hbad].
  split.
  - rewrite (ExpressFacts.handleRequest_rejects _ _ Hbad). reflexivity.
  - exact (HttpFacts.single_member_rejected _ obj (conj Hv Hc) Hbad).
Qed.

Lemma calculate_rejected_through_logger_witness :
  fst (McpHandler.handleRequest
         (snd (McpHandler.handleRequest Sample.express
                 (JsonRpc.as_request Sample.setLevel_notification)))
         (JsonRpc.as_request Sample.calculate_request))
  = inl McpHandler.conversion_error
  /\ ExpressServer.handleMcpRequest
       (snd (McpHandler.handleRequest Sample.express
               (JsonRpc.as_request Sample.setLevel_notification)))
       Sample.calculate_request
     = ({| ExpressServer.status := 200;
           ExpressServer.body := ExpressServer.JsonResponse
             {| JsonRpc.res_id := VNum 1;
                JsonRpc.res_result := None;
                JsonRpc.res_error :=
                  Some (JsonRpc.createJsonRpcError
                          JsonRpc.McpErrorCode.InvalidRequest
                          "Invalid Request" (VStr cannot_convert)) |} |},
        snd (McpHandler.handleRequest Sample.express
               (JsonRpc.as_request Sample.setLevel_notification))).
Proof.
  apply (calculate_rejected_through_logger Sample.NumberToString
           Sample.express (JsonRpc.as_request Sample.setLevel_notification)
           Sample.calculate_request);
    reflexivity.
Defined.

(** While the level of the logger converts to a property key, when the
    evaluator rejects the expression of a [tools/call] of [calculate],
    the dispatcher answers the request with a result, not an error: the
    result has [isError] true and one text block that holds the
    diagnostic. *)
Theorem calculate_rejected_is_tool_error
  (NumberToString : float -> string)
  (run_Function : string -> McpHandler.thrown + value)
  (srv : McpHandler.McpServer) (request : JsonRpc.JsonRpcRequest)
  (error : McpHandler.thrown) :
  McpHandler.logs (McpHandler.data srv) = true ->
  map_get "tools/call" (McpHandler.methodHandlers srv)
  = Some (McpHandler.handleCallTool NumberToString run_Function) ->
  JsonRpc.req_method request = "tools/call" ->
  JsonRpc.isNotification request = false ->
  get_prop (JsonRpc.req_params request) "name" = VStr "calculate" ->
  McpHandler.evaluateExpression run_Function
    (or_else (opt_prop (get_prop (JsonRpc.req_params request) "arguments")
                "expression") (VStr ""))
  = inl error ->
  McpHandler.handleRequest srv request
  = (inr (Some {| JsonRpc.res_id := JsonRpc.req_id request;
                  JsonRpc.res_result := Some (VObj [
                    ("content", VArr [
                       VObj [("type", VStr "text");
                             ("text", VStr ("Error: "
                                ++ McpHandler.message_or "Invalid expression"
                                     error))]]);
                    ("isError", VBool true)]);
                  JsonRpc.res_error := None |}),
     srv).
Proof.
  intros Hl Hh Hm Hn Hname Hev.
  rewrite <- (ExpressFacts.with_data_same srv) at 2.
  apply (ExpressFacts.handleRequest_returned srv request
           (McpHandler.handleCallTool NumberToString run_Function));
    try assumption.
  - rewrite Hm. exact Hh.
  - apply ExpressFacts.handleCallTool_calculate_rejected; assumption.
Qed.

Lemma calculate_rejected_is_tool_error_witness :
  McpHandler.handleRequest Sample.express
    (JsonRpc.as_request
       (Sample.request (VNum 6) "tools/call"
          (VObj [("name", VStr "calculate");
                 ("arguments", VObj [("expression", VStr "2 + x")])])))
  = (inr (Some {| JsonRpc.res_id := VNum 6;
                  JsonRpc.res_result := Some (VObj [
                    ("content", VArr [
                       VObj [("type", VStr "text");
                             ("text",
                              VStr "Error: Invalid characters in expression")]]);
                    ("isError", VBool true)]);
                  JsonRpc.res_error := None |}),
     Sample.express).
Proof.
  apply (calculate_rejected_is_tool_error Sample.NumberToString
           Sample.run_Function Sample.express
           (JsonRpc.as_request
              (Sample.request (VNum 6) "tools/call"
                 (VObj [("name", VStr "calculate");
                        ("arguments", VObj [("expression", VStr "2 + x")])])))
           (McpHandler.ErrorInstance "Invalid characters in expression"));
    reflexivity.
Defined.

(** *** A body that does not parse *)

(** Claim C7, on the code: a POST to [/mcp] whose payload the body parser
    rejects never reaches [handleMcpRequest]; the parser passes its error
    on, the error middleware answers with status 500 and the body
    [{error: 'Internal Server Error', message}], not with status 400 and
    a ParseError envelope. *)
Theorem malformed_body_is_answered_500
  (now : string) (NODE_ENV : value) (express_json : string -> string + value)
  (unparsed_body : value) (srv : McpHandler.McpServer)
  (text message : string) :
  express_json text = inl message ->
  ExpressServer.app now NODE_ENV express_json unparsed_body srv
    {| ExpressServer.verb := "POST"; ExpressServer.path := "/mcp";
       ExpressServer.payload := Some text |}
  = ({| ExpressServer.status := 500;
        ExpressServer.body := ExpressServer.JsonValue (VObj [
          ("error", VStr "Internal Server Error");
          ("message",
           VStr (if is_str NODE_ENV "development" then message
                 else "An unexpected error occurred"))]) |},
     srv).
Proof.
  intros Hparse. unfold ExpressServer.app. cbn. rewrite Hparse. reflexivity.
Qed.

Lemma malformed_body_is_answered_500_witness :
  ExpressServer.app Sample.now VUndefined Sample.reject_all (VObj [])
    Sample.express
    {| ExpressServer.verb := "POST"; ExpressServer.path := "/mcp";
       ExpressServer.payload := Some "{ invalid json" |}
  = ({| ExpressServer.status := 500;
        ExpressServer.body := ExpressServer.JsonValue (VObj [
          ("error", VStr "Internal Server Error");
          ("message", VStr "An unexpected error occurred")]) |},
     Sample.express).
Proof.
  apply (malformed_body_is_answered_500 Sample.now VUndefined
           Sample.reject_all (VObj []) Sample.express "{ invalid json"
           "Unexpected end of JSON input").
  reflexivity.
Defined.

(** *** Batches *)

(** Claim C8, on the code: a valid Notification that has a member named
    [code] is taken for a validation error, since the loop tells the two
    apart by ['code' in validationResult].  Alone in a batch it yields an
    array with one entry, and sent as a single message it is answered
    with status 200 and a body, not with 204: an envelope with [id] null
    whose [error] is the message itself. *)
Theorem notification_with_code_member_is_answered
  (srv : McpHandler.McpServer) (obj : value) :
  ExpressServer.isNotificationMember obj = true ->
  has_prop obj "code" = true ->
  ExpressServer.handleMcpRequest srv (VArr [obj])
  = ({| ExpressServer.status := 200;
        ExpressServer.body := ExpressServer.JsonResponses [
          {| JsonRpc.res_id := VNull; JsonRpc.res_result := None;
             JsonRpc.res_error := Some obj |}] |}, srv)
  /\ ExpressServer.handleMcpRequest srv obj
     = ({| ExpressServer.status := 200;
           ExpressServer.body := ExpressServer.JsonResponse
             {| JsonRpc.res_id := VNull; JsonRpc.res_result := None;
                JsonRpc.res_error := Some obj |} |}, srv).
Proof.
  unfold ExpressServer.isNotificationMember. intros Hm Hc.
  apply andb_true_iff in Hm. destruct Hm as [Hv Hn].
  destruct (HttpFacts.valid_is_object obj Hv) as [props ->].
  assert (Hid : get_prop (VObj props) "id" = VUndefined).
  { unfold JsonRpc.isNotification, JsonRpc.as_request in Hn. cbn [JsonRpc.req_id] in Hn.
    destruct (get_prop (VObj props) "id"); try discriminate. reflexivity. }
  unfold ExpressServer.handleMcpRequest. cbn [isArray fold_left].
  rewrite (HttpFacts.processRequest_code_member [] srv (VObj props) Hv Hc).
  rewrite Hid. split; reflexivity.
Qed.

Lemma notification_with_code_member_is_answered_witness :
  ExpressServer.handleMcpRequest Sample.express
    (VArr [VObj [("jsonrpc", VStr "2.0");
                 ("method", VStr "initialized");
                 ("code", VNum 1)]])
  = ({| ExpressServer.status := 200;
        ExpressServer.body := ExpressServer.JsonResponses [
          {| JsonRpc.res_id := VNull; JsonRpc.res_result := None;
             JsonRpc.res_error :=
               Some (VObj [("jsonrpc", VStr "2.0");
                           ("method", VStr "initialized");
                           ("code", VNum 1)]) |}] |}, Sample.express)
  /\ ExpressServer.handleMcpRequest Sample.express
       (VObj [("jsonrpc", VStr "2.0");
              ("method", VStr "initialized");
              ("code", VNum 1)])
     = ({| ExpressServer.status := 200;
           ExpressServer.body := ExpressServer.JsonResponse
             {| JsonRpc.res_id := VNull; JsonRpc.res_result := None;
                JsonRpc.res_error :=
                  Some (VObj [("jsonrpc", VStr "2.0");
                              ("method", VStr "initialized");
                              ("code", VNum 1)]) |} |}, Sample.express).
Proof.
  apply (notification_with_code_member_is_answered Sample.express
           (VObj [("jsonrpc", VStr "2.0");
                  ("method", VStr "initialized");
                  ("code", VNum 1)]));
    reflexivity.
Defined.

(** *** Registering and listing tools *)

(** Claim C9: on a server reached by any calls, once a tool is registered
    [tools/list] answers with a list that holds the descriptor as it was
    given, exactly once under its name, and no two listed tools share a
    name; a tool registered earlier under the same name is replaced. *)
Theorem registered_tool_is_listed_once
  (NumberToString : float -> string) (StringToNumber : string -> float)
  (JSON_stringify : value -> string) (now : string)
  (calls : list History.call) (tool : Tool.t) (request : value) :
  get_prop request "method" = VStr "tools/list" ->
  exists listed,
    MCPServer.handleRequest NumberToString StringToNumber JSON_stringify now
      (History.after NumberToString StringToNumber JSON_stringify now
         (calls ++ [History.RegisterTool tool]))
      request
    = (inr {| MCPServer.id := get_prop request "id";
              MCPServer.result_of := Some (MCPServer.ListToolsResult listed);
              MCPServer.error_of := None |},
       History.after NumberToString StringToNumber JSON_stringify now
         (calls ++ [History.RegisterTool tool]))
    /\ In tool listed
    /\ History.count_name (Tool.name tool) listed = 1
    /\ NoDup (map Tool.name listed)
    /\ (forall other,
           In other listed -> Tool.name other = Tool.name tool -> other = tool).
Proof.
  intros Hm.
  rewrite (StdioFacts.handleRequest_tools_list NumberToString StringToNumber
             JSON_stringify now _ request Hm).
  eexists. split; [reflexivity|].
  pose proof (StdioFacts.after_registry_ok NumberToString StringToNumber
                JSON_stringify now (calls ++ [History.RegisterTool tool]))
    as Hok.
  assert (Hnd : NoDup (map Tool.name
                         (map_values
                            (MCPServer.tools
                               (History.after NumberToString StringToNumber
                                  JSON_stringify now
                                  (calls ++ [History.RegisterTool tool])))))).
  { rewrite (StdioFacts.registry_names _ Hok). exact (proj1 Hok). }
  assert (Hin : In tool
                  (map_values
                     (MCPServer.tools
                        (History.after NumberToString StringToNumber
                           JSON_stringify now
                           (calls ++ [History.RegisterTool tool]))))).
  { rewrite StdioFacts.after_snoc. cbn [History.step MCPServer.registerTool
                                         MCPServer.tools].
    unfold map_values.
    change tool with (snd (Tool.name tool, tool)) at 1.
    apply in_map. apply MapFacts.map_set_In. }
  split; [exact Hin|]. split; [|split; [exact Hnd|]].
  - apply StdioFacts.count_name_once; assumption.
  - intros other Hother Hname.
    exact (StdioFacts.unique_by_name tool other _ Hnd Hin Hother Hname).
Qed.

Lemma registered_tool_is_listed_once_witness :
  exists listed,
    Sample.stdio
      (History.after Sample.NumberToString Sample.StringToNumber
         Sample.JSON_stringify Sample.now
         ([History.RegisterTool
             {| Tool.name := "echo"; Tool.description := Some "first";
                Tool.inputSchema := VObj [("type", VStr "object")] |}]
          ++ [History.RegisterTool
                {| Tool.name := "echo"; Tool.description := Some "second";
                   Tool.inputSchema := VObj [] |}]))
      (Sample.request (VNum 2) "tools/list" VUndefined)
    = (inr {| MCPServer.id := VNum 2;
              MCPServer.result_of := Some (MCPServer.ListToolsResult listed);
              MCPServer.error_of := None |},
       History.after Sample.NumberToString Sample.StringToNumber
         Sample.JSON_stringify Sample.now
         ([History.RegisterTool
             {| Tool.name := "echo"; Tool.description := Some "first";
                Tool.inputSchema := VObj [("type", VStr "object")] |}]
          ++ [History.RegisterTool
                {| Tool.name := "echo"; Tool.description := Some "second";
                   Tool.inputSchema := VObj [] |}]))
    /\ In {| Tool.name := "echo"; Tool.description := Some "second";
             Tool.inputSchema := VObj [] |} listed
    /\ History.count_name "echo" listed = 1
    /\ NoDup (map Tool.name listed)
    /\ (forall other,
           In other listed -> Tool.name other = "echo" ->
           other = {| Tool.name := "echo"; Tool.description := Some "second";
                      Tool.inputSchema := VObj [] |}).
Proof.
  apply (registered_tool_is_listed_once Sample.NumberToString
           Sample.StringToNumber Sample.JSON_stringify Sample.now
           [History.RegisterTool
              {| Tool.name := "echo"; Tool.description := Some "first";
                 Tool.inputSchema := VObj [("type", VStr "object")] |}]
           {| Tool.name := "echo"; Tool.description := Some "second";
              Tool.inputSchema := VObj [] |}
           (Sample.request (VNum 2) "tools/list" VUndefined)).
  reflexivity.
Defined.

(** *** Division by zero *)

(** Claim C10: a [tools/call] of the stdio server's [calculate] with
    operation [divide] and numbers [a] and [b], [b] equal to zero, is
    answered with a result whose only text is [Error: Division by zero];
    the answer carries no error and depends on no quotient. *)
Theorem divide_by_zero_is_guarded
  (NumberToString : float -> string) (StringToNumber : string -> float)
  (JSON_stringify : value -> string) (now : string)
  (s : MCPServer.state) (request : value) (tool : Tool.t) (a b : float) :
  get_prop request "method" = VStr "tools/call" ->
  get_prop (get_prop request "params") "name" = VStr "calculate" ->
  map_get "calculate" (MCPServer.tools s) = Some tool ->
  get_prop (get_prop (get_prop request "params") "arguments") "operation"
  = VStr "divide" ->
  get_prop (get_prop (get_prop request "params") "arguments") "a" = VNum a ->
  get_prop (get_prop (get_prop request "params") "arguments") "b" = VNum b ->
  (b =? 0)%float = true ->
  MCPServer.handleRequest NumberToString StringToNumber JSON_stringify now
    s request
  = (inr {| MCPServer.id := get_prop request "id";
            MCPServer.result_of :=
              Some (MCPServer.CallToolResult
                      {| MCPServer.content :=
                           [MCPServer.TextContent "Error: Division by zero"];
                         MCPServer.isError := None |});
            MCPServer.error_of := None |},
     s).
Proof.
  intros Hm Hname Htool Hop Ha Hb Hz.
  rewrite (StdioFacts.handleRequest_tools_call NumberToString StringToNumber
             JSON_stringify now s request Hm).
  unfold MCPServer.callTool.
  assert (Hnn : nullish (get_prop request "params") = false).
  { destruct (get_prop request "params"); simpl in *; try discriminate;
      reflexivity. }
  rewrite Hnn, Hname. cbn [MCPServer.get_by]. rewrite Htool.
  assert (Hargs : or_else (get_prop (get_prop request "params") "arguments")
                    (VObj [])
                  = get_prop (get_prop request "params") "arguments").
  { destruct (get_prop (get_prop request "params") "arguments");
      simpl in Hop; try discriminate. reflexivity. }
  rewrite Hargs.
  rewrite (StdioFacts.executeTool_divide_by_zero NumberToString StringToNumber
             JSON_stringify now _ a b Hop Ha Hb Hz).
  reflexivity.
Qed.

Lemma divide_by_zero_is_guarded_witness :
  Sample.stdio StdioTransport.new_StdioTransport
    (Sample.request (VNum 3) "tools/call"
       (VObj [("name", VStr "calculate");
              ("arguments", VObj [("operation", VStr "divide");
                                  ("a", VNum 8); ("b", VNum 0)])]))
  = (inr {| MCPServer.id := VNum 3;
            MCPServer.result_of :=
              Some (MCPServer.CallToolResult
                      {| MCPServer.content :=
                           [MCPServer.TextContent "Error: Division by zero"];
                         MCPServer.isError := None |});
            MCPServer.error_of := None |},
     StdioTransport.new_StdioTransport).
Proof.
  apply (divide_by_zero_is_guarded Sample.NumberToString Sample.StringToNumber
           Sample.JSON_stringify Sample.now StdioTransport.new_StdioTransport
           (Sample.request (VNum 3) "tools/call"
              (VObj [("name", VStr "calculate");
                     ("arguments", VObj [("operation", VStr "divide");
                                         ("a", VNum 8); ("b", VNum 0)])]))
           {| Tool.name := "calculate";
              Tool.description := Some "Perform basic mathematical operations";
              Tool.inputSchema := VObj [
                ("type", VStr "object");
                ("properties", VObj [
                   ("operation", VObj [
                      ("type", VStr "string");
                      ("enum", VArr [VStr "add"; VStr "subtract";
                                     VStr "multiply"; VStr "divide"]);
                      ("description",
                       VStr "The mathematical operation to perform")]);
                   ("a", VObj [("type", VStr "number");
                               ("description", VStr "First operand")]);
                   ("b", VObj [("type", VStr "number");
                               ("description", VStr "Second operand")])]);
                ("required", VArr [VStr "operation"; VStr "a"; VStr "b"])] |}
           8%float 0%float);
    reflexivity.
Defined.

End Spec.

(** ** More on the dispatcher of the Express server *)

Module DispatcherFacts.
Import Js JsonRpc McpHandler Sessions.

Lemma map_get_set_other {V : Type} (k k' : string) (v : V) (m : Map V) :
  k' <> k -> map_get k' (map_set k v m) = map_get k' m.
Proof.
  intros Hneq. induction m as [|[k0 v0] m IH]; simpl.
  - destruct (String.eqb_spec k k'); [congruence | reflexivity].
  - destruct (String.eqb_spec k0 k) as [->|Hk]; simpl.
    + destruct (String.eqb_spec k k'); [congruence | reflexivity].
    + destruct (k0 =? k'); [reflexivity | exact IH].
Qed.

(** The server after a dispatch: only the fields the handler returns,
    and nothing when the handler is not reached. *)
Lemma handleRequest_state (srv : McpServer) (request : JsonRpcRequest) :
  snd (handleRequest srv request)
  = if logs (data srv)
    then match map_get (req_method request) (methodHandlers srv) with
         | Some handler =>
             with_data srv (snd (handler (data srv) (req_params request)))
         | None => srv
         end
    else srv.
Proof.
  unfold handleRequest. destruct (logs (data srv)); [|reflexivity].
  cbn [negb].
  destruct (map_get (req_method request) (methodHandlers srv)) as [handler|].
  - destruct (handler (data srv) (req_params request)) as [[error|result] d];
      destruct (negb (isNotification request)); destruct (logs d);
      reflexivity.
  - destruct (negb (isNotification request)); reflexivity.
Qed.

(** Every response echoes the identifier of its request and holds either
    a result or an error, never both and never neither; a request
    without identifier has no response. *)
Theorem response_shape (srv : McpServer) (request : JsonRpcRequest)
  (response : JsonRpcResponse) :
  fst (handleRequest srv request) = inr (Some response) ->
  isNotification request = false
  /\ res_id response = req_id request
  /\ ((res_result response = None /\ exists e, res_error response = Some e)
      \/ (res_error response = None
          /\ exists r, res_result response = Some r)).
Proof.
  unfold handleRequest. destruct (logs (data srv)); [|discriminate].
  cbn [negb].
  destruct (isNotification request) eqn:Hn; simpl negb; cbv iota.
  - destruct (map_get (req_method request) (methodHandlers srv)) as [handler|];
      [|discriminate].
    destruct (handler (data srv) (req_params request)) as [[error|result] d];
      destruct (logs d); discriminate.
  - destruct (map_get (req_method request) (methodHandlers srv)) as [handler|].
    + destruct (handler (data srv) (req_params request)) as [[error|result] d];
        destruct (logs d); cbn [fst negb]; try discriminate;
        intros H; injection H as <-; repeat split.
      * left. split; [reflexivity | eexists; reflexivity].
      * right. split; [reflexivity | eexists; reflexivity].
    + cbn [fst]. intros H; injection H as <-. repeat split.
      left. split; [reflexivity | eexists; reflexivity].
Qed.

Lemma response_shape_witness :
  isNotification (as_request (Sample.request (VNum 9) "nope" VUndefined))
  = false
  /\ res_id {| res_id := VNum 9; res_result := None;
               res_error := Some (createMethodNotFoundError "nope") |}
     = req_id (as_request (Sample.request (VNum 9) "nope" VUndefined))
  /\ ((res_result {| res_id := VNum 9; res_result := None;
                     res_error := Some (createMethodNotFoundError "nope") |}
       = None
       /\ exists e,
            res_error {| res_id := VNum 9; res_result := None;
                         res_error := Some (createMethodNotFoundError "nope") |}
            = Some e)
      \/ (res_error {| res_id := VNum 9; res_result := None;
                       res_error := Some (createMethodNotFoundError "nope") |}
          = None
          /\ exists r,
               res_result {| res_id := VNum 9; res_result := None;
                             res_error :=
                               Some (createMethodNotFoundError "nope") |}
               = Some r)).
Proof.
  apply (response_shape Sample.express
           (as_request (Sample.request (VNum 9) "nope" VUndefined))
           {| res_id := VNum 9; res_result := None;
              res_error := Some (createMethodNotFoundError "nope") |}).
  reflexivity.
Defined.

(** Registering a handler under a method makes the dispatcher call it for
    that method, whatever was registered before, and changes the answer
    to no other method.  The registration returns and the request is
    answered while the level of the logger converts to a property key,
    before the calls and after the handler. *)
Theorem registerMethod_overrides (srv : McpServer) (method : string)
  (handler : MethodHandler) (request other : JsonRpcRequest) :
  req_method request = method ->
  isNotification request = false ->
  (req_method other =? method) = false ->
  logs (data srv) = true ->
  logs (snd (handler (data srv) (req_params request))) = true ->
  fst (registerMethod method handler srv) = inr tt
  /\ fst (handleRequest (snd (registerMethod method handler srv)) request)
     = inr (Some (match fst (handler (data srv) (req_params request)) with
                  | inr result =>
                      {| res_id := req_id request; res_result := Some result;
                         res_error := None |}
                  | inl error =>
                      {| res_id := req_id request; res_result := None;
                         res_error :=
                           Some (createInternalError
                                   (VStr (message_or "Unknown error"
                                            error))) |}
                  end))
  /\ fst (handleRequest (snd (registerMethod method handler srv)) other)
     = fst (handleRequest srv other).
Proof.
  intros Hm Hn Hother Hl Hl'. apply String.eqb_neq in Hother.
  unfold registerMethod. rewrite Hl. cbn [fst snd]. split; [reflexivity|].
  split.
  - unfold handleRequest. cbn [methodHandlers data].
    rewrite Hl, Hm, MapFacts.map_get_set_same, Hn. cbn [negb].
    destruct (handler (data srv) (req_params request)) as [[error|result] d];
      cbn [snd] in Hl'; rewrite Hl'; reflexivity.
  - unfold handleRequest. cbn [methodHandlers data].
    rewrite (map_get_set_other method (req_method other) handler _ Hother).
    destruct (negb (logs (data srv))); [reflexivity|].
    destruct (map_get (req_method other) (methodHandlers srv)) as [h|].
    + destruct (h (data srv) (req_params other)) as [[error|result] d];
        destruct (negb (isNotification other)); destruct (logs d);
        reflexivity.
    + destruct (negb (isNotification other)); reflexivity.
Qed.

Lemma registerMethod_overrides_witness :
  fst (registerMethod "tools/list" handleInitialized Sample.express) = inr tt
  /\ fst (handleRequest
            (snd (registerMethod "tools/list" handleInitialized
                    Sample.express))
            (as_request (Sample.request (VNum 1) "tools/list" VUndefined)))
     = inr (Some (match fst (handleInitialized (data Sample.express)
                               VUndefined) with
                  | inr result =>
                      {| res_id := VNum 1; res_result := Some result;
                         res_error := None |}
                  | inl error =>
                      {| res_id := VNum 1; res_result := None;
                         res_error :=
                           Some (createInternalError
                                   (VStr (message_or "Unknown error"
                                            error))) |}
                  end))
  /\ fst (handleRequest
            (snd (registerMethod "tools/list" handleInitialized
                    Sample.express))
            (as_request (Sample.request (VNum 2) "prompts/list" VUndefined)))
     = fst (handleRequest Sample.express
              (as_request (Sample.request (VNum 2) "prompts/list" VUndefined))).
Proof.
  apply (registerMethod_overrides Sample.express "tools/list"
           handleInitialized
           (as_request (Sample.request (VNum 1) "tools/list" VUndefined))
           (as_request (Sample.request (VNum 2) "prompts/list" VUndefined)));
    reflexivity.
Defined.

(** *** The default handlers *)

Lemma default_handlers_table (NumberToString : float -> string)
  (JSON_stringify : value -> string) (now : string)
  (run_Function : string -> thrown + value) :
  default_handlers NumberToString JSON_stringify now run_Function
  = [("initialize", handleInitialize);
     ("initialized", handleInitialized);
     ("resources/list", handleListResources);
     ("resources/read", handleReadResource NumberToString JSON_stringify now);
     ("tools/list", handleListTools);
     ("tools/call", handleCallTool NumberToString run_Function);
     ("prompts/list", handleListPrompts);
     ("prompts/get", handleGetPrompt NumberToString);
     ("logging/setLevel", handleSetLevel NumberToString)].
Proof. reflexivity. Qed.

Section Defaults.
Variable NumberToString : float -> string.
Variable JSON_stringify : value -> string.
Variable now : string.
Variable run_Function : string -> thrown + value.

Lemma handleReadResource_keeps (this : McpData) (params : value) :
  snd (handleReadResource NumberToString JSON_stringify now this params) = this.
Proof.
  unfold handleReadResource. destruct (negb (logs this)); [reflexivity|].
  destruct (nullish params); [reflexivity|].
  destruct (is_str _ "file:///example.txt"); [reflexivity|].
  destruct (is_str _ "http://example.com/api/data"); reflexivity.
Qed.

Lemma handleCallTool_keeps (this : McpData) (params : value) :
  snd (handleCallTool NumberToString run_Function this params) = this.
Proof.
  unfold handleCallTool. destruct (negb (logs this)); [reflexivity|].
  destruct (nullish params); [reflexivity|].
  destruct (is_str _ "echo"); [reflexivity|].
  destruct (is_str _ "calculate"); [|reflexivity].
  destruct (evaluateExpression run_Function _); reflexivity.
Qed.

Lemma handleGetPrompt_keeps (this : McpData) (params : value) :
  snd (handleGetPrompt NumberToString this params) = this.
Proof.
  unfold handleGetPrompt. destruct (negb (logs this)); [reflexivity|].
  destruct (nullish params); [reflexivity|].
  destruct (is_str _ "summarize"); [|reflexivity].
  destruct (str_of NumberToString _); [|reflexivity].
  destruct (str_of NumberToString _); reflexivity.
Qed.

Lemma handleListed_keeps (this : McpData) (params : value) :
  snd (handleInitialized this params) = this
  /\ snd (handleListResources this params) = this
  /\ snd (handleListTools this params) = this
  /\ snd (handleListPrompts this params) = this.
Proof.
  unfold handleInitialized, handleListResources, handleListTools,
    handleListPrompts.
  destruct (negb (logs this)); repeat split.
Qed.

(** What [logging/setLevel] leaves behind. *)
Lemma handleSetLevel_state (this : McpData) (params : value) :
  snd (handleSetLevel NumberToString this params)
  = if logs this && negb (nullish params)
    then set_logLevel this (get_prop params "level")
    else this.
Proof.
  unfold handleSetLevel. destruct (logs this); [|reflexivity]. cbn [negb andb].
  destruct (nullish params); [reflexivity|]. cbn [negb].
  destruct (str_of NumberToString _); [|reflexivity].
  destruct (logs _); reflexivity.
Qed.

Lemma handleSetLevel_initialized (this : McpData) (params : value) :
  initialized (snd (handleSetLevel NumberToString this params))
  = initialized this.
Proof.
  rewrite handleSetLevel_state.
  destruct (logs this && negb (nullish params)); reflexivity.
Qed.

Lemma handleInitialize_state (this : McpData) (params : value) :
  snd (handleInitialize this params)
  = if logs this then set_initialized this true else this.
Proof. unfold handleInitialize. destruct (logs this); reflexivity. Qed.

(** On a server with the default handlers, only [initialize] and
    [logging/setLevel] change the server: every other request, known or
    not, answered or faulted, leaves it as it was. *)
Theorem other_methods_are_read_only (srv : McpServer)
  (request : JsonRpcRequest) :
  methodHandlers srv
  = default_handlers NumberToString JSON_stringify now run_Function ->
  (req_method request =? "initialize") = false ->
  (req_method request =? "logging/setLevel") = false ->
  snd (handleRequest srv request) = srv.
Proof.
  intros Htable Hi Hl. rewrite handleRequest_state, Htable.
  destruct (logs (data srv)); [|reflexivity].
  rewrite default_handlers_table. cbn [map_get].
  rewrite String.eqb_sym in Hi. rewrite String.eqb_sym in Hl.
  rewrite Hi, Hl.
  destruct (handleListed_keeps (data srv) (req_params request))
    as (K1 & K2 & K3 & K4).
  repeat match goal with
         | |- context [if ?k =? req_method request then _ else _] =>
             destruct (k =? req_method request)
         end;
    try reflexivity;
    rewrite ?handleReadResource_keeps, ?handleCallTool_keeps,
      ?handleGetPrompt_keeps, ?K1, ?K2, ?K3, ?K4;
    apply ExpressFacts.with_data_same.
Qed.

Lemma logs_set_initialized (this : McpData) (b : bool) :
  logs (set_initialized this b) = logs this.
Proof. reflexivity. Qed.

(** One request that does not spoil the level: the flag, and the level
    still converts. *)
Lemma step_initialized (srv : McpServer) (request : JsonRpcRequest) :
  methodHandlers srv
  = default_handlers NumberToString JSON_stringify now run_Function ->
  logs (data srv) = true ->
  spoils request = false ->
  isInitialized (snd (handleRequest srv request))
  = isInitialized srv || (req_method request =? "initialize")
  /\ logs (data (snd (handleRequest srv request))) = true.
Proof.
  intros Htable Hl Hs. rewrite handleRequest_state, Htable, Hl.
  rewrite default_handlers_table. cbn [map_get].
  rewrite (String.eqb_sym (req_method request)).
  destruct ("initialize" =? req_method request).
  { rewrite handleInitialize_state, Hl. unfold isInitialized.
    cbn [data with_data initialized set_initialized].
    rewrite orb_true_r. split; [reflexivity | exact Hl]. }
  rewrite orb_false_r.
  destruct (handleListed_keeps (data srv) (req_params request))
    as (K1 & K2 & K3 & K4).
  unfold spoils in Hs. rewrite (String.eqb_sym (req_method request)) in Hs.
  repeat match goal with
         | |- context [if ?k =? req_method request then _ else _] =>
             destruct (k =? req_method request) eqn:?
         end;
    try (split; [reflexivity | exact Hl]);
    unfold isInitialized; cbn [data with_data];
    rewrite ?handleReadResource_keeps, ?handleCallTool_keeps,
      ?handleGetPrompt_keeps, ?K1, ?K2, ?K3, ?K4;
    try (split; [reflexivity | exact Hl]).
  rewrite handleSetLevel_state, Hl. cbn [andb] in Hs |- *.
  destruct (nullish (req_params request)); cbn [negb andb] in Hs |- *.
  - split; [reflexivity | exact Hl].
  - split; [reflexivity|]. unfold logs. cbn [logLevel set_logLevel].
    destruct (convertible _); [reflexivity | discriminate].
Qed.

(** With the default handlers the dispatcher rejects no promise, unless
    the level does not convert or the request spoils it. *)
Lemma default_fulfilled (srv : McpServer) (request : JsonRpcRequest) :
  methodHandlers srv
  = default_handlers NumberToString JSON_stringify now run_Function ->
  logs (data srv) = true ->
  spoils request = false ->
  exists outcome, fst (handleRequest srv request) = inr outcome.
Proof.
  intros Htable Hl Hs.
  apply ExpressFacts.handleRequest_fulfilled; [exact Hl|].
  exact (proj2 (step_initialized srv request Htable Hl Hs)).
Qed.

Lemma run_requests_initialized (requests : list JsonRpcRequest)
  (srv : McpServer) :
  methodHandlers srv
  = default_handlers NumberToString JSON_stringify now run_Function ->
  logs (data srv) = true ->
  existsb spoils requests = false ->
  isInitialized (run_requests srv requests)
  = isInitialized srv
    || existsb (fun request => req_method request =? "initialize") requests.
Proof.
  revert srv.
  induction requests as [|request requests IH]; intros srv Htable Hl Hs.
  - simpl. rewrite orb_false_r. reflexivity.
  - unfold run_requests in *. cbn [fold_left existsb] in Hs |- *.
    apply orb_false_iff in Hs. destruct Hs as [Hs Hrest].
    destruct (step_initialized srv request Htable Hl Hs) as [Hi Hl'].
    rewrite IH; try assumption.
    + rewrite Hi, orb_assoc. reflexivity.
    + rewrite ExpressFacts.handleRequest_keeps_handlers. exact Htable.
Qed.

(** After any requests to a new server of which none spoils the level
    of the logger, [isInitialized] holds exactly when one of them was an
    [initialize]: a request or a notification, with whatever parameters;
    nothing ever resets it. *)
Theorem initialized_iff_initialize_seen (requests : list JsonRpcRequest) :
  existsb spoils requests = false ->
  isInitialized
    (run_requests
       (new_McpServer NumberToString JSON_stringify now run_Function)
       requests)
  = existsb (fun request => req_method request =? "initialize") requests.
Proof.
  intros Hs. rewrite run_requests_initialized; try assumption; reflexivity.
Qed.

(** Once the level of the logger does not convert, no request changes
    the server or is answered by the dispatcher: the promise of every
    later request is rejected. *)
Theorem spoiled_level_stops_dispatch (srv : McpServer)
  (request : JsonRpcRequest) (later : list JsonRpcRequest) :
  methodHandlers srv
  = default_handlers NumberToString JSON_stringify now run_Function ->
  logs (data srv) = true ->
  spoils request = true ->
  logs (data (snd (handleRequest srv request))) = false
  /\ fst (handleRequest srv request) = inl conversion_error
  /\ run_requests (snd (handleRequest srv request)) later
     = snd (handleRequest srv request)
  /\ Forall (fun next =>
               fst (handleRequest (snd (handleRequest srv request)) next)
               = inl conversion_error) later.
Proof.
  intros Htable Hl Hs. unfold spoils in Hs.
  apply andb_true_iff in Hs. destruct Hs as [Hs Hconv].
  apply andb_true_iff in Hs. destruct Hs as [Hm Hnn].
  apply String.eqb_eq in Hm. apply negb_true_iff in Hnn, Hconv.
  assert (Hrun : handleRequest srv request
                 = (inl conversion_error,
                    with_data srv
                      (set_logLevel (data srv)
                         (get_prop (req_params request) "level")))).
  { unfold handleRequest. rewrite Hl, Htable, default_handlers_table, Hm.
    cbn [map_get String.eqb Ascii.eqb Bool.eqb negb].
    unfold handleSetLevel, str_of. rewrite Hl, Hnn. cbn [negb].
    rewrite (proj2 (ConversionFacts.ToString_throws NumberToString _) Hconv).
    unfold logs. cbn [logLevel set_logLevel]. rewrite Hconv. reflexivity. }
  rewrite Hrun. cbn [fst snd].
  assert (Hbad : logs (data (with_data srv
                               (set_logLevel (data srv)
                                  (get_prop (req_params request) "level"))))
                 = false).
  { unfold logs. cbn [data with_data logLevel set_logLevel]. exact Hconv. }
  split; [exact Hbad|]. split; [reflexivity|]. split.
  - unfold run_requests.
    induction later as [|next later IH]; [reflexivity|].
    cbn [fold_left]. rewrite (ExpressFacts.handleRequest_rejects _ next Hbad).
    exact IH.
  - apply Forall_forall. intros next _.
    rewrite (ExpressFacts.handleRequest_rejects _ next Hbad). reflexivity.
Qed.
End Defaults.

Lemma initialized_iff_initialize_seen_witness :
  isInitialized
    (run_requests Sample.express
       [as_request (Sample.notification "initialized");
        as_request (Sample.initialize_request 1);
        as_request (Sample.request (VNum 2) "logging/setLevel"
                      (VObj [("level", VStr "debug")]))])
  = existsb (fun request => req_method request =? "initialize")
      [as_request (Sample.notification "initialized");
       as_request (Sample.initialize_request 1);
       as_request (Sample.request (VNum 2) "logging/setLevel"
                     (VObj [("level", VStr "debug")]))].
Proof.
  apply (initialized_iff_initialize_seen Sample.NumberToString
           Sample.JSON_stringify Sample.now Sample.run_Function
           [as_request (Sample.notification "initialized");
            as_request (Sample.initialize_request 1);
            as_request (Sample.request (VNum 2) "logging/setLevel"
                          (VObj [("level", VStr "debug")]))]).
  reflexivity.
Defined.

Lemma spoiled_level_stops_dispatch_witness :
  logs (data Sample.express_spoiled) = false
  /\ fst (handleRequest Sample.express
            (as_request Sample.setLevel_notification))
     = inl conversion_error
  /\ run_requests Sample.express_spoiled
       [as_request (Sample.initialize_request 1)]
     = Sample.express_spoiled
  /\ Forall (fun next =>
               fst (handleRequest Sample.express_spoiled next)
               = inl conversion_error)
       [as_request (Sample.initialize_request 1)].
Proof.
  apply (spoiled_level_stops_dispatch Sample.NumberToString
           Sample.JSON_stringify Sample.now Sample.run_Function
           Sample.express (as_request Sample.setLevel_notification)
           [as_request (Sample.initialize_request 1)]);
    reflexivity.
Defined.

Lemma other_methods_are_read_only_witness :
  snd (handleRequest Sample.express
         (as_request
            (Sample.request (VNum 3) "tools/call"
               (VObj [("name", VStr "echo");
                      ("arguments", VObj [("text", VStr "hi")])]))))
  = Sample.express.
Proof.
  apply (other_methods_are_read_only Sample.NumberToString
           Sample.JSON_stringify Sample.now Sample.run_Function
           Sample.express
           (as_request
              (Sample.request (VNum 3) "tools/call"
                 (VObj [("name", VStr "echo");
                        ("arguments", VObj [("text", VStr "hi")])]))));
    reflexivity.
Defined.

(** *** Tools of the Express server *)

Section Tools.
Variable NumberToString : float -> string.
Variable JSON_stringify : value -> string.
Variable now : string.
Variable run_Function : string -> thrown + value.

(** While the level of the logger converts to a property key,
    [tools/call] of [echo] answers with one text block that holds the
    [text] argument as it was given, or [No text provided] when the
    argument is missing or falsy. *)
Theorem echo_returns_text (srv : McpServer) (request : JsonRpcRequest) :
  logs (data srv) = true ->
  map_get "tools/call" (methodHandlers srv)
  = Some (handleCallTool NumberToString run_Function) ->
  req_method request = "tools/call" ->
  isNotification request = false ->
  get_prop (req_params request) "name" = VStr "echo" ->
  handleRequest srv request
  = (inr (Some {| res_id := req_id request;
                  res_result := Some (VObj [("content", VArr [
                    VObj [("type", VStr "text");
                          ("text",
                           if truthy (opt_prop (get_prop (req_params request)
                                                  "arguments") "text")
                           then opt_prop (get_prop (req_params request)
                                            "arguments") "text"
                           else VStr "No text provided")]])]);
                  res_error := None |}),
     srv).
Proof.
  intros Hl Hh Hm Hn Hname.
  rewrite <- (ExpressFacts.with_data_same srv) at 2.
  apply (ExpressFacts.handleRequest_returned srv request
           (handleCallTool NumberToString run_Function)); try assumption.
  - rewrite Hm. exact Hh.
  - unfold handleCallTool. rewrite Hl. cbn [negb].
    assert (Hnn : nullish (req_params request) = false).
    { destruct (req_params request); simpl in *; try discriminate;
        reflexivity. }
    rewrite Hnn, Hname. reflexivity.
Qed.

(** While the level of the logger converts to a property key, a tool
    name other than [echo] and [calculate] (a missing name too) that
    converts to a string is answered with an error of code -32603 whose
    data is the message [Unknown tool: name]; the server is left as it
    was. *)
Theorem unknown_tool_is_internal_error (srv : McpServer)
  (request : JsonRpcRequest) (name : string) :
  logs (data srv) = true ->
  str_of NumberToString (get_prop (req_params request) "name") = Some name ->
  map_get "tools/call" (methodHandlers srv)
  = Some (handleCallTool NumberToString run_Function) ->
  req_method request = "tools/call" ->
  isNotification request = false ->
  nullish (req_params request) = false ->
  is_str (get_prop (req_params request) "name") "echo" = false ->
  is_str (get_prop (req_params request) "name") "calculate" = false ->
  handleRequest srv request
  = (inr (Some {| res_id := req_id request;
                  res_result := None;
                  res_error :=
                    Some (createJsonRpcError McpErrorCode.InternalError
                            "Internal error"
                            (VStr ("Unknown tool: " ++ name))) |}),
     srv).
Proof.
  intros Hl Hname Hh Hm Hn Hnn He Hc.
  rewrite <- (ExpressFacts.with_data_same srv) at 2.
  apply (ExpressFacts.handleRequest_threw srv request
           (handleCallTool NumberToString run_Function)
           (ErrorInstance ("Unknown tool: " ++ name))); try assumption.
  - rewrite Hm. exact Hh.
  - unfold handleCallTool, error_about.
    rewrite Hl, Hnn, He, Hc, Hname. reflexivity.
Qed.

(** While the level of the logger converts to a property key, a request
    to [resources/read], [tools/call], [prompts/get] or
    [logging/setLevel] that carries no [params] (or [null]) is answered
    with an error of code -32603 and changes nothing. *)
Theorem missing_params_is_internal_error (srv : McpServer)
  (request : JsonRpcRequest) :
  logs (data srv) = true ->
  methodHandlers srv
  = default_handlers NumberToString JSON_stringify now run_Function ->
  existsb (String.eqb (req_method request))
    ["resources/read"; "tools/call"; "prompts/get"; "logging/setLevel"]
  = true ->
  isNotification request = false ->
  nullish (req_params request) = true ->
  exists response,
    handleRequest srv request = (inr (Some response), srv)
    /\ res_id response = req_id request
    /\ res_result response = None
    /\ error_code response = VNum McpErrorCode.InternalError.
Proof.
  intros Hl Htable Hm Hn Hnull.
  unfold handleRequest. rewrite Hl, Htable, default_handlers_table, Hn.
  cbn [existsb] in Hm. rewrite orb_false_r in Hm.
  repeat (apply orb_true_iff in Hm; destruct Hm as [Hm|Hm]);
    apply String.eqb_eq in Hm; rewrite Hm; cbn [map_get String.eqb Ascii.eqb
      Bool.eqb];
    unfold handleReadResource, handleCallTool, handleGetPrompt, handleSetLevel;
    rewrite Hl, Hnull; cbn [negb]; rewrite Hl; cbn [negb];
    rewrite ExpressFacts.with_data_same;
    eexists; split; try reflexivity; repeat split.
Qed.

(** *** The expression evaluator *)

Lemma string_filter_fixed (p : ascii -> bool) (s : string) :
  (string_filter p s =? s) = true -> string_forall p s = true.
Proof.
  unfold string_forall. induction s as [|c s IH]; [reflexivity|].
  cbn [string_filter list_ascii_of_string forallb]. destruct (p c) eqn:Hp.
  - cbn [String.eqb]. rewrite Ascii.eqb_refl. intros H. rewrite (IH H).
    reflexivity.
  - intros H. apply String.eqb_eq in H. exfalso.
    pose proof (ExpressFacts.string_filter_length p s) as Hlen.
    rewrite H in Hlen. simpl in Hlen. lia.
Qed.

(** The evaluator returns a number only for a non-empty string made of
    accepted characters, the text handed to the [Function] constructor is
    that string between fixed brackets, and the number is finite. *)
Theorem evaluateExpression_accepts (expression : value) (x : float) :
  evaluateExpression run_Function expression = inr x ->
  exists e,
    expression = VStr e
    /\ (e =? "") = false
    /\ string_forall allowed_char e = true
    /\ run_Function (dquote ++ "use strict" ++ dquote ++ "; return (" ++ e
                     ++ ")") = inr (VNum x)
    /\ PrimFloat.is_finite x = true.
Proof.
  unfold evaluateExpression. destruct expression; try discriminate.
  destruct (string_filter allowed_char s =? "") eqn:Hempty;
    [discriminate|].
  destruct (string_filter allowed_char s =? s) eqn:Hsame;
    [|discriminate].
  cbn [orb negb].
  pose proof (proj1 (String.eqb_eq _ _) Hsame) as Heq.
  rewrite Heq in Hempty |- *.
  destruct (run_Function _) as [error|[| |b|result|t|l|o]] eqn:Hrun;
    try discriminate.
  destruct (PrimFloat.is_finite result) eqn:Hfin; [|discriminate].
  cbn [negb]. intros H. injection H as <-.
  exists s. repeat split; try assumption.
  apply string_filter_fixed. exact Hsame.
Qed.

(** While the level of the logger converts to a property key, when the
    evaluator returns a number, [tools/call] of [calculate] answers with
    the text [Result: x] and no [isError] member. *)
Theorem calculate_accepted_is_result (srv : McpServer)
  (request : JsonRpcRequest) (x : float) :
  logs (data srv) = true ->
  map_get "tools/call" (methodHandlers srv)
  = Some (handleCallTool NumberToString run_Function) ->
  req_method request = "tools/call" ->
  isNotification request = false ->
  get_prop (req_params request) "name" = VStr "calculate" ->
  evaluateExpression run_Function
    (or_else (opt_prop (get_prop (req_params request) "arguments")
                "expression") (VStr ""))
  = inr x ->
  handleRequest srv request
  = (inr (Some {| res_id := req_id request;
                  res_result := Some (VObj [("content", VArr [
                    VObj [("type", VStr "text");
                          ("text", VStr ("Result: " ++ NumberToString x))]])]);
                  res_error := None |}),
     srv).
Proof.
  intros Hl Hh Hm Hn Hname Hev.
  rewrite <- (ExpressFacts.with_data_same srv) at 2.
  apply (ExpressFacts.handleRequest_returned srv request
           (handleCallTool NumberToString run_Function)); try assumption.
  - rewrite Hm. exact Hh.
  - unfold handleCallTool. rewrite Hl. cbn [negb].
    assert (Hnn : nullish (req_params request) = false).
    { destruct (req_params request); simpl in *; try discriminate;
        reflexivity. }
    rewrite Hnn, Hname.
    change (is_str (VStr "calculate") "echo") with false.
    change (is_str (VStr "calculate") "calculate") with true.
    cbv iota. rewrite Hev. reflexivity.
Qed.
End Tools.

Lemma echo_returns_text_witness :
  handleRequest Sample.express
    (as_request
       (Sample.request (VNum 3) "tools/call"
          (VObj [("name", VStr "echo");
                 ("arguments", VObj [("text", VStr "Hello, World!")])])))
  = (inr (Some {| res_id := VNum 3;
                  res_result := Some (VObj [("content", VArr [
                    VObj [("type", VStr "text");
                          ("text", VStr "Hello, World!")]])]);
                  res_error := None |}),
     Sample.express).
Proof.
  apply (echo_returns_text Sample.NumberToString Sample.run_Function
           Sample.express
           (as_request
              (Sample.request (VNum 3) "tools/call"
                 (VObj [("name", VStr "echo");
                        ("arguments",
                         VObj [("text", VStr "Hello, World!")])]))));
    reflexivity.
Defined.

Lemma unknown_tool_is_internal_error_witness :
  handleRequest Sample.express
    (as_request
       (Sample.request (VNum 4) "tools/call" (VObj [("name", VStr "uuid")])))
  = (inr (Some {| res_id := VNum 4;
                  res_result := None;
                  res_error :=
                    Some (createJsonRpcError McpErrorCode.InternalError
                            "Internal error" (VStr "Unknown tool: uuid")) |}),
     Sample.express).
Proof.
  apply (unknown_tool_is_internal_error Sample.NumberToString
           Sample.run_Function Sample.express
           (as_request
              (Sample.request (VNum 4) "tools/call"
                 (VObj [("name", VStr "uuid")])))
           "uuid");
    reflexivity.
Defined.

Lemma missing_params_is_internal_error_witness :
  exists response,
    handleRequest Sample.express
      (as_request (Sample.request (VNum 5) "prompts/get" VUndefined))
    = (inr (Some response), Sample.express)
    /\ res_id response = VNum 5
    /\ res_result response = None
    /\ error_code response = VNum McpErrorCode.InternalError.
Proof.
  apply (missing_params_is_internal_error Sample.NumberToString
           Sample.JSON_stringify Sample.now Sample.run_Function
           Sample.express
           (as_request (Sample.request (VNum 5) "prompts/get" VUndefined)));
    reflexivity.
Defined.

Lemma evaluateExpression_accepts_witness :
  exists e,
    VStr "3 + 4" = VStr e
    /\ (e =? "") = false
    /\ string_forall allowed_char e = true
    /\ constant_Function 7 (dquote ++ "use strict" ++ dquote ++ "; return ("
                            ++ e ++ ")") = inr (VNum 7)
    /\ PrimFloat.is_finite 7 = true.
Proof.
  apply (evaluateExpression_accepts (constant_Function 7) (VStr "3 + 4") 7).
  reflexivity.
Defined.

Lemma calculate_accepted_is_result_witness :
  handleRequest
    (new_McpServer Sample.NumberToString Sample.JSON_stringify Sample.now
       (constant_Function 7))
    (as_request
       (Sample.request (VNum 6) "tools/call"
          (VObj [("name", VStr "calculate");
                 ("arguments", VObj [("expression", VStr "3 + 4")])])))
  = (inr (Some {| res_id := VNum 6;
                  res_result := Some (VObj [("content", VArr [
                    VObj [("type", VStr "text");
                          ("text",
                           VStr ("Result: " ++ Sample.NumberToString 7))]])]);
                  res_error := None |}),
     new_McpServer Sample.NumberToString Sample.JSON_stringify Sample.now
       (constant_Function 7)).
Proof.
  apply (calculate_accepted_is_result Sample.NumberToString
           (constant_Function 7)
           (new_McpServer Sample.NumberToString Sample.JSON_stringify
              Sample.now (constant_Function 7))
           (as_request
              (Sample.request (VNum 6) "tools/call"
                 (VObj [("name", VStr "calculate");
                        ("arguments", VObj [("expression", VStr "3 + 4")])])))
           7);
    reflexivity.
Defined.

End DispatcherFacts.

(** ** More on the HTTP endpoint *)

Module EndpointFacts.
Import Js JsonRpc McpHandler ExpressServer Sessions.

(** One turn of the loop on a member that does not validate. *)
Lemma processRequest_invalid (responses : list JsonRpcResponse)
  (srv : McpServer) (obj : value) :
  isValidJsonRpcRequest obj = false ->
  processRequest (responses, srv) obj
  = ((responses
      ++ [{| res_id := or_else (opt_prop obj "id") VNull;
             res_result := None;
             res_error :=
               Some (createInvalidRequestError
                       (VStr "Invalid JSON-RPC 2.0 request format")) |}])%list,
     srv).
Proof.
  intros Hv. unfold processRequest, validateJsonRpcRequest. rewrite Hv.
  reflexivity.
Qed.

(** A single message that does not validate (a missing or wrong
    [jsonrpc], a [method] that is no string, an [id] of another type, or
    no object at all) is answered with status 200 and an InvalidRequest
    envelope under the message's [id], or [null]; nothing is dispatched. *)
Theorem invalid_message_is_invalid_request (srv : McpServer) (body : value) :
  isArray body = false ->
  isValidJsonRpcRequest body = false ->
  handleMcpRequest srv body
  = ({| status := 200;
        body := JsonResponse
          {| res_id := or_else (opt_prop body "id") VNull;
             res_result := None;
             res_error :=
               Some (createJsonRpcError McpErrorCode.InvalidRequest
                       "Invalid Request"
                       (VStr "Invalid JSON-RPC 2.0 request format")) |} |},
     srv).
Proof.
  intros Harr Hv. unfold handleMcpRequest. rewrite Harr.
  assert (Hreq : match body with VArr l => l | _ => [body] end = [body]).
  { destruct body; try reflexivity. discriminate. }
  rewrite Hreq. cbn [fold_left].
  rewrite (processRequest_invalid [] srv body Hv). reflexivity.
Qed.

Lemma invalid_message_is_invalid_request_witness :
  handleMcpRequest Sample.express (VObj [("method", VStr "test")])
  = ({| status := 200;
        body := JsonResponse
          {| res_id := VNull;
             res_result := None;
             res_error :=
               Some (createJsonRpcError McpErrorCode.InvalidRequest
                       "Invalid Request"
                       (VStr "Invalid JSON-RPC 2.0 request format")) |} |},
     Sample.express).
Proof.
  apply (invalid_message_is_invalid_request Sample.express
           (VObj [("method", VStr "test")]));
    reflexivity.
Defined.

(** One turn of the loop, for any member: at most one entry is added,
    and exactly one unless the member is passed to the dispatcher as a
    notification. *)
Lemma processRequest_adds (responses : list JsonRpcResponse)
  (srv : McpServer) (obj : value) :
  exists added srv',
    processRequest (responses, srv) obj = ((responses ++ added)%list, srv')
    /\ length added <= 1
    /\ (silent obj = false -> length added = 1).
Proof.
  unfold silent.
  destruct (isValidJsonRpcRequest obj) eqn:Hv.
  - destruct (has_prop obj "code") eqn:Hc; cbn [andb negb].
    + rewrite (HttpFacts.processRequest_code_member responses srv obj Hv Hc).
      eexists _, srv. repeat split. cbn. lia.
    + rewrite (HttpFacts.processRequest_valid responses srv obj Hv Hc).
      destruct (fst (handleRequest srv (as_request obj)))
        as [error|[response|]] eqn:Hrun.
      * eexists _, _. repeat split. cbn. lia.
      * eexists _, _. repeat split. cbn. lia.
      * exists [], (snd (handleRequest srv (as_request obj))).
        rewrite app_nil_r. repeat split; [cbn; lia|].
        intros Hn.
        destruct (HttpFacts.handleRequest_answers srv _ Hn)
          as [(response & Hr & _)|Hr]; rewrite Hr in Hrun; discriminate.
  - rewrite (processRequest_invalid responses srv obj Hv). cbn [andb].
    eexists _, srv. repeat split. cbn. lia.
Qed.

Lemma loop_adds (members : list value) :
  forall (responses : list JsonRpcResponse) (srv : McpServer),
  exists added srv',
    fold_left processRequest members (responses, srv)
    = ((responses ++ added)%list, srv')
    /\ length (filter (fun m => negb (silent m)) members) <= length added
    /\ length added <= length members.
Proof.
  induction members as [|obj members IH]; intros responses srv.
  - exists [], srv. rewrite app_nil_r. repeat split; cbn; lia.
  - cbn [fold_left filter].
    destruct (processRequest_adds responses srv obj)
      as (first & srv1 & Hstep & Hmost & Hone).
    rewrite Hstep.
    destruct (IH (responses ++ first)%list srv1)
      as (rest & srv' & Hfold & Hlow & Hhigh).
    exists (first ++ rest)%list, srv'. split.
    + rewrite Hfold, app_assoc. reflexivity.
    + rewrite length_app. cbn [length].
      destruct (silent obj); cbn [negb length].
      * lia.
      * specialize (Hone eq_refl). lia.
Qed.

Section Batch.
Variable NumberToString : float -> string.
Variable JSON_stringify : value -> string.
Variable now : string.
Variable run_Function : string -> thrown + value.

(** One turn of the loop on a server with the default handlers whose
    logger has a level that converts, for a member that does not spoil
    it: the entry, and the server is such a server again. *)
Lemma processRequest_entry (responses : list JsonRpcResponse)
  (srv : McpServer) (obj : value) :
  methodHandlers srv
  = default_handlers NumberToString JSON_stringify now run_Function ->
  logs (data srv) = true ->
  spoils_member obj = false ->
  exists added srv',
    processRequest (responses, srv) obj = ((responses ++ added)%list, srv')
    /\ map res_id added = (if silent obj then [] else [entry_id obj])
    /\ methodHandlers srv'
       = default_handlers NumberToString JSON_stringify now run_Function
    /\ logs (data srv') = true.
Proof.
  intros Htable Hl. unfold spoils_member, dispatched, silent, entry_id.
  destruct (isValidJsonRpcRequest obj) eqn:Hv.
  - destruct (has_prop obj "code") eqn:Hc; cbn [andb negb]; intros Hs.
    + rewrite (HttpFacts.processRequest_code_member responses srv obj Hv Hc).
      destruct (HttpFacts.valid_is_object obj Hv) as [props ->].
      eexists _, srv. repeat split; assumption.
    + rewrite (HttpFacts.processRequest_valid responses srv obj Hv Hc).
      destruct (DispatcherFacts.step_initialized NumberToString
                  JSON_stringify now run_Function srv (as_request obj)
                  Htable Hl Hs) as [_ Hl'].
      destruct (DispatcherFacts.default_fulfilled NumberToString
                  JSON_stringify now run_Function srv (as_request obj)
                  Htable Hl Hs) as [outcome Hrun].
      rewrite Hrun.
      destruct (isNotification (as_request obj)) eqn:Hn.
      * destruct (ExpressFacts.handleRequest_notification_outcomes srv _ Hn)
          as [Hr|Hr]; rewrite Hr in Hrun; [|discriminate].
        injection Hrun as <-.
        exists [], (snd (handleRequest srv (as_request obj))).
        rewrite app_nil_r. repeat split; try assumption.
        rewrite ExpressFacts.handleRequest_keeps_handlers. exact Htable.
      * destruct (HttpFacts.handleRequest_answers srv _ Hn)
          as [(response & Hr & Hid)|Hr]; rewrite Hr in Hrun;
          [|discriminate].
        injection Hrun as <-.
        exists [response], (snd (handleRequest srv (as_request obj))).
        repeat split; try assumption.
        -- cbn [map]. rewrite Hid. reflexivity.
        -- rewrite ExpressFacts.handleRequest_keeps_handlers. exact Htable.
  - intros _. rewrite (processRequest_invalid responses srv obj Hv).
    cbn [andb]. eexists _, srv. repeat split; assumption.
Qed.

Lemma loop_entries (members : list value) :
  forall (responses : list JsonRpcResponse) (srv : McpServer),
  methodHandlers srv
  = default_handlers NumberToString JSON_stringify now run_Function ->
  logs (data srv) = true ->
  existsb spoils_member members = false ->
  exists added srv',
    fold_left processRequest members (responses, srv)
    = ((responses ++ added)%list, srv')
    /\ map res_id added
       = map entry_id (filter (fun m => negb (silent m)) members).
Proof.
  induction members as [|obj members IH]; intros responses srv Htable Hl Hs.
  - exists [], srv. rewrite app_nil_r. split; reflexivity.
  - cbn [fold_left filter existsb] in Hs |- *.
    apply orb_false_iff in Hs. destruct Hs as [Hs Hrest].
    destruct (processRequest_entry responses srv obj Htable Hl Hs)
      as (first & srv1 & Hstep & Hfirst & Htable1 & Hl1).
    rewrite Hstep.
    destruct (IH (responses ++ first)%list srv1 Htable1 Hl1 Hrest)
      as (rest & srv' & Hfold & Hrest').
    exists (first ++ rest)%list, srv'. split.
    + rewrite Hfold, app_assoc. reflexivity.
    + rewrite map_app, Hfirst, Hrest'.
      destruct (silent obj); reflexivity.
Qed.

(** Every batch, whatever its members, is answered with status 200 and
    an array with at most one entry for each member, and at least one
    for each member that is not passed to the dispatcher as a
    notification.  On a server with the default handlers whose logger
    has a level that converts, when no member spoils that level, the
    array follows the order of the members: one entry for each member
    that is not silent (a member that does not validate, or has a [code]
    member, or carries an identifier), under that member's identifier,
    and none for the others. *)
Theorem batch_entries (srv : McpServer) (members : list value) :
  methodHandlers srv
  = default_handlers NumberToString JSON_stringify now run_Function ->
  logs (data srv) = true ->
  existsb spoils_member members = false ->
  exists responses srv',
    handleMcpRequest srv (VArr members)
    = ({| status := 200; body := JsonResponses responses |}, srv')
    /\ map res_id responses
       = map entry_id (filter (fun m => negb (silent m)) members)
    /\ length responses
       = length (filter (fun m => negb (silent m)) members).
Proof.
  intros Htable Hl Hs.
  destruct (loop_entries members [] srv Htable Hl Hs)
    as (added & srv' & Hfold & Hids).
  exists added, srv'. unfold handleMcpRequest. cbn [isArray].
  rewrite Hfold. cbn [app]. repeat split; [exact Hids|].
  rewrite <- (length_map res_id), Hids, length_map. reflexivity.
Qed.
End Batch.

(** Whatever the handlers and the level of the logger, a batch is
    answered with status 200 and an array with at most one entry for
    each member, and at least one for each member that is not passed to
    the dispatcher as a notification. *)
Lemma batch_bounds (srv : McpServer) (members : list value) :
  exists responses srv',
    handleMcpRequest srv (VArr members)
    = ({| status := 200; body := JsonResponses responses |}, srv')
    /\ length (filter (fun m => negb (silent m)) members) <= length responses
    /\ length responses <= length members.
Proof.
  destruct (loop_adds members [] srv) as (added & srv' & Hfold & Hlow & Hhigh).
  exists added, srv'. unfold handleMcpRequest. cbn [isArray].
  rewrite Hfold. cbn [app]. repeat split; assumption.
Qed.

Lemma batch_entries_witness :
  exists responses srv',
    handleMcpRequest Sample.express
      (VArr [Sample.initialize_request 1;
             Sample.notification "initialized";
             VObj [("method", VStr "test")];
             VNum 7])
    = ({| status := 200; body := JsonResponses responses |}, srv')
    /\ map res_id responses
       = map entry_id
           (filter (fun m => negb (silent m))
              [Sample.initialize_request 1;
               Sample.notification "initialized";
               VObj [("method", VStr "test")];
               VNum 7])
    /\ length responses
       = length
           (filter (fun m => negb (silent m))
              [Sample.initialize_request 1;
               Sample.notification "initialized";
               VObj [("method", VStr "test")];
               VNum 7]).
Proof.
  apply (batch_entries Sample.NumberToString Sample.JSON_stringify Sample.now
           Sample.run_Function Sample.express
           [Sample.initialize_request 1;
            Sample.notification "initialized";
            VObj [("method", VStr "test")];
            VNum 7]);
    reflexivity.
Defined.

Section Application.
Variable now : string.
Variable NODE_ENV : value.
Variable express_json : string -> string + value.
Variable unparsed_body : value.

Local Abbreviation app := (app now NODE_ENV express_json unparsed_body).


(** The router ignores letter case and one trailing slash, and a route
    of [app.get] serves HEAD without a body. *)
Lemma app_routes (srv : McpServer) (parsed : value) :
  app srv {| verb := "POST"; path := "/MCP/"; payload := None |}
  = app srv {| verb := "POST"; path := "/mcp"; payload := None |}
  /\ fst (app srv {| verb := "HEAD"; path := "/health"; payload := None |})
     = {| status := 200; body := NoBody |}
  /\ status (fst (app srv {| verb := "POST"; path := "/health";
                             payload := None |})) = 404.
Proof. repeat split; reflexivity. Qed.


End Application.


End EndpointFacts.

(** ** More on the stdio server *)

Module ServerFacts.
Import Js MCPServer History Sessions.

Section Server.
Variable NumberToString : float -> string.
Variable StringToNumber : string -> float.
Variable JSON_stringify : value -> string.
Variable now : string.

Local Abbreviation handleRequest :=
  (handleRequest NumberToString StringToNumber JSON_stringify now).
Local Abbreviation dispatch :=
  (dispatch NumberToString StringToNumber JSON_stringify now).
Local Abbreviation step :=
  (step NumberToString StringToNumber JSON_stringify now).
Local Abbreviation after :=
  (after NumberToString StringToNumber JSON_stringify now).

(** *** What a request may change *)

Lemma dispatch_state (s : state) (method params : value) :
  snd (dispatch s method params) = s
  \/ (initialized s = false
      /\ snd (dispatch s method params) = set_initialized s true).
Proof.
  unfold MCPServer.dispatch.
  destruct (is_str method "initialize").
  - unfold initialize. destruct (initialized s) eqn:Hi; [left; reflexivity|].
    destruct (nullish params); [left; reflexivity|].
    destruct (negb _); [left; reflexivity|].
    right. split; reflexivity.
  - repeat match goal with
           | |- context [if is_str method ?m then _ else _] =>
               destruct (is_str method m)
           end; left; reflexivity.
Qed.

(** A request changes nothing but the [initialized] flag, and that only
    from false to true. *)
Lemma request_changes_only_the_flag (s : state) (request : value) :
  snd (handleRequest s request) = s
  \/ (initialized s = false
      /\ snd (handleRequest s request) = set_initialized s true).
Proof.
  unfold MCPServer.handleRequest.
  destruct (nullish request); [left; reflexivity|].
  destruct (is_str _ "notifications/initialized"); [left; reflexivity|].
  pose proof (dispatch_state s (get_prop request "method")
                (get_prop request "params")) as Hd.
  destruct (dispatch s (get_prop request "method")
              (get_prop request "params")) as [[error|result] s'];
    exact Hd.
Qed.

(** *** Errors *)

Lemma error_about_code (code : float) (prefix : string) (v : value) :
  get_prop (caught (error_about NumberToString code prefix v)) "code"
  = VNum (-32603)%float.
Proof. rewrite StdioFacts.caught_error_about. reflexivity. Qed.

(** [executeTool] throws nothing but the TypeError of a conversion. *)
Lemma executeTool_fault (toolName : string) (args : value) (error : thrown) :
  executeTool NumberToString StringToNumber JSON_stringify now toolName args
  = inl error ->
  error = conversion_error.
Proof.
  unfold executeTool.
  destruct (toolName =? "echo").
  { destruct (str_of NumberToString _); intros H; inversion H; reflexivity. }
  destruct (toolName =? "calculate").
  { destruct (num_of NumberToString StringToNumber (get_prop args "a"));
      [|intros H; inversion H; reflexivity].
    destruct (num_of NumberToString StringToNumber (get_prop args "b"));
      intros H; inversion H; reflexivity. }
  destruct (toolName =? "timestamp"); discriminate.
Qed.

Lemma callTool_fault_code (s : state) (params : value) (error : thrown) :
  callTool NumberToString StringToNumber JSON_stringify now s params
  = inl error ->
  get_prop (caught error) "code" = VNum (-32603)%float.
Proof.
  unfold callTool. destruct (nullish params).
  { intros H; inversion H; reflexivity. }
  destruct (get_by (get_prop params "name") (tools s)).
  - destruct (get_prop params "name");
      try (intros H; inversion H; apply error_about_code).
    destruct (executeTool _ _ _ _ _ _) as [e|text] eqn:Hrun; [|discriminate].
    intros H; inversion H; subst.
    rewrite (executeTool_fault _ _ _ Hrun). reflexivity.
  - intros H; inversion H; apply error_about_code.
Qed.

Lemma dispatch_fault_code (s s' : state) (method params : value)
  (error : thrown) :
  dispatch s method params = (inl error, s') ->
  get_prop (caught error) "code" = VNum (-32603)%float.
Proof.
  unfold MCPServer.dispatch.
  destruct (is_str method "initialize").
  { unfold initialize.
    repeat match goal with
           | |- context [if ?c then _ else _] => destruct c
           end;
      intros H; inversion H; subst;
      first [reflexivity | apply error_about_code]. }
  destruct (is_str method "prompts/list"); [discriminate|].
  destruct (is_str method "prompts/get").
  { unfold getPrompt. destruct (nullish params).
    { intros H; inversion H; reflexivity. }
    destruct (get_by _ _).
    - destruct (str_of NumberToString _); intros H; inversion H; reflexivity.
    - intros H; inversion H; apply error_about_code. }
  destruct (is_str method "resources/list"); [discriminate|].
  destruct (is_str method "resources/read").
  { unfold readResource. destruct (nullish params).
    { intros H; inversion H; reflexivity. }
    destruct (get_by _ _); intros H; inversion H; apply error_about_code. }
  destruct (is_str method "tools/list"); [discriminate|].
  destruct (is_str method "tools/call").
  { destruct (callTool _ _ _ _ s params) as [e|r] eqn:Hrun; [|discriminate].
    intros H; inversion H; subst. exact (callTool_fault_code _ _ _ Hrun). }
  intros H; inversion H; apply error_about_code.
Qed.

(** Whatever the fault (an unknown method, a missing resource, tool or
    prompt, an unsupported version, a second [initialize], missing
    parameters), the error of a response carries the code -32603: no
    other error code leaves [handleRequest]. *)
Theorem every_error_is_internal (s s' : state) (request : value)
  (response : JSONRPCResponse) (error : value) :
  handleRequest s request = (inr response, s') ->
  error_of response = Some error ->
  get_prop error "code" = VNum (-32603)%float.
Proof.
  unfold MCPServer.handleRequest.
  destruct (nullish request); [discriminate|].
  destruct (is_str _ "notifications/initialized").
  { intros H; injection H as <- _. discriminate. }
  destruct (dispatch s (get_prop request "method")
              (get_prop request "params")) as [[e|result] s1] eqn:Hd.
  - intros H; injection H as <- _. cbn [error_of].
    intros Herr; injection Herr as <-.
    exact (dispatch_fault_code _ _ _ _ _ Hd).
  - intros H; injection H as <- _. discriminate.
Qed.

(** *** The session *)

Lemma step_keeps_initialized (s : state) (c : call) :
  initialized s = true -> initialized (step s c) = true.
Proof.
  intros Hi. destruct c as [resource|tool|prompt|request]; cbn; try exact Hi.
  destruct (request_changes_only_the_flag s request) as [-> | [Hf _]];
    [exact Hi | congruence].
Qed.

Lemma run_keeps_initialized (calls : list call) (s : state) :
  initialized s = true -> initialized (fold_left step calls s) = true.
Proof.
  revert s. induction calls as [|c calls IH]; intros s Hi; [exact Hi|].
  cbn [fold_left]. apply IH. apply step_keeps_initialized. exact Hi.
Qed.

(** An initialized session stays initialized through any registrations
    and requests, and every later [initialize] is answered with an error
    and no result. *)
Theorem initialized_is_permanent (s : state) (calls : list call)
  (request : value) :
  initialized s = true ->
  get_prop request "method" = VStr "initialize" ->
  initialized (fold_left step calls s) = true
  /\ exists error,
       handleRequest (fold_left step calls s) request
       = (inr {| id := get_prop request "id"; result_of := None;
                 error_of := Some error |},
          fold_left step calls s).
Proof.
  intros Hi Hm. pose proof (run_keeps_initialized calls s Hi) as Hk.
  split; [exact Hk|].
  rewrite (StdioFacts.handleRequest_initialize NumberToString StringToNumber
             JSON_stringify now _ request Hm).
  rewrite (StdioFacts.initialize_again NumberToString _ _ Hk).
  eexists. reflexivity.
Qed.

(** *** Registries *)

(** A registered resource can be read back: [resources/read] of its
    [uri] answers with one text block built from its name, its uri and
    its description, or [No description] when that is missing or empty. *)
Theorem registered_resource_is_read (s : state) (resource : Resource.t)
  (request : value) :
  get_prop request "method" = VStr "resources/read" ->
  get_prop (get_prop request "params") "uri" = VStr (Resource.uri resource) ->
  handleRequest (registerResource resource s) request
  = (inr {| id := get_prop request "id";
            result_of := Some (ReadResourceResult [
              TextContent ("Content of resource: " ++ Resource.name resource
                           ++ newline ++ "URI: " ++ Resource.uri resource
                           ++ newline ++ "Description: "
                           ++ match Resource.description resource with
                              | Some d =>
                                  if d =? "" then "No description" else d
                              | None => "No description"
                              end)]);
            error_of := None |},
     registerResource resource s).
Proof.
  intros Hm Huri.
  rewrite (StdioFacts.handleRequest_resources_read NumberToString
             StringToNumber JSON_stringify now _ request Hm).
  unfold readResource.
  assert (Hnn : nullish (get_prop request "params") = false).
  { destruct (get_prop request "params"); simpl in *; try discriminate;
      reflexivity. }
  rewrite Hnn, Huri. cbn [get_by registerResource resources].
  rewrite MapFacts.map_get_set_same. reflexivity.
Qed.

(** A registered prompt can be fetched: [prompts/get] of its name answers
    with its description and one [user] message. *)
Theorem registered_prompt_is_got (s : state) (prompt : Prompt.t)
  (request : value) :
  get_prop request "method" = VStr "prompts/get" ->
  get_prop (get_prop request "params") "name" = VStr (Prompt.name prompt) ->
  handleRequest (registerPrompt prompt s) request
  = (inr {| id := get_prop request "id";
            result_of := Some (GetPromptResult (Prompt.description prompt) [
              ("user",
               TextContent ("This is the " ++ Prompt.name prompt
                            ++ " prompt with arguments: "
                            ++ JSON_stringify
                                 (or_else (get_prop (get_prop request "params")
                                             "arguments") (VObj []))))]);
            error_of := None |},
     registerPrompt prompt s).
Proof.
  intros Hm Hname. unfold MCPServer.handleRequest.
  assert (Hr : nullish request = false).
  { destruct request; simpl in *; try discriminate; reflexivity. }
  assert (Hnn : nullish (get_prop request "params") = false).
  { destruct (get_prop request "params"); simpl in *; try discriminate;
      reflexivity. }
  rewrite Hr, Hm. unfold MCPServer.dispatch. simpl is_str. cbv iota.
  unfold getPrompt. rewrite Hnn, Hname.
  cbn [get_by registerPrompt prompts].
  rewrite MapFacts.map_get_set_same. reflexivity.
Qed.

(** Registering a tool touches nothing else: another name still maps to
    what it mapped to, and the resources, the prompts and the session
    flag are the same. *)
Theorem registerTool_is_local (s : state) (tool : Tool.t) (name : string) :
  (name =? Tool.name tool) = false ->
  map_get name (tools (registerTool tool s)) = map_get name (tools s)
  /\ resources (registerTool tool s) = resources s
  /\ prompts (registerTool tool s) = prompts s
  /\ initialized (registerTool tool s) = initialized s.
Proof.
  intros Hneq. apply String.eqb_neq in Hneq. repeat split.
  cbn [registerTool tools].
  apply DispatcherFacts.map_get_set_other. exact Hneq.
Qed.

Lemma map_keys_set (V : Type) (k : string) (v : V) (m : Map V) :
  map_keys (map_set k v m)
  = if existsb (String.eqb k) (map_keys m) then map_keys m
    else (map_keys m ++ [k])%list.
Proof.
  unfold map_keys. induction m as [|[k0 v0] m IH]; [reflexivity|].
  cbn [map_set map fst existsb].
  rewrite (String.eqb_sym k k0).
  destruct (k0 =? k) eqn:E; cbn [orb map fst].
  - apply String.eqb_eq in E. subst. reflexivity.
  - rewrite IH. destruct (existsb (String.eqb k) (map fst m)); reflexivity.
Qed.

(** The names [tools/list] shows keep the order of first registration:
    registering a name again leaves the sequence of names as it was, and
    a new name goes to the end. *)
Theorem tools_keep_registration_order (calls : list call) (tool : Tool.t) :
  map Tool.name
    (map_values (tools (after (calls ++ [RegisterTool tool]))))
  = if existsb (String.eqb (Tool.name tool))
         (map Tool.name (map_values (tools (after calls))))
    then map Tool.name (map_values (tools (after calls)))
    else (map Tool.name (map_values (tools (after calls)))
          ++ [Tool.name tool])%list.
Proof.
  rewrite (StdioFacts.registry_names _
             (StdioFacts.after_registry_ok NumberToString StringToNumber
                JSON_stringify now (calls ++ [RegisterTool tool]))).
  rewrite (StdioFacts.registry_names _
             (StdioFacts.after_registry_ok NumberToString StringToNumber
                JSON_stringify now calls)).
  rewrite StdioFacts.after_snoc. cbn [History.step registerTool tools].
  apply map_keys_set.
Qed.

(** *** Calling tools *)

(** A registered tool whose name is none of [echo], [calculate] and
    [timestamp] is answered by the generic text that names the tool and
    prints its arguments. *)
Theorem custom_tool_is_acknowledged (s : state) (request : value)
  (name : string) (tool : Tool.t) :
  get_prop request "method" = VStr "tools/call" ->
  get_prop (get_prop request "params") "name" = VStr name ->
  map_get name (tools s) = Some tool ->
  (name =? "echo") = false ->
  (name =? "calculate") = false ->
  (name =? "timestamp") = false ->
  handleRequest s request
  = (inr {| id := get_prop request "id";
            result_of := Some (CallToolResult
              {| content := [
                   TextContent ("Tool " ++ name
                                ++ " executed with arguments: "
                                ++ JSON_stringify
                                     (or_else (get_prop
                                                 (get_prop request "params")
                                                 "arguments") (VObj [])))];
                 isError := None |});
            error_of := None |},
     s).
Proof.
  intros Hm Hname Htool He Hc Ht.
  rewrite (StdioFacts.handleRequest_tools_call NumberToString StringToNumber
             JSON_stringify now s request Hm).
  unfold callTool.
  assert (Hnn : nullish (get_prop request "params") = false).
  { destruct (get_prop request "params"); simpl in *; try discriminate;
      reflexivity. }
  rewrite Hnn, Hname. cbn [get_by]. rewrite Htool.
  unfold executeTool. rewrite He, Hc, Ht. reflexivity.
Qed.

(** [calculate] with an operation that is none of the four (a missing one
    too) is answered, as a result, with [Error: Unknown operation],
    whatever the operands are, provided they convert to numbers (absent
    operands do). *)
Theorem unknown_operation_is_reported (s : state) (request : value)
  (tool : Tool.t) :
  get_prop request "method" = VStr "tools/call" ->
  get_prop (get_prop request "params") "name" = VStr "calculate" ->
  map_get "calculate" (tools s) = Some tool ->
  existsb
    (is_str (get_prop (or_else (get_prop (get_prop request "params")
                                  "arguments") (VObj [])) "operation"))
    ["add"; "subtract"; "multiply"; "divide"] = false ->
  convertible (get_prop (or_else (get_prop (get_prop request "params")
                                    "arguments") (VObj [])) "a") = true ->
  convertible (get_prop (or_else (get_prop (get_prop request "params")
                                    "arguments") (VObj [])) "b") = true ->
  handleRequest s request
  = (inr {| id := get_prop request "id";
            result_of := Some (CallToolResult
              {| content := [TextContent "Error: Unknown operation"];
                 isError := None |});
            error_of := None |},
     s).
Proof.
  intros Hm Hname Htool Hop Ha Hb.
  rewrite (StdioFacts.handleRequest_tools_call NumberToString StringToNumber
             JSON_stringify now s request Hm).
  unfold callTool.
  assert (Hnn : nullish (get_prop request "params") = false).
  { destruct (get_prop request "params"); simpl in *; try discriminate;
      reflexivity. }
  rewrite Hnn, Hname. cbn [get_by]. rewrite Htool.
  cbn [existsb] in Hop.
  repeat (apply orb_false_iff in Hop; destruct Hop as [? Hop]).
  unfold executeTool, num_of. cbn [String.eqb Ascii.eqb Bool.eqb].
  destruct (ConversionFacts.Number_returns NumberToString StringToNumber _ Ha)
    as [numA ->].
  destruct (ConversionFacts.Number_returns NumberToString StringToNumber _ Hb)
    as [numB ->].
  unfold calculate.
  repeat match goal with
         | Hc : is_str _ ?m = false |- _ => rewrite Hc; clear Hc
         end.
  reflexivity.
Qed.

(** *** Events *)

Lemma handleRequest_emitted (s : state) (request : value) :
  emitted (snd (handleRequest s request)) = emitted s.
Proof.
  destruct (request_changes_only_the_flag s request) as [-> | [_ ->]]; reflexivity.
Qed.

Lemma run_emitted (calls : list call) (s : state) :
  emitted (fold_left step calls s)
  = (rev (flat_map events_of calls) ++ emitted s)%list.
Proof.
  revert s. induction calls as [|c calls IH]; intros s; [reflexivity|].
  cbn [fold_left flat_map]. rewrite IH, rev_app_distr, <- app_assoc.
  f_equal.
  destruct c as [resource|tool|prompt|request]; cbn; try reflexivity.
  apply handleRequest_emitted.
Qed.

(** The events emitted are one [list_changed] event of the right kind
    for each registration, in order (latest first), also when a
    registration replaces an entry; requests emit none. *)
Theorem events_follow_registrations (calls : list call) :
  emitted (after calls) = rev (flat_map events_of calls).
Proof.
  unfold History.after. rewrite run_emitted. apply app_nil_r.
Qed.
End Server.

End ServerFacts.

(** ** The stdio server on concrete inputs, and its transport *)

Module TransportFacts.
Import Js MCPServer History Sessions.

Lemma every_error_is_internal_witness :
  get_prop (createError (-32603) "Internal error") "code"
  = VNum (-32603)%float.
Proof.
  apply (ServerFacts.every_error_is_internal Sample.NumberToString
           Sample.StringToNumber Sample.JSON_stringify Sample.now
           StdioTransport.new_StdioTransport StdioTransport.new_StdioTransport
           (Sample.request (VNum 1) "tools/call"
              (VObj [("name", VStr "missing")]))
           {| id := VNum 1; result_of := None;
              error_of := Some (createError (-32603) "Internal error") |}
           (createError (-32603) "Internal error"));
    reflexivity.
Defined.

Lemma initialized_is_permanent_witness :
  initialized
    (fold_left
       (step Sample.NumberToString Sample.StringToNumber
          Sample.JSON_stringify Sample.now)
       [RegisterTool {| Tool.name := "late"; Tool.description := None;
                        Tool.inputSchema := VObj [] |};
        HandleRequest (Sample.request (VNum 2) "tools/list" VUndefined)]
       Sample.stdio_initialized) = true
  /\ exists error,
       Sample.stdio
         (fold_left
            (step Sample.NumberToString Sample.StringToNumber
               Sample.JSON_stringify Sample.now)
            [RegisterTool {| Tool.name := "late"; Tool.description := None;
                             Tool.inputSchema := VObj [] |};
             HandleRequest (Sample.request (VNum 2) "tools/list" VUndefined)]
            Sample.stdio_initialized)
         (Sample.initialize_request 3)
       = (inr {| id := VNum 3; result_of := None; error_of := Some error |},
          fold_left
            (step Sample.NumberToString Sample.StringToNumber
               Sample.JSON_stringify Sample.now)
            [RegisterTool {| Tool.name := "late"; Tool.description := None;
                             Tool.inputSchema := VObj [] |};
             HandleRequest (Sample.request (VNum 2) "tools/list" VUndefined)]
            Sample.stdio_initialized).
Proof.
  apply (ServerFacts.initialized_is_permanent Sample.NumberToString
           Sample.StringToNumber Sample.JSON_stringify Sample.now
           Sample.stdio_initialized
           [RegisterTool {| Tool.name := "late"; Tool.description := None;
                            Tool.inputSchema := VObj [] |};
            HandleRequest (Sample.request (VNum 2) "tools/list" VUndefined)]
           (Sample.initialize_request 3));
    reflexivity.
Defined.

Lemma registered_resource_is_read_witness :
  Sample.stdio
    (registerResource
       {| Resource.uri := "mem://note"; Resource.name := "Note";
          Resource.description := Some ""; Resource.mimeType := None |}
       new_MCPServer)
    (Sample.request (VNum 1) "resources/read"
       (VObj [("uri", VStr "mem://note")]))
  = (inr {| id := VNum 1;
            result_of := Some (ReadResourceResult [
              TextContent ("Content of resource: Note" ++ newline
                           ++ "URI: mem://note" ++ newline
                           ++ "Description: No description")]);
            error_of := None |},
     registerResource
       {| Resource.uri := "mem://note"; Resource.name := "Note";
          Resource.description := Some ""; Resource.mimeType := None |}
       new_MCPServer).
Proof.
  apply (ServerFacts.registered_resource_is_read Sample.NumberToString
           Sample.StringToNumber Sample.JSON_stringify Sample.now
           new_MCPServer
           {| Resource.uri := "mem://note"; Resource.name := "Note";
              Resource.description := Some ""; Resource.mimeType := None |}
           (Sample.request (VNum 1) "resources/read"
              (VObj [("uri", VStr "mem://note")])));
    reflexivity.
Defined.

Lemma registered_prompt_is_got_witness :
  Sample.stdio
    (registerPrompt
       {| Prompt.name := "greet"; Prompt.description := Some "Say hello";
          Prompt.arguments := None |}
       new_MCPServer)
    (Sample.request (VNum 1) "prompts/get" (VObj [("name", VStr "greet")]))
  = (inr {| id := VNum 1;
            result_of := Some (GetPromptResult (Some "Say hello") [
              ("user",
               TextContent ("This is the greet prompt with arguments: "
                            ++ Sample.JSON_stringify (VObj [])))]);
            error_of := None |},
     registerPrompt
       {| Prompt.name := "greet"; Prompt.description := Some "Say hello";
          Prompt.arguments := None |}
       new_MCPServer).
Proof.
  apply (ServerFacts.registered_prompt_is_got Sample.NumberToString
           Sample.StringToNumber Sample.JSON_stringify Sample.now
           new_MCPServer
           {| Prompt.name := "greet"; Prompt.description := Some "Say hello";
              Prompt.arguments := None |}
           (Sample.request (VNum 1) "prompts/get"
              (VObj [("name", VStr "greet")])));
    reflexivity.
Defined.

Lemma registerTool_is_local_witness :
  map_get "echo"
    (tools (registerTool
              {| Tool.name := "extra"; Tool.description := None;
                 Tool.inputSchema := VObj [] |}
              StdioTransport.new_StdioTransport))
  = map_get "echo" (tools StdioTransport.new_StdioTransport)
  /\ resources (registerTool
                  {| Tool.name := "extra"; Tool.description := None;
                     Tool.inputSchema := VObj [] |}
                  StdioTransport.new_StdioTransport)
     = resources StdioTransport.new_StdioTransport
  /\ prompts (registerTool
                {| Tool.name := "extra"; Tool.description := None;
                   Tool.inputSchema := VObj [] |}
                StdioTransport.new_StdioTransport)
     = prompts StdioTransport.new_StdioTransport
  /\ initialized (registerTool
                    {| Tool.name := "extra"; Tool.description := None;
                       Tool.inputSchema := VObj [] |}
                    StdioTransport.new_StdioTransport)
     = initialized StdioTransport.new_StdioTransport.
Proof.
  apply (ServerFacts.registerTool_is_local StdioTransport.new_StdioTransport
           {| Tool.name := "extra"; Tool.description := None;
              Tool.inputSchema := VObj [] |}
           "echo").
  reflexivity.
Defined.

Lemma custom_tool_is_acknowledged_witness :
  Sample.stdio
    (registerTool
       {| Tool.name := "extra"; Tool.description := None;
          Tool.inputSchema := VObj [] |}
       new_MCPServer)
    (Sample.request (VNum 1) "tools/call" (VObj [("name", VStr "extra")]))
  = (inr {| id := VNum 1;
            result_of := Some (CallToolResult
              {| content := [
                   TextContent ("Tool extra executed with arguments: "
                                ++ Sample.JSON_stringify (VObj []))];
                 isError := None |});
            error_of := None |},
     registerTool
       {| Tool.name := "extra"; Tool.description := None;
          Tool.inputSchema := VObj [] |}
       new_MCPServer).
Proof.
  apply (ServerFacts.custom_tool_is_acknowledged Sample.NumberToString
           Sample.StringToNumber Sample.JSON_stringify Sample.now
           (registerTool
              {| Tool.name := "extra"; Tool.description := None;
                 Tool.inputSchema := VObj [] |}
              new_MCPServer)
           (Sample.request (VNum 1) "tools/call"
              (VObj [("name", VStr "extra")]))
           "extra"
           {| Tool.name := "extra"; Tool.description := None;
              Tool.inputSchema := VObj [] |});
    reflexivity.
Defined.

Lemma unknown_operation_is_reported_witness :
  Sample.stdio
    (registerTool
       {| Tool.name := "calculate"; Tool.description := None;
          Tool.inputSchema := VObj [] |}
       new_MCPServer)
    (Sample.request (VNum 1) "tools/call"
       (VObj [("name", VStr "calculate");
              ("arguments", VObj [("operation", VStr "modulo");
                                  ("a", VNum 7); ("b", VNum 2)])]))
  = (inr {| id := VNum 1;
            result_of := Some (CallToolResult
              {| content := [TextContent "Error: Unknown operation"];
                 isError := None |});
            error_of := None |},
     registerTool
       {| Tool.name := "calculate"; Tool.description := None;
          Tool.inputSchema := VObj [] |}
       new_MCPServer).
Proof.
  apply (ServerFacts.unknown_operation_is_reported Sample.NumberToString
           Sample.StringToNumber Sample.JSON_stringify Sample.now
           (registerTool
              {| Tool.name := "calculate"; Tool.description := None;
                 Tool.inputSchema := VObj [] |}
              new_MCPServer)
           (Sample.request (VNum 1) "tools/call"
              (VObj [("name", VStr "calculate");
                     ("arguments", VObj [("operation", VStr "modulo");
                                         ("a", VNum 7); ("b", VNum 2)])]))
           {| Tool.name := "calculate"; Tool.description := None;
              Tool.inputSchema := VObj [] |});
    reflexivity.
Defined.

Section Transport.
Variable NumberToString : float -> string.
Variable StringToNumber : string -> float.
Variable JSON_stringify : value -> string.
Variable now : string.
Variable JSON_parse : string -> string + value.

Local Abbreviation on_line :=
  (StdioTransport.on_line NumberToString StringToNumber JSON_stringify now
     JSON_parse).

(** A line that is not blank and does not parse is answered by one
    ParseError envelope: [id] null, code -32700, the parser's message as
    data; the server is left as it was. *)
Theorem unparseable_line_is_parse_error (server : state)
  (line message : string) :
  (trim line =? "") = false ->
  JSON_parse (trim line) = inl message ->
  on_line server line
  = ([{| id := VNull; result_of := None;
         error_of := Some (VObj [("code", VNum (-32700)%float);
                                 ("message", VStr "Parse error");
                                 ("data", VStr message)]) |}],
     server).
Proof.
  intros Hblank Hparse. unfold StdioTransport.on_line.
  rewrite Hblank, Hparse. reflexivity.
Qed.

(** The line [null] parses, yet it is answered like a line that does not:
    [handleRequest] fails on it outside its own [catch], and the listener
    writes a ParseError envelope. *)
Theorem null_line_is_parse_error (server : state) (line : string) :
  (trim line =? "") = false ->
  JSON_parse (trim line) = inr VNull ->
  exists response,
    on_line server line = ([response], server)
    /\ id response = VNull
    /\ result_of response = None
    /\ error_code response = VNum (-32700)%float.
Proof.
  intros Hblank Hparse. unfold StdioTransport.on_line.
  rewrite Hblank, Hparse. cbn. eexists. repeat split.
Qed.

(** A line that parses to a message with an identifier is answered by
    exactly one line, under that identifier, with a result or an error. *)
Theorem request_line_is_answered_once (server : state) (line : string)
  (message : value) :
  (trim line =? "") = false ->
  JSON_parse (trim line) = inr message ->
  nullish message = false ->
  JsonRpc.isNotification (JsonRpc.as_request message) = false ->
  exists response,
    fst (on_line server line) = [response]
    /\ id response = get_prop message "id"
    /\ ((result_of response = None /\ exists e, error_of response = Some e)
        \/ (error_of response = None
            /\ exists r, result_of response = Some r)).
Proof.
  intros Hblank Hparse Hnn Hid. unfold StdioTransport.on_line.
  rewrite Hblank, Hparse. unfold MCPServer.handleRequest. rewrite Hnn.
  unfold JsonRpc.isNotification, JsonRpc.as_request in Hid.
  cbn [JsonRpc.req_id] in Hid.
  destruct (is_str _ "notifications/initialized").
  - destruct (get_prop message "id"); try discriminate;
      eexists; (split; [reflexivity|]); (split; [reflexivity|]);
      (right; split; [reflexivity | eexists; reflexivity]).
  - destruct (MCPServer.dispatch _ _ _ _ _ _ _) as [[error|result] s'];
      destruct (get_prop message "id"); try discriminate;
      eexists; (split; [reflexivity|]); (split; [reflexivity|]);
      solve [ left; split; [reflexivity | eexists; reflexivity]
            | right; split; [reflexivity | eexists; reflexivity] ].
Qed.
End Transport.

Lemma unparseable_line_is_parse_error_witness :
  StdioTransport.on_line Sample.NumberToString Sample.StringToNumber
    Sample.JSON_stringify Sample.now Sample.reject_all
    StdioTransport.new_StdioTransport "  {oops  "
  = ([{| id := VNull; result_of := None;
         error_of := Some (VObj [("code", VNum (-32700)%float);
                                 ("message", VStr "Parse error");
                                 ("data",
                                  VStr "Unexpected end of JSON input")]) |}],
     StdioTransport.new_StdioTransport).
Proof.
  apply (unparseable_line_is_parse_error Sample.NumberToString
           Sample.StringToNumber Sample.JSON_stringify Sample.now
           Sample.reject_all StdioTransport.new_StdioTransport "  {oops  "
           "Unexpected end of JSON input");
    reflexivity.
Defined.

Lemma null_line_is_parse_error_witness :
  exists response,
    StdioTransport.on_line Sample.NumberToString Sample.StringToNumber
      Sample.JSON_stringify Sample.now (Sample.read_as VNull)
      StdioTransport.new_StdioTransport "null"
    = ([response], StdioTransport.new_StdioTransport)
    /\ id response = VNull
    /\ result_of response = None
    /\ error_code response = VNum (-32700)%float.
Proof.
  apply (null_line_is_parse_error Sample.NumberToString
           Sample.StringToNumber Sample.JSON_stringify Sample.now
           (Sample.read_as VNull) StdioTransport.new_StdioTransport "null");
    reflexivity.
Defined.

Lemma request_line_is_answered_once_witness :
  exists response,
    fst (StdioTransport.on_line Sample.NumberToString Sample.StringToNumber
           Sample.JSON_stringify Sample.now
           (Sample.read_as (Sample.request (VStr "a") "tools/list" VUndefined))
           StdioTransport.new_StdioTransport "{}")
    = [response]
    /\ id response
       = get_prop (Sample.request (VStr "a") "tools/list" VUndefined) "id"
    /\ ((result_of response = None /\ exists e, error_of response = Some e)
        \/ (error_of response = None
            /\ exists r, result_of response = Some r)).
Proof.
  apply (request_line_is_answered_once Sample.NumberToString
           Sample.StringToNumber Sample.JSON_stringify Sample.now
           (Sample.read_as (Sample.request (VStr "a") "tools/list" VUndefined))
           StdioTransport.new_StdioTransport "{}"
           (Sample.request (VStr "a") "tools/list" VUndefined));
    reflexivity.
Defined.

End TransportFacts.

(** ** The logger *)

Module LoggerFacts.
Import Js Logger.

Section Logging.
Variable NumberToString : float -> string.
Variable JSON_stringify : value -> string.
Variable now : string.


(** [shouldLog] throws exactly when the level does not convert, which is
    what [McpHandler.logs] asks of the level of the module's logger. *)
Lemma shouldLog_throws (l : t) (level : LogLevel) :
  shouldLog NumberToString l level = None
  <-> convertible (currentLevel l) = false.
Proof.
  unfold shouldLog, rank.
  rewrite (ConversionFacts.convertible_ToString NumberToString).
  destruct (ToString NumberToString (currentLevel l)) as [key|];
    cbn [option_map].
  - destruct (option_map LOG_LEVELS (level_of_key key)); split; discriminate.
  - split; reflexivity.
Qed.


(** [logging/setLevel] stores whatever [level] it is given.  When that
    value converts to a string that is not the name of a level, the
    handler returns, and a logger set to the value writes nothing at
    all, whatever the method: not even an emergency. *)
Theorem unknown_level_silences_logger (this : McpHandler.McpData)
  (params : value) (out : console) (l : t) (level : LogLevel)
  (message : string) (data : value) :
  McpHandler.logs this = true ->
  nullish params = false ->
  rank NumberToString (get_prop params "level") = Some None ->
  fst (McpHandler.handleSetLevel NumberToString this params) = inr VUndefined
  /\ McpHandler.logLevel
       (snd (McpHandler.handleSetLevel NumberToString this params))
     = get_prop params "level"
  /\ write NumberToString JSON_stringify now out
       (setLogLevel l
          (McpHandler.logLevel
             (snd (McpHandler.handleSetLevel NumberToString this params))))
       level message data
     = Silent.
Proof.
  intros Hl Hnn Hrank.
  assert (Hconv : convertible (get_prop params "level") = true).
  { rewrite (ConversionFacts.convertible_ToString NumberToString).
    unfold rank in Hrank.
    destruct (ToString NumberToString (get_prop params "level"));
      [reflexivity | discriminate]. }
  assert (Hrun : McpHandler.handleSetLevel NumberToString this params
                 = (inr VUndefined,
                    McpHandler.set_logLevel this (get_prop params "level"))).
  { unfold McpHandler.handleSetLevel, McpHandler.str_of.
    rewrite Hl, Hnn. cbn [negb].
    destruct (ConversionFacts.ToString_returns NumberToString _ Hconv)
      as [key ->].
    unfold McpHandler.logs.
    cbn [McpHandler.logLevel McpHandler.set_logLevel]. rewrite Hconv.
    reflexivity. }
  rewrite Hrun. cbn [fst snd McpHandler.set_logLevel McpHandler.logLevel].
  split; [reflexivity|]. split; [reflexivity|].
  unfold write, shouldLog, setLogLevel. cbn [setLevel currentLevel].
  rewrite Hrank. reflexivity.
Qed.

(** When the value does not convert, the handler has stored it when its
    template literal throws, and every method of a logger set to the
    value throws. *)
Lemma unconvertible_level_breaks_logger (this : McpHandler.McpData)
  (params : value) (out : console) (l : t) (level : LogLevel)
  (message : string) (data : value) :
  McpHandler.logs this = true ->
  nullish params = false ->
  convertible (get_prop params "level") = false ->
  McpHandler.handleSetLevel NumberToString this params
  = (inl McpHandler.conversion_error,
     McpHandler.set_logLevel this (get_prop params "level"))
  /\ write NumberToString JSON_stringify now out
       (setLogLevel l (get_prop params "level")) level message data
     = Throws.
Proof.
  intros Hl Hnn Hconv. split.
  - unfold McpHandler.handleSetLevel, McpHandler.str_of.
    rewrite Hl, Hnn. cbn [negb].
    rewrite (proj2 (ConversionFacts.ToString_throws NumberToString _) Hconv).
    reflexivity.
  - unfold write.
    rewrite (proj2 (shouldLog_throws
                      (setLogLevel l (get_prop params "level")) level) Hconv).
    reflexivity.
Qed.
End Logging.

Lemma unknown_level_silences_logger_witness :
  fst (McpHandler.handleSetLevel Sample.NumberToString
         (McpHandler.data Sample.express)
         (VObj [("level", VStr "verbose")])) = inr VUndefined
  /\ McpHandler.logLevel
       (snd (McpHandler.handleSetLevel Sample.NumberToString
               (McpHandler.data Sample.express)
               (VObj [("level", VStr "verbose")])))
     = get_prop (VObj [("level", VStr "verbose")]) "level"
  /\ write Sample.NumberToString Sample.JSON_stringify Sample.now
       console_error
       (setLogLevel logger
          (McpHandler.logLevel
             (snd (McpHandler.handleSetLevel Sample.NumberToString
                     (McpHandler.data Sample.express)
                     (VObj [("level", VStr "verbose")])))))
       Emergency "disk full" VUndefined
     = Silent.
Proof.
  apply (unknown_level_silences_logger Sample.NumberToString
           Sample.JSON_stringify Sample.now (McpHandler.data Sample.express)
           (VObj [("level", VStr "verbose")]) console_error logger Emergency
           "disk full" VUndefined);
    reflexivity.
Defined.

(** A child is created once: asking again returns the same logger, also
    after the parent's level has changed, so a child keeps the level its
    parent had when the child was first asked for. *)
Theorem child_is_cached (l : t) (childOf : string) (level : value) :
  fst (child (snd (child l childOf)) childOf) = fst (child l childOf)
  /\ fst (child (setLevel (snd (child l childOf)) level) childOf)
     = fst (child l childOf)
  /\ currentLevel (fst (child (setLevel (new_Logger (name l)) level) childOf))
     = level.
Proof.
  assert (Hget : map_get (name l ++ ":" ++ childOf)
                   (loggers (snd (child l childOf)))
                 = Some (fst (child l childOf))).
  { unfold child.
    destruct (map_get (name l ++ ":" ++ childOf) (loggers l)) as [found|]
      eqn:Hfound; cbn [fst snd].
    - exact Hfound.
    - cbn [loggers]. apply MapFacts.map_get_set_same. }
  assert (Hname : name (snd (child l childOf)) = name l).
  { unfold child.
    destruct (map_get (name l ++ ":" ++ childOf) (loggers l)); reflexivity. }
  split; [|split].
  - unfold child at 1. rewrite Hname, Hget. reflexivity.
  - unfold child at 1. cbn [setLevel name loggers]. rewrite Hname, Hget.
    reflexivity.
  - reflexivity.
Qed.

End LoggerFacts.

(** ** The providers of the examples *)

Module ProviderFacts.
Import Js.

(** [getContent] returns a content exactly for the uris listed in
    [exampleResources]; for every other uri it throws [Unknown resource:
    uri]. *)
Theorem content_exactly_for_listed_resources
  (JSON_stringify_pretty : value -> string) (uptime : float)
  (memoryUsage : value) (now : string) (uri : string) :
  (existsb (String.eqb uri)
     (map Resource.uri ResourceProvider.exampleResources) = true
   /\ exists content,
        ResourceProvider.getContent JSON_stringify_pretty uptime memoryUsage
          now uri = inr content)
  \/ (existsb (String.eqb uri)
        (map Resource.uri ResourceProvider.exampleResources) = false
      /\ ResourceProvider.getContent JSON_stringify_pretty uptime memoryUsage
           now uri = inl ("Unknown resource: " ++ uri)).
Proof.
  unfold ResourceProvider.getContent.
  cbn [map ResourceProvider.exampleResources Resource.uri existsb].
  destruct (uri =? "system://status");
    [left; split; [reflexivity | eexists; reflexivity]|].
  destruct (uri =? "docs://api");
    [left; split; [reflexivity | eexists; reflexivity]|].
  destruct (uri =? "config://capabilities");
    [left; split; [reflexivity | eexists; reflexivity]|].
  destruct (uri =? "data://sample.json");
    [left; split; [reflexivity | eexists; reflexivity]|].
  right. split; reflexivity.
Qed.

(** With arguments present, [execute] throws [Unknown tool: name] exactly
    for the names that [exampleTools] does not list; of the listed tools
    only [base64_encode] can throw, and [weather] for a location that
    does not convert to a string: [file_list] and [base64_decode] report
    a failure of the file system, of the decoder or of a conversion as
    text. *)
Theorem execute_by_listed_tool
  (NumberToString : float -> string)
  (readdir : value -> string + list string)
  (utf8_to_base64 base64_to_utf8 : value -> string + string)
  (toolName : string) (args : value) :
  nullish args = false ->
  (existsb (String.eqb toolName)
     (map Tool.name ToolExecutor.exampleTools) = false
   /\ ToolExecutor.execute NumberToString readdir utf8_to_base64
        base64_to_utf8 toolName args = inl ("Unknown tool: " ++ toolName))
  \/ (existsb (String.eqb toolName)
        (map Tool.name ToolExecutor.exampleTools) = true
      /\ ((toolName =? "base64_encode") = true
          \/ ((toolName =? "weather") = true
              /\ convertible (get_prop args "location") = false
              /\ ToolExecutor.execute NumberToString readdir utf8_to_base64
                   base64_to_utf8 toolName args = inl cannot_convert)
          \/ exists text,
               ToolExecutor.execute NumberToString readdir utf8_to_base64
                 base64_to_utf8 toolName args = inr text)).
Proof.
  intros Hnn. unfold ToolExecutor.execute.
  cbn [map ToolExecutor.exampleTools Tool.name existsb].
  destruct (toolName =? "file_list") eqn:Hfile.
  { right. split; [reflexivity|]. right. right.
    unfold ToolExecutor.executeFileList. rewrite Hnn.
    destruct (readdir _); [eexists; reflexivity|].
    destruct (ToolExecutor.str_of NumberToString _); eexists; reflexivity. }
  destruct (toolName =? "weather") eqn:Hweather.
  { right. split; [reflexivity|]. right.
    unfold ToolExecutor.executeWeather, ToolExecutor.str_of. rewrite Hnn.
    rewrite (ConversionFacts.convertible_ToString NumberToString).
    destruct (ToString NumberToString (get_prop args "location")).
    - right. eexists; reflexivity.
    - left. repeat split. }
  destruct (toolName =? "base64_encode").
  { right. split; [reflexivity|]. left. reflexivity. }
  destruct (toolName =? "base64_decode").
  { right. split; [reflexivity|]. right. right.
    unfold ToolExecutor.executeBase64Decode. rewrite Hnn.
    destruct (base64_to_utf8 _); eexists; reflexivity. }
  left. split; reflexivity.
Qed.

Lemma execute_by_listed_tool_witness :
  (existsb (String.eqb "file_list")
     (map Tool.name ToolExecutor.exampleTools) = false
   /\ ToolExecutor.execute Sample.NumberToString
        (fun _ => inl "ENOENT: no such file or directory")
        (fun _ => inr "") (fun _ => inr "") "file_list"
        (VObj [("path", VStr "/missing")])
      = inl ("Unknown tool: " ++ "file_list"))
  \/ (existsb (String.eqb "file_list")
        (map Tool.name ToolExecutor.exampleTools) = true
      /\ (("file_list" =? "base64_encode") = true
          \/ (("file_list" =? "weather") = true
              /\ convertible
                   (get_prop (VObj [("path", VStr "/missing")]) "location")
                 = false
              /\ ToolExecutor.execute Sample.NumberToString
                   (fun _ => inl "ENOENT: no such file or directory")
                   (fun _ => inr "") (fun _ => inr "") "file_list"
                   (VObj [("path", VStr "/missing")])
                 = inl cannot_convert)
          \/ exists text,
               ToolExecutor.execute Sample.NumberToString
                 (fun _ => inl "ENOENT: no such file or directory")
                 (fun _ => inr "") (fun _ => inr "") "file_list"
                 (VObj [("path", VStr "/missing")])
               = inr text)).
Proof.
  apply (execute_by_listed_tool Sample.NumberToString
           (fun _ => inl "ENOENT: no such file or directory")
           (fun _ => inr "") (fun _ => inr "") "file_list"
           (VObj [("path", VStr "/missing")])).
  reflexivity.
Defined.

End ProviderFacts.

